(** * StockMarketProject: the dashboard script [main.py]

    A shallow embedding of the Streamlit script: the two helper functions
    ([calculate_percentage_return], [fetch_api_data]) and the top-level
    fetch / transform / render pipeline, followed by the properties that
    the specification states about them.

    Modelling conventions.
    - Every JSON number is read as an IEEE-754 binary64 value, Rocq's
      primitive [float]; arithmetic is the kernel's correctly rounded
      arithmetic, the one CPython and numpy use.
    - A Python number carries its run-time class ([PyFloat] or
      [NpFloat64]): true division by zero raises [ZeroDivisionError] on
      built-in floats and follows IEEE-754 (inf / nan) on numpy scalars.
    - The script's effects (widgets drawn in the main area, HTTP requests
      issued) are recorded in a trace; exceptions and [st.stop()] end the
      run.  The sidebar widgets are the run's inputs.  A metric tile is
      recorded with the number it shows, not with its formatted text.
    - Provider payloads are typed the way the provider documents them:
      a JSON object whose optional "results" entry is a list of bars
      (aggregates) or an object with an optional "name" (ticker details).
    - A response carries what [res.json()] does on it: the decoded body,
      requests' [JSONDecodeError], or an exception of the decoder's own
      ([RecursionError]), which is no [RequestException].
    - Which timestamps [pd.to_datetime] converts is pandas' business: the
      development takes it as a parameter ([Pandas]) and every statement
      holds whatever pandas decides; the worked examples fix one. *)

From Stdlib Require Import ZArith Lia List String Ascii Bool.
From Stdlib Require Import Floats.
From stdpp Require Import base option gmap strings.

Import ListNotations.
Local Open Scope string_scope.
Local Open Scope Z_scope.

(* ===================================================================== *)
(** ** Python run-time: exceptions, outcomes, the trace monad            *)
(* ===================================================================== *)

Module Py.

(** The exception classes the script can meet.  [RequestException]
    stands for [requests.exceptions.RequestException] and carries the
    subclass that was raised. *)
Inductive request_error : Type :=
| Timeout
| ConnectionError
| HTTPError
| TooManyRedirects
| InvalidURL
| JSONDecodeError.

Inductive exn : Type :=
| ZeroDivisionError
| KeyError (key : string)
| IndexError
| RequestException (sub : request_error)
| OtherException (name : string).

(** [isinstance(e, requests.exceptions.RequestException)], the test an
    [except requests.exceptions.RequestException] clause performs. *)
Definition is_RequestException (e : exn) : bool :=
  match e with
  | RequestException _ => true
  | _ => false
  end.

(** Two exceptions of other libraries that reach the script: the JSON
    decoder's on a body nested too deeply, and pandas' on an instant that
    a nanosecond timestamp cannot hold. *)
Definition RecursionError : exn := OtherException "RecursionError".
Definition OutOfBoundsDatetime : exn := OtherException "OutOfBoundsDatetime".

(** How a run, or a part of it, ends. *)
Inductive outcome (A : Type) : Type :=
| Ret (a : A)
| Raise (e : exn)
| Stop.
Arguments Ret {A} a.
Arguments Raise {A} e.
Arguments Stop {A}.

End Py.
Export Py.

(* ===================================================================== *)
(** ** Numbers                                                           *)
(* ===================================================================== *)

Module Num.

(** A Python number with its run-time class. *)
Inductive number : Type :=
| PyFloat (x : float)
| NpFloat64 (x : float).

Definition value (n : number) : float :=
  match n with
  | PyFloat x => x
  | NpFloat64 x => x
  end.

(** [a - b]: a numpy operand makes the result a numpy scalar. *)
Definition sub (a b : number) : number :=
  match a, b with
  | PyFloat x, PyFloat y => PyFloat (PrimFloat.sub x y)
  | _, _ => NpFloat64 (PrimFloat.sub (value a) (value b))
  end.

(** [a * b]. *)
Definition mul (a b : number) : number :=
  match a, b with
  | PyFloat x, PyFloat y => PyFloat (PrimFloat.mul x y)
  | _, _ => NpFloat64 (PrimFloat.mul (value a) (value b))
  end.

(** [a / b]: built-in floats raise on a zero divisor ([0.0] and
    [-0.0] alike); numpy scalars divide as IEEE-754 does. *)
Definition truediv (a b : number) : outcome number :=
  match a, b with
  | PyFloat x, PyFloat y =>
      if PrimFloat.eqb y 0%float then Raise ZeroDivisionError
      else Ret (PyFloat (PrimFloat.div x y))
  | _, _ => Ret (NpFloat64 (PrimFloat.div (value a) (value b)))
  end.

(** The literal [100] of the source, converted to a float by the
    multiplication (the conversion is exact). *)
Definition hundred : number := PyFloat 100%float.

End Num.
Export Num.

(* ===================================================================== *)
(** ** Section 1 of the script: constants                                *)
(* ===================================================================== *)

Definition START_DATE : string := "2024-04-01".
Definition END_DATE : string := "2026-02-05".
Definition POPULAR_STOCKS : list string :=
  ["AAPL"; "MSFT"; "TSLA"; "AMZN"; "GOOGL"; "NVDA"; "META"].
Definition BENCHMARK_MAP : gmap string string :=
  <["S&P 500 (SPY)" := "SPY"]>
  (<["Nasdaq (QQQ)" := "QQQ"]>
  (<["Dow Jones (DIA)" := "DIA"]> ∅)).

(* ===================================================================== *)
(** ** Section 2 of the script: helper functions                         *)
(* ===================================================================== *)

(** [calculate_percentage_return(past_val, current_val)]:
    [((current_val - past_val) / past_val) * 100]. *)
Definition calculate_percentage_return (past_val current_val : number)
  : outcome number :=
  match Num.truediv (Num.sub current_val past_val) past_val with
  | Ret q => Ret (Num.mul q Num.hundred)
  | Raise e => Raise e
  | Stop => Stop
  end.

(* ===================================================================== *)
(** ** Effects: what a run shows and what it sends                       *)
(* ===================================================================== *)

(** A pandas [Series] of numbers (dtype float64).  Dates are kept as the
    millisecond count [pd.to_datetime(..., unit='ms')] interprets. *)
Definition Series : Type := list float.

(** A pandas [DataFrame]: the length of its index and its columns, each
    under its label, in column order.  [pd.DataFrame()] is the frame with
    no rows and no columns. *)
Record DataFrame : Type := mkDataFrame
  { nrows : nat;
    columns : list (string * Series) }.

Definition empty_frame : DataFrame := mkDataFrame 0 [].

(** The observable steps of a run, in the order the script performs them. *)
Inductive event : Type :=
| HttpGet (url : string) (timeout : Z)
| HttpHead (url : string) (timeout : Z)
| Title (text : string)
| Warning (text : string)
| Error (text : string)
| Header (text : string)
| Subheader (text : string)
| Markdown (text : string)
| Info (text : string)
| Image (url : string) (width : Z)
| Columns (n : nat)
| Metric (label : string) (shown : number) (delta : option number)
| Tabs (first second : string)
| Candlestick (x open high low close : Series)
| GrowthChart (x y : Series) (name : string)
              (bench_x bench_y : Series) (bench_name : string)
| LinkButton (label url : string)
| RawDataTable (df : DataFrame).

Definition is_http (ev : event) : bool :=
  match ev with
  | HttpGet _ _ | HttpHead _ _ => true
  | _ => false
  end.

(** A computation: the events it produced and how it ended. *)
Definition M (A : Type) : Type := list event * outcome A.

Definition ret {A} (a : A) : M A := ([], Ret a).
Definition raise {A} (e : exn) : M A := ([], Raise e).
Definition st_stop {A} : M A := ([], Stop).
Definition emit (ev : event) : M unit := ([ev], Ret tt).
Definition lift {A} (o : outcome A) : M A := ([], o).

Definition bind {A B} (m : M A) (k : A -> M B) : M B :=
  match m with
  | (t, Ret a) => let '(t', o) := k a in ((t ++ t')%list, o)
  | (t, Raise e) => (t, Raise e)
  | (t, Stop) => (t, Stop)
  end.

Notation "'let*' x ':=' m 'in' k" := (bind m (fun x => k))
  (at level 10, x pattern, k at level 200).
Notation "m >>> k" := (bind m (fun _ => k))
  (at level 100, right associativity).

Definition trace {A} (m : M A) : list event := fst m.
Definition result {A} (m : M A) : outcome A := snd m.

(* ===================================================================== *)
(** ** The outside world: configuration, user input, the network         *)
(* ===================================================================== *)

(** One daily bar as the provider sends it (short field codes). *)
Record bar : Type := mkBar
  { bar_o : float; bar_h : float; bar_l : float; bar_c : float;
    bar_v : float; bar_t : float }.

(** The aggregates payload: a JSON object; ["results"] may be absent. *)
Record aggs_payload : Type := mkAggs
  { aggs_results : option (list bar) }.

(** The ticker-details payload. *)
Record details_results : Type := mkDetailsResults
  { details_name : option string }.
Record details_payload : Type := mkDetails
  { details_results_field : option details_results }.

(** What [requests.get] / [requests.head] does for one call.  It returns
    a response with a status code and a body that is JSON ([Some], the
    value [res.json()] decodes it to) or is not ([None]: [res.json()]
    raises requests' [JSONDecodeError]); or it raises ([Failed]); or it
    returns a response on whose body [res.json()] fails with an exception
    of the decoder's own ([Garbled]: [RecursionError] on a body nested
    too deeply, [MemoryError], ...). *)
Inductive http_outcome (A : Type) : Type :=
| Responded (status_code : Z) (body : option A)
| Failed (e : exn)
| Garbled (status_code : Z) (e : exn).
Arguments Responded {A} status_code body.
Arguments Failed {A} e.
Arguments Garbled {A} status_code e.

(** The response object [res]: [res.status_code], and what [res.json()]
    does when it is called. *)
Record response (A : Type) : Type := mkResponse
  { status_code : Z;
    json : outcome A }.
Arguments mkResponse {A} status_code json.
Arguments status_code {A} r.
Arguments json {A} r.

Inductive input_method : Type := ChooseFromList | TypeManually.

(** The widgets' values for one run. *)
Record inputs : Type := mkInputs
  { input_choice : input_method;
    popular_stock : string;
    typed_symbol : string;
    benchmark_label : string }.

(** The secret store and the provider, as the run meets them. *)
Record world : Type := mkWorld
  { POLYGON_API_KEY : string;
    get_aggs : string -> http_outcome aggs_payload;
    get_details : string -> http_outcome details_payload;
    head_logo : string -> http_outcome unit }.

(** ** Section 2 of the script, continued: [fetch_api_data] *)

(** [requests.get(url, timeout=...)] or [requests.head(...)]: the request
    goes out, then the call returns the response or raises. *)
Definition send {A} (request : event) (answer : http_outcome A)
  : M (response A) :=
  emit request >>>
  match answer with
  | Responded code (Some parsed) => ret (mkResponse code (Ret parsed))
  | Responded code None =>
      ret (mkResponse code (Raise (RequestException JSONDecodeError)))
  | Garbled code e => ret (mkResponse code (Raise e))
  | Failed e => raise e
  end.

(** [res.json()]: the decoded body, requests' [JSONDecodeError] (a
    subclass of [RequestException] since requests 2.27) on a body that is
    not JSON, or the decoder's own exception, which is no
    [RequestException]. *)
Definition res_json {A} (res : response A) : M A := lift (json res).

(** [try: body except requests.exceptions.RequestException: handler]. *)
Definition try_except_RequestException {A} (body handler : M A) : M A :=
  match body with
  | (t, Raise e) =>
      if is_RequestException e
      then let '(t', o) := handler in ((t ++ t')%list, o)
      else (t, Raise e)
  | _ => body
  end.

(** [fetch_api_data(target_url)] (source lines 25 to 31). *)
Definition fetch_api_data {A} (requests_get : string -> http_outcome A)
    (target_url : string) : M (option A) :=
  try_except_RequestException
    (let* res := send (HttpGet target_url 10) (requests_get target_url) in
     if status_code res =? 200 then
       let* parsed := res_json res in ret (Some parsed)
     else ret None)
    (ret None).

(* ===================================================================== *)
(** ** The pandas and str operations the script uses                     *)
(* ===================================================================== *)

(** What the script leaves to pandas: which series of millisecond counts
    [pd.to_datetime(..., unit='ms')] converts.  On the others (an instant
    outside the range of nanosecond timestamps, an infinity) it raises
    [OutOfBoundsDatetime]. *)
Class Pandas : Type := { datetime_in_bounds : Series -> bool }.

Module Pd.

(** The column under a label, if the frame has one. *)
Fixpoint column (cols : list (string * Series)) (key : string)
  : option Series :=
  match cols with
  | [] => None
  | (k, s) :: rest => if String.eqb k key then Some s else column rest key
  end.

(** Replace the column under a label, or append a new one. *)
Fixpoint set_column (cols : list (string * Series)) (key : string)
    (s : Series) : list (string * Series) :=
  match cols with
  | [] => [(key, s)]
  | (k, old) :: rest =>
      if String.eqb k key then (k, s) :: rest
      else (k, old) :: set_column rest key s
  end.

(** [pd.DataFrame(records)]: one row per record, one column per field
    code; no record, no column. *)
Definition DataFrame_of (records : list bar) : DataFrame :=
  match records with
  | [] => empty_frame
  | _ :: _ =>
      mkDataFrame (length records)
        [("v", map bar_v records); ("o", map bar_o records);
         ("c", map bar_c records); ("h", map bar_h records);
         ("l", map bar_l records); ("t", map bar_t records)]
  end.

(** [df.rename(columns=mapping)]: every label the mapping knows is
    replaced, the others stay. *)
Definition rename (df : DataFrame) (mapping : gmap string string)
  : DataFrame :=
  mkDataFrame (nrows df)
    (map (fun '(k, s) => (default k (mapping !! k), s)) (columns df)).

(** [df[key]]. *)
Definition getitem (df : DataFrame) (key : string) : M Series :=
  match column (columns df) key with
  | Some s => ret s
  | None => raise (KeyError key)
  end.

(** [df[key] = s]. *)
Definition setitem (df : DataFrame) (key : string) (s : Series)
  : DataFrame :=
  mkDataFrame (nrows df) (set_column (columns df) key s).

(** [s.iloc[i]] for an integer [i]; a negative [i] counts from the end.
    The element comes back as a numpy scalar. *)
Definition iloc (s : Series) (i : Z) : M number :=
  let n := Z.of_nat (length s) in
  let j := if i <? 0 then n + i else i in
  if (0 <=? j) && (j <? n)
  then match nth_error s (Z.to_nat j) with
       | Some x => ret (NpFloat64 x)
       | None => raise IndexError
       end
  else raise IndexError.

(** [pd.to_datetime(s, unit='ms')]: the instants, still counted in
    milliseconds since the epoch, when pandas can hold them all. *)
Definition to_datetime_ms {pandas : Pandas} (s : Series) : M Series :=
  if datetime_in_bounds s then ret s else raise OutOfBoundsDatetime.

(** [(s / d) * 100], element by element, IEEE-754 throughout. *)
Definition div_mul100 (s : Series) (d : number) : Series :=
  map (fun x => PrimFloat.mul (PrimFloat.div x (Num.value d)) 100%float) s.

(** [len(df)]. *)
Definition len (df : DataFrame) : Z := Z.of_nat (nrows df).

End Pd.

Module Str.

Definition upper_ascii (c : ascii) : ascii :=
  let n := nat_of_ascii c in
  if ((97 <=? n) && (n <=? 122))%nat then ascii_of_nat (n - 32) else c.

(** [s.upper()], on ASCII text, which is what ticker symbols are made
    of: the letters a to z are mapped and every other byte is kept.
    (Python also maps the letters outside ASCII, some of them to two
    characters; such input is outside this development.) *)
Fixpoint upper (s : string) : string :=
  match s with
  | EmptyString => EmptyString
  | String c rest => String (upper_ascii c) (upper rest)
  end.

(** Truth value of a [str]: empty is false. *)
Definition truthy (s : string) : bool :=
  match s with
  | EmptyString => false
  | String _ _ => true
  end.

End Str.

(* ===================================================================== *)
(** ** Sections 4 to 6 of the script                                     *)
(* ===================================================================== *)

(** The module-level variables a finished run leaves behind. *)
Record globals : Type := mkGlobals
  { main_df : DataFrame;
    bench_df : DataFrame;
    outperform_val : option number }.

Definition dashboard_title : string :=
  "📈 Stock Market Intelligence Dashboard".
Definition fetch_failed_message : string :=
  "⚠️ Error: Data fetch failed. Check your connection, ticker, or API limit.".
Definition begin_prompt : string :=
  "Please select or enter a ticker symbol to begin.".
Definition select_benchmark_prompt : string :=
  "Please select a benchmark in the sidebar to see the growth comparison chart.".

Definition aggs_url (w : world) (ticker : string) : string :=
  "https://api.polygon.io/v2/aggs/ticker/" ++ ticker ++ "/range/1/day/"
    ++ START_DATE ++ "/" ++ END_DATE
    ++ "?adjusted=true&sort=asc&apiKey=" ++ POLYGON_API_KEY w.

Definition info_url (w : world) (ticker : string) : string :=
  "https://api.polygon.io/v3/reference/tickers/" ++ ticker
    ++ "?apiKey=" ++ POLYGON_API_KEY w.

Definition img_url (ticker : string) : string :=
  "https://companiesmarketcap.com/img/company-logos/64/" ++ ticker ++ ".webp".

(** Section 4: the symbol the sidebar yields. *)
Definition symbol_of (i : inputs) : string :=
  match input_choice i with
  | ChooseFromList => popular_stock i
  | TypeManually => Str.upper (typed_symbol i)
  end.

(** [raw and 'results' in raw], then [raw['results']]. *)
Definition usable_results (raw : option aggs_payload) : option (list bar) :=
  match raw with
  | Some payload => aggs_results payload
  | None => None
  end.

(** Header logic: display name, logo probe, header. *)
Definition company_name_of (details_raw_data : option details_payload)
    (symbol : string) : string :=
  match details_raw_data with
  | Some d =>
      match details_results_field d with
      | Some r => match details_name r with Some n => n | None => symbol end
      | None => symbol
      end
  | None => symbol
  end.

Definition logo_column (w : world) (symbol : string) : M unit :=
  try_except_RequestException
    (let* res := send (HttpHead (img_url symbol) 2)
                   (head_logo w (img_url symbol)) in
     if status_code res =? 200 then emit (Image (img_url symbol) 70)
     else emit (Markdown "## 🏢"))
    (emit (Markdown "## 🏢")).

(** The [columns=] argument of the rename (source line 97). *)
Definition column_names : gmap string string :=
  <["c" := "Close"]> (<["h" := "High"]> (<["l" := "Low"]>
  (<["o" := "Open"]> (<["t" := "Timestamp"]> (<["v" := "Volume"]> ∅))))).

(** DataFrame transformation (source lines 95 to 98). *)
Definition transform {pandas : Pandas} (results : list bar)
  : M DataFrame :=
  let df := Pd.DataFrame_of results in
  let df := Pd.rename df column_names in
  let* ts := Pd.getitem df "Timestamp" in
  let* dates := Pd.to_datetime_ms ts in
  ret (Pd.setitem df "Date" dates).

(** Metrics calculation (source lines 101 to 103):
    [(latest_price, ret_total, ret_week)]. *)
Definition metrics (df : DataFrame) : M (number * number * number) :=
  let* close := Pd.getitem df "Close" in
  let* latest_price := Pd.iloc close (-1) in
  let* close := Pd.getitem df "Close" in
  let* first := Pd.iloc close 0 in
  let* ret_total := lift (calculate_percentage_return first latest_price) in
  let* ret_week :=
    if 5 <=? Pd.len df then
      let* close := Pd.getitem df "Close" in
      let* back := Pd.iloc close (-5) in
      lift (calculate_percentage_return back latest_price)
    else ret ret_total in
  ret (latest_price, ret_total, ret_week).

(** [outperformance = ret_total - bench_total_ret] (source line 115). *)
Definition outperformance (ret_total bench_total_ret : number) : number :=
  Num.sub ret_total bench_total_ret.

(** Comparison logic (source lines 106 to 116). *)
Definition comparison {pandas : Pandas} (df : DataFrame)
    (ret_total : number) (benchmark_raw_data : option aggs_payload)
  : M globals :=
  match usable_results benchmark_raw_data with
  | Some bench_results =>
      let bdf := Pd.DataFrame_of bench_results in
      let* bt := Pd.getitem bdf "t" in
      let* bdates := Pd.to_datetime_ms bt in
      let bdf := Pd.setitem bdf "Date" bdates in
      let* close := Pd.getitem df "Close" in
      let* first := Pd.iloc close 0 in
      let df := Pd.setitem df "Normalized" (Pd.div_mul100 close first) in
      let* bc := Pd.getitem bdf "c" in
      let* bfirst := Pd.iloc bc 0 in
      let bdf := Pd.setitem bdf "Normalized" (Pd.div_mul100 bc bfirst) in
      let* bc := Pd.getitem bdf "c" in
      let* bfirst := Pd.iloc bc 0 in
      let* blast := Pd.iloc bc (-1) in
      let* bench_total_ret := lift (calculate_percentage_return bfirst blast) in
      ret (mkGlobals df bdf (Some (outperformance ret_total bench_total_ret)))
  | None => ret (mkGlobals df empty_frame None)
  end.

(** The metric tiles (source lines 119 to 125). *)
Definition metric_tiles (i : inputs) (latest_price ret_week ret_total : number)
    (outperform : option number) : M unit :=
  emit (Markdown "### 📊 Performance Metrics") >>>
  emit (Columns (match outperform with Some _ => 4 | None => 3 end)) >>>
  emit (Metric "Current Price" latest_price None) >>>
  emit (Metric "Week Change" ret_week (Some ret_week)) >>>
  emit (Metric "Total Change" ret_total (Some ret_total)) >>>
  match outperform with
  | Some v => emit (Metric ("vs. " ++ benchmark_label i) v (Some v))
  | None => ret tt
  end.

(** Tab 1: the candlestick chart of the primary series. *)
Definition candlestick_tab (df : DataFrame) : M unit :=
  let* x := Pd.getitem df "Date" in
  let* o := Pd.getitem df "Open" in
  let* h := Pd.getitem df "High" in
  let* l := Pd.getitem df "Low" in
  let* c := Pd.getitem df "Close" in
  emit (Candlestick x o h l c).

(** Tab 2: the growth comparison, or a prompt to select a benchmark. *)
Definition comparison_tab (i : inputs) (symbol : string) (g : globals)
  : M unit :=
  match outperform_val g with
  | Some _ =>
      let* x := Pd.getitem (main_df g) "Date" in
      let* y := Pd.getitem (main_df g) "Normalized" in
      let* bx := Pd.getitem (bench_df g) "Date" in
      let* by_ := Pd.getitem (bench_df g) "Normalized" in
      emit (GrowthChart x y symbol bx by_ (benchmark_label i)) >>>
      emit (Info ("This chart compares the relative performance starting from "
                  ++ START_DATE ++ " of a $100 investment in " ++ symbol
                  ++ " vs " ++ benchmark_label i ++ "."))
  | None => emit (Info select_benchmark_prompt)
  end.

Definition research_links (symbol : string) : M unit :=
  emit (Markdown "---") >>>
  emit (Subheader "📰 Market Insights") >>>
  emit (Columns 3) >>>
  emit (LinkButton "Yahoo Finance"
          ("https://finance.yahoo.com/quote/" ++ symbol)) >>>
  emit (LinkButton "Seeking Alpha"
          ("https://seekingalpha.com/symbol/" ++ symbol)) >>>
  emit (LinkButton "Google News"
          ("https://www.google.com/search?q=" ++ symbol ++ "+stock+news&tbm=nws")).

(** Section 6, the branch taken when the primary payload has a
    ["results"] entry (source lines 75 to 168). *)
Definition render {pandas : Pandas} (w : world) (i : inputs)
    (symbol : string) (results : list bar)
    (details_raw_data : option details_payload)
    (benchmark_raw_data : option aggs_payload) : M globals :=
  emit (Title dashboard_title) >>>
  let company_name := company_name_of details_raw_data symbol in
  emit (Columns 2) >>>
  logo_column w symbol >>>
  emit (Header company_name) >>>
  let* df := transform results in
  let* m := metrics df in
  let '(latest_price, ret_total, ret_week) := m in
  let* g := comparison df ret_total benchmark_raw_data in
  metric_tiles i latest_price ret_week ret_total (outperform_val g) >>>
  emit (Tabs "🕯️ Candlestick Chart" "📈 Growth Comparison") >>>
  candlestick_tab (main_df g) >>>
  comparison_tab i symbol g >>>
  research_links symbol >>>
  emit (RawDataTable (main_df g)) >>>
  ret g.

(** Section 5: the two or three fetches, in source order. *)
Definition acquire (w : world) (symbol : string)
    (benchmark_symbol : option string)
  : M (option aggs_payload * option details_payload * option aggs_payload) :=
  let* stock_raw_data := fetch_api_data (get_aggs w) (aggs_url w symbol) in
  let* details_raw_data := fetch_api_data (get_details w) (info_url w symbol) in
  let* benchmark_raw_data :=
    match benchmark_symbol with
    | Some b =>
        if Str.truthy b then fetch_api_data (get_aggs w) (aggs_url w b)
        else ret None
    | None => ret None
    end in
  ret (stock_raw_data, details_raw_data, benchmark_raw_data).

(** The whole script, from the sidebar to the last widget. *)
Definition main {pandas : Pandas} (w : world) (i : inputs) : M globals :=
  let symbol := symbol_of i in
  let benchmark_symbol := BENCHMARK_MAP !! benchmark_label i in
  (if negb (Str.truthy symbol) then
     emit (Title dashboard_title) >>>
     emit (Warning begin_prompt) >>>
     st_stop
   else ret tt) >>>
  let* fetched := acquire w symbol benchmark_symbol in
  let '(stock_raw_data, details_raw_data, benchmark_raw_data) := fetched in
  match usable_results stock_raw_data with
  | Some results =>
      render w i symbol results details_raw_data benchmark_raw_data
  | None =>
      emit (Error fetch_failed_message) >>>
      ret (mkGlobals empty_frame empty_frame None)
  end.

(* ===================================================================== *)
(** ** Vocabulary of the statements                                      *)
(* ===================================================================== *)

(** [(c - p) / p * 100] on binary64 values, the percentage the numpy
    call sites compute. *)
Definition pct (p c : float) : float :=
  PrimFloat.mul (PrimFloat.div (PrimFloat.sub c p) p) 100%float.

(** The primary frame after the renaming and with its dates. *)
Definition primary_frame (results : list bar) : DataFrame :=
  mkDataFrame (length results)
    [("Volume", map bar_v results); ("Open", map bar_o results);
     ("Close", map bar_c results); ("High", map bar_h results);
     ("Low", map bar_l results); ("Timestamp", map bar_t results);
     ("Date", map bar_t results)].

(** The close the week return starts from: the fifth from the end
    ([iloc[-5]]) when there are five rows, the first one otherwise. *)
Definition week_base (close : Series) (d : float) : float :=
  if (5 <=? length close)%nat then nth (length close - 5) close d
  else nth 0 close d.

(** The benchmark frame once the comparison block has added its dates
    and its normalized values. *)
Definition benchmark_frame (bench_results : list bar) (d : float)
  : DataFrame :=
  let c := map bar_c bench_results in
  mkDataFrame (length bench_results)
    [("v", map bar_v bench_results); ("o", map bar_o bench_results);
     ("c", c); ("h", map bar_h bench_results);
     ("l", map bar_l bench_results); ("t", map bar_t bench_results);
     ("Date", map bar_t bench_results);
     ("Normalized", Pd.div_mul100 c (NpFloat64 (nth 0 c d)))].

(** The primary frame with the normalized column the comparison adds. *)
Definition compared_frame (results : list bar) (d : float) : DataFrame :=
  let c := map bar_c results in
  Pd.setitem (primary_frame results) "Normalized"
    (Pd.div_mul100 c (NpFloat64 (nth 0 c d))).

(** The pandas of the worked examples: it converts the instants within
    9223372036854 ms of the epoch, which an int64 count of nanoseconds
    holds, and missing values. *)
Definition ns_timestamps : Pandas :=
  {| datetime_in_bounds s :=
       forallb (fun t => PrimFloat.is_nan t
                         || PrimFloat.leb (PrimFloat.abs t) 9223372036854)
         s |}.

(** A bar that trades at one price all day, for the worked examples. *)
Definition flat_bar (t close : float) : bar :=
  mkBar close close close close 1000%float t.

Definition flat_bars (closes : list float) : list bar :=
  map (flat_bar 0%float) closes.

(** The part of the page that shows the primary series alone: the three
    metric tiles and the candlestick chart. *)
Definition is_primary_rendering (ev : event) : bool :=
  match ev with
  | Metric label _ _ =>
      String.eqb label "Current Price" || String.eqb label "Week Change"
      || String.eqb label "Total Change"
  | Candlestick _ _ _ _ _ => true
  | _ => false
  end.

(** What that part shows for a given primary series. *)
Definition primary_rendering (results : list bar) (d : float) : list event :=
  let close := map bar_c results in
  let latest := nth (length close - 1) close d in
  let ret_total := NpFloat64 (pct (nth 0 close d) latest) in
  let ret_week := NpFloat64 (pct (week_base close d) latest) in
  [Metric "Current Price" (NpFloat64 latest) None;
   Metric "Week Change" ret_week (Some ret_week);
   Metric "Total Change" ret_total (Some ret_total);
   Candlestick (map bar_t results) (map bar_o results) (map bar_h results)
     (map bar_l results) close].

(* ===================================================================== *)
(** ** Vocabulary of the binary64 rounding proofs                        *)
(* ===================================================================== *)

(** Where a quantity [N] lies in the interval [[m * W, (m + 1) * W)], told
    by the round bit [r] (at or above the midpoint) and the sticky bit [s]
    (strictly inside a half). *)
Definition inbetween (m : Z) (r s : bool) (N W : Z) : Prop :=
  match r, s with
  | false, false => N = m * W
  | false, true => m * W < N /\ 2 * N < (2 * m + 1) * W
  | true, false => 2 * N = (2 * m + 1) * W
  | true, true => (2 * m + 1) * W < 2 * N /\ N < (m + 1) * W
  end.

Definition inbetween_record (mrs : shr_record) (N W : Z) : Prop :=
  inbetween (shr_m mrs) (shr_r mrs) (shr_s mrs) N W.

Definition inbetween_loc (m : Z) (l : location) (N W : Z) : Prop :=
  inbetween_record (shr_record_of_loc m l) N W.

(** The mantissa rounded to nearest, ties to even. *)
Definition rounded (mrs : shr_record) : Z :=
  round_nearest_even (shr_m mrs) (loc_of_shr_record mrs).

(** A mantissa and exponent in the shape the format stores: no digits at
    the least exponent, or exactly as many digits as the exponent allows. *)
Definition stored (m e : Z) : Prop :=
  (m = 0 /\ e = -1074) \/ (0 < m /\ fexp prec emax (Zdigits2 m + e) = e).

(** The float a rounded mantissa and its exponent become. *)
Definition assemble (s : bool) (m e : Z) : spec_float :=
  match m with
  | Z0 => S754_zero s
  | Zpos p => if e <=? emax - prec then S754_finite s p e else S754_infinity s
  | Zneg _ => S754_nan
  end.

(** [(s / d) * 100] on one element, as [Pd.div_mul100] maps it. *)
Definition normalized_value (first x : float) : float :=
  PrimFloat.mul (PrimFloat.div x first) 100%float.

(* ===================================================================== *)
(** ** Vocabulary of the further properties                              *)
(* ===================================================================== *)

(** A computation that sends nothing over the network. *)
Definition silent {A} (m : M A) : Prop :=
  List.filter is_http (trace m) = [].

(** A computation that does not end the run the way [st.stop()] does. *)
Definition goes_on {A} (m : M A) : Prop := result m <> Stop.

(** The part of the page that depends on the benchmark: the fourth metric
    tile, the growth chart and the text under or instead of it. *)
Definition is_comparison_rendering (ev : event) : bool :=
  match ev with
  | Metric label _ _ => String.prefix "vs. " label
  | GrowthChart _ _ _ _ _ _ => true
  | Info _ => true
  | _ => false
  end.

(** The inputs of a run in which [text] was typed as the symbol. *)
Definition typed (i : inputs) (text : string) : inputs :=
  mkInputs TypeManually (popular_stock i) text (benchmark_label i).

(** Both at once: what every block of the script is, the two network
    helpers apart. *)
Definition tame {A} (m : M A) : Prop := silent m /\ goes_on m.

(** The total return of a series of bars, as the metrics block computes
    it on the frame's closes. *)
Definition total_return (results : list bar) (d : float) : number :=
  let close := map bar_c results in
  NpFloat64 (pct (nth 0 close d) (nth (length close - 1) close d)).

(** The globals a completed comparison leaves. *)
Definition compared_globals (results bench_results : list bar) (d : float)
  : globals :=
  mkGlobals (compared_frame results d) (benchmark_frame bench_results d)
    (Some (outperformance (total_return results d)
             (total_return bench_results d))).

(** What the benchmark-dependent part of the page shows when both series
    are there. *)
Definition comparison_rendering (i : inputs) (symbol : string)
    (results bench_results : list bar) (d : float) : list event :=
  let c := map bar_c results in
  let bc := map bar_c bench_results in
  let v := outperformance (total_return results d)
             (total_return bench_results d) in
  [Metric ("vs. " ++ benchmark_label i) v (Some v);
   GrowthChart (map bar_t results) (Pd.div_mul100 c (NpFloat64 (nth 0 c d)))
     symbol
     (map bar_t bench_results) (Pd.div_mul100 bc (NpFloat64 (nth 0 bc d)))
     (benchmark_label i);
   Info ("This chart compares the relative performance starting from "
         ++ START_DATE ++ " of a $100 investment in " ++ symbol
         ++ " vs " ++ benchmark_label i ++ ".")].

(** The widgets of the page, the requests left out. *)
Definition widgets {A} (m : M A) : list event :=
  List.filter (fun ev => negb (is_http ev)) (trace m).

(** What is left of the page when the requests, the primary rendering and
    the benchmark-dependent rendering are set aside. *)
Definition is_page_frame (ev : event) : bool :=
  negb (is_http ev || is_primary_rendering ev || is_comparison_rendering ev).

(** The value of a finite float, counted in units of [2 ^ -1074], the
    least positive binary64 number; every finite binary64 number is a
    whole number of them. *)
Definition units (x : spec_float) : Z :=
  match x with
  | S754_finite s m e => cond_Zopp s (Z.pos m * 2 ^ (e + 1074))
  | _ => 0
  end.

(* ===================================================================== *)
(** ** Properties of the helper functions                                *)
(* ===================================================================== *)

Section Helpers.

Lemma truediv_nonzero (a b : number) :
  PrimFloat.eqb (Num.value b) 0%float = false ->
  exists q, Num.truediv a b = Ret q
            /\ Num.value q = PrimFloat.div (Num.value a) (Num.value b).
Proof.
  intros Hnz. destruct a as [x|x], b as [y|y]; simpl in *;
    try rewrite Hnz; eexists; split; reflexivity.
Qed.

Lemma value_sub (a b : number) :
  Num.value (Num.sub a b) = PrimFloat.sub (Num.value a) (Num.value b).
Proof. destruct a, b; reflexivity. Qed.

Lemma value_mul (a b : number) :
  Num.value (Num.mul a b) = PrimFloat.mul (Num.value a) (Num.value b).
Proof. destruct a, b; reflexivity. Qed.

(** [fetch_api_data], run: the one request, and the outcome by what the
    transport and the decoder do. *)
Lemma fetch_api_data_run {A : Type} (requests_get : string -> http_outcome A)
    (url : string) :
  fetch_api_data requests_get url
  = ([HttpGet url 10],
     match requests_get url with
     | Responded code body => Ret (if code =? 200 then body else None)
     | Failed e => if is_RequestException e then Ret None else Raise e
     | Garbled code e =>
         if code =? 200
         then if is_RequestException e then Ret None else Raise e
         else Ret None
     end).
Proof.
  unfold fetch_api_data, try_except_RequestException, send, res_json.
  destruct (requests_get url) as [code [parsed|]|e|code e]; simpl.
  - destruct (code =? 200); reflexivity.
  - destruct (code =? 200); reflexivity.
  - destruct (is_RequestException e); reflexivity.
  - destruct (code =? 200); simpl; [|reflexivity].
    destruct (is_RequestException e); reflexivity.
Qed.

(** On numpy scalars the helper always returns. *)
Lemma calculate_percentage_return_numpy (p c : float) :
  calculate_percentage_return (NpFloat64 p) (NpFloat64 c)
  = Ret (NpFloat64
           (PrimFloat.mul (PrimFloat.div (PrimFloat.sub c p) p) 100%float)).
Proof. reflexivity. Qed.

End Helpers.

(** C3. For every past and current value with a nonzero past value,
    [calculate_percentage_return] returns, and what it returns is
    [(current - past) / past * 100] evaluated in binary64 arithmetic; on
    built-in floats, [percentage_return(100, 110)] is [10.0] and
    [percentage_return(50, 25)] is [-50.0]. *)
Theorem calculate_percentage_return_formula :
  (forall past current : number,
      PrimFloat.eqb (Num.value past) 0%float = false ->
      exists r,
        calculate_percentage_return past current = Ret r
        /\ Num.value r
           = PrimFloat.mul
               (PrimFloat.div
                  (PrimFloat.sub (Num.value current) (Num.value past))
                  (Num.value past))
               100%float)
  /\ calculate_percentage_return (PyFloat 100%float) (PyFloat 110%float)
     = Ret (PyFloat 10%float)
  /\ calculate_percentage_return (PyFloat 50%float) (PyFloat 25%float)
     = Ret (PyFloat (-50)%float).
Proof.
  split; [|split; reflexivity].
  intros past current Hnz. unfold calculate_percentage_return.
  destruct (truediv_nonzero (Num.sub current past) past Hnz) as (q & Hq & Hv).
  rewrite Hq. eexists; split; [reflexivity|].
  rewrite value_mul, Hv, value_sub. reflexivity.
Qed.

Lemma calculate_percentage_return_formula_witness :
  exists r,
    calculate_percentage_return (PyFloat 3%float) (PyFloat 4%float) = Ret r
    /\ Num.value r
       = PrimFloat.mul
           (PrimFloat.div (PrimFloat.sub 4%float 3%float) 3%float) 100%float.
Proof.
  apply (proj1 calculate_percentage_return_formula
           (PyFloat 3%float) (PyFloat 4%float)).
  reflexivity.
Defined.




(* ===================================================================== *)
(** ** Properties of the pipeline                                        *)
(* ===================================================================== *)

Section TraceMonad.

Context {A B : Type}.

Lemma bind_ret_l (a : A) (k : A -> M B) : bind (ret a) k = k a.
Proof. unfold bind, ret. destruct (k a). reflexivity. Qed.

Lemma bind_raise (e : exn) (k : A -> M B) : bind (raise e) k = raise e.
Proof. reflexivity. Qed.

Lemma result_bind_ret (m : M A) (k : A -> M B) (a : A) :
  result m = Ret a -> result (bind m k) = result (k a).
Proof.
  destruct m as [t o]. simpl. intros ->. simpl. destruct (k a). reflexivity.
Qed.

Lemma trace_bind_ret (m : M A) (k : A -> M B) (a : A) :
  result m = Ret a -> trace (bind m k) = (trace m ++ trace (k a))%list.
Proof.
  destruct m as [t o]. simpl. intros ->. simpl. destruct (k a). reflexivity.
Qed.

Lemma result_bind_raise (m : M A) (k : A -> M B) (e : exn) :
  result m = Raise e -> result (bind m k) = Raise e.
Proof. destruct m as [t o]. simpl. intros ->. reflexivity. Qed.

Lemma view_bind (P : event -> bool) (m : M A) (k : A -> M B) (a : A) :
  result m = Ret a ->
  result (bind m k) = result (k a)
  /\ List.filter P (trace (bind m k))
     = (List.filter P (trace m) ++ List.filter P (trace (k a)))%list.
Proof.
  intros Hm. split.
  - now apply result_bind_ret.
  - rewrite (trace_bind_ret m k a Hm). apply List.filter_app.
Qed.

End TraceMonad.

(** Run the steps that have returned: [let* x := ret a in k] is [k a]. *)
Ltac run_ret :=
  unfold lift;
  repeat (cbv beta iota;
          change (@nil event, @Ret ?T ?x) with (@ret T x);
          rewrite bind_ret_l);
  cbv beta iota.

(** C8. When the sidebar yields an empty ticker symbol, the run shows the
    title and the prompt and stops; its trace holds no HTTP request at
    all, neither for prices, nor for reference data, a logo or a benchmark. *)
Theorem empty_symbol_issues_no_request {pandas : Pandas}
    (w : world) (i : inputs) (Hempty : symbol_of i = "") :
  trace (main w i) = [Title dashboard_title; Warning begin_prompt]
  /\ result (main w i) = Stop
  /\ List.filter is_http (trace (main w i)) = [].
Proof.
  unfold main. rewrite Hempty. simpl. repeat split.
Qed.

Lemma empty_symbol_issues_no_request_witness :
  let w := mkWorld "k" (fun _ => Responded 200 None)
             (fun _ => Responded 200 None) (fun _ => Responded 200 None) in
  let i := mkInputs TypeManually "AAPL" "" "Nasdaq (QQQ)" in
  List.filter is_http (trace (main (pandas := ns_timestamps) w i)) = [].
Proof.
  intros w i.
  exact (proj2 (proj2 (empty_symbol_issues_no_request w i eq_refl))).
Defined.

Section Frames.

Context {pandas : Pandas}.

(** The transformation of a non-empty result list: the primary frame, or
    pandas' exception when it cannot hold the timestamps. *)
Lemma transform_run (results : list bar) :
  results <> [] ->
  transform results
  = if datetime_in_bounds (map bar_t results)
    then ret (primary_frame results)
    else raise OutOfBoundsDatetime.
Proof.
  destruct results as [|r rs]; [congruence|]. intros _.
  assert (Hrename :
            Pd.rename (Pd.DataFrame_of (r :: rs)) column_names
            = mkDataFrame (length (r :: rs))
                [("Volume", map bar_v (r :: rs)); ("Open", map bar_o (r :: rs));
                 ("Close", map bar_c (r :: rs)); ("High", map bar_h (r :: rs));
                 ("Low", map bar_l (r :: rs));
                 ("Timestamp", map bar_t (r :: rs))])
    by (vm_compute; reflexivity).
  unfold transform. rewrite Hrename.
  unfold Pd.getitem, Pd.to_datetime_ms. simpl Pd.column. run_ret.
  change (map bar_t (r :: rs)) with (bar_t r :: map bar_t rs).
  destruct (datetime_in_bounds _); reflexivity.
Qed.

Lemma transform_nonempty (results : list bar) :
  results <> [] -> datetime_in_bounds (map bar_t results) = true ->
  transform results = ret (primary_frame results).
Proof. intros Hne Hin. now rewrite (transform_run results Hne), Hin. Qed.

Lemma transform_out_of_bounds (results : list bar) :
  results <> [] -> datetime_in_bounds (map bar_t results) = false ->
  transform results = raise OutOfBoundsDatetime.
Proof. intros Hne Hin. now rewrite (transform_run results Hne), Hin. Qed.

(** The transformation and the block that follows it. *)
Lemma transform_metrics_run (results : list bar)
    (k : DataFrame -> M (number * number * number)) :
  results <> [] ->
  bind (transform results) k
  = if datetime_in_bounds (map bar_t results)
    then k (primary_frame results)
    else raise OutOfBoundsDatetime.
Proof.
  intros Hne. rewrite (transform_run results Hne).
  destruct (datetime_in_bounds _); [apply bind_ret_l|reflexivity].
Qed.

Lemma transform_empty : transform [] = raise (KeyError "Timestamp").
Proof. vm_compute. reflexivity. Qed.

Lemma iloc_index (s : Series) (k : nat) (d : float) :
  (k < length s)%nat ->
  Pd.iloc s (Z.of_nat k) = ret (NpFloat64 (nth k s d)).
Proof.
  intros Hk. unfold Pd.iloc.
  destruct (Z.ltb_spec (Z.of_nat k) 0) as [?|_]; [lia|].
  destruct (Z.leb_spec 0 (Z.of_nat k)) as [_|?]; [|lia].
  destruct (Z.ltb_spec (Z.of_nat k) (Z.of_nat (length s))) as [_|?]; [|lia].
  simpl. rewrite Nat2Z.id.
  destruct (nth_error s k) as [x|] eqn:Hx.
  - rewrite (nth_error_nth _ _ d Hx). reflexivity.
  - apply nth_error_None in Hx. lia.
Qed.

Lemma iloc_from_end (s : Series) (k : nat) (d : float) :
  (0 < k <= length s)%nat ->
  Pd.iloc s (- Z.of_nat k) = ret (NpFloat64 (nth (length s - k) s d)).
Proof.
  intros Hk. rewrite <- (iloc_index s (length s - k) d) by lia.
  unfold Pd.iloc.
  destruct (Z.ltb_spec (- Z.of_nat k) 0) as [_|?]; [|lia].
  destruct (Z.ltb_spec (Z.of_nat (length s - k)) 0) as [?|_]; [lia|].
  replace (Z.of_nat (length s) + - Z.of_nat k)
    with (Z.of_nat (length s - k)) by lia.
  reflexivity.
Qed.

Lemma iloc_empty (i : Z) : Pd.iloc [] i = raise IndexError.
Proof.
  unfold Pd.iloc.
  destruct (_ && _); [|reflexivity].
  destruct (Z.to_nat _); reflexivity.
Qed.

Lemma metrics_primary_frame (results : list bar) (d : float) :
  results <> [] ->
  let close := map bar_c results in
  let latest := nth (length close - 1) close d in
  metrics (primary_frame results)
  = ret (NpFloat64 latest,
         NpFloat64 (pct (nth 0 close d) latest),
         NpFloat64 (pct (week_base close d) latest)).
Proof.
  intros Hne close latest.
  assert (Hlen : (0 < length close)%nat).
  { unfold close. rewrite length_map.
    destruct results; [congruence|simpl; lia]. }
  assert (Hn : length results = length close)
    by (unfold close; now rewrite length_map).
  unfold metrics, Pd.getitem, Pd.len. simpl Pd.column. simpl nrows.
  fold close. run_ret.
  change (Pd.iloc close (-1)) with (Pd.iloc close (- Z.of_nat 1)).
  rewrite (iloc_from_end close 1 d) by lia. fold latest. run_ret.
  change (Pd.iloc close 0) with (Pd.iloc close (Z.of_nat 0)).
  rewrite (iloc_index close 0 d) by lia. run_ret.
  rewrite calculate_percentage_return_numpy. run_ret.
  unfold week_base, pct. rewrite Hn.
  destruct (Nat.leb_spec 5 (length close)) as [H5|H5].
  - destruct (Z.leb_spec 5 (Z.of_nat (length close))) as [_|?]; [|lia].
    run_ret.
    change (Pd.iloc close (-5)) with (Pd.iloc close (- Z.of_nat 5)).
    rewrite (iloc_from_end close 5 d) by lia. run_ret.
    rewrite calculate_percentage_return_numpy. run_ret. reflexivity.
  - destruct (Z.leb_spec 5 (Z.of_nat (length close))) as [?|_]; [lia|].
    run_ret. reflexivity.
Qed.

End Frames.

Section Comparison.

Context {pandas : Pandas}.

Lemma comparison_without_benchmark (df : DataFrame) (ret_total : number)
    (benchmark_raw_data : option aggs_payload) :
  usable_results benchmark_raw_data = None ->
  comparison df ret_total benchmark_raw_data
  = ret (mkGlobals df empty_frame None).
Proof. intros H. unfold comparison. rewrite H. reflexivity. Qed.

Lemma DataFrame_of_nonempty (records : list bar) :
  records <> [] ->
  Pd.DataFrame_of records
  = mkDataFrame (length records)
      [("v", map bar_v records); ("o", map bar_o records);
       ("c", map bar_c records); ("h", map bar_h records);
       ("l", map bar_l records); ("t", map bar_t records)].
Proof. destruct records; [congruence|reflexivity]. Qed.

Lemma comparison_with_benchmark (results bench_results : list bar)
    (ret_total : number) (benchmark_raw_data : option aggs_payload)
    (d : float) :
  results <> [] -> bench_results <> [] ->
  usable_results benchmark_raw_data = Some bench_results ->
  datetime_in_bounds (map bar_t bench_results) = true ->
  let bc := map bar_c bench_results in
  comparison (primary_frame results) ret_total benchmark_raw_data
  = ret (mkGlobals (compared_frame results d)
           (benchmark_frame bench_results d)
           (Some (outperformance ret_total
                    (NpFloat64 (pct (nth 0 bc d)
                                  (nth (length bc - 1) bc d)))))).
Proof.
  intros Hne Hbne Hus Hin bc. unfold comparison. rewrite Hus.
  assert (Hlen : (0 < length (map bar_c results))%nat).
  { rewrite length_map. destruct results; [congruence|simpl; lia]. }
  assert (Hblen : (0 < length bc)%nat).
  { unfold bc. rewrite length_map.
    destruct bench_results; [congruence|simpl; lia]. }
  rewrite (DataFrame_of_nonempty bench_results Hbne).
  unfold Pd.getitem, Pd.to_datetime_ms. simpl Pd.column. run_ret.
  rewrite Hin. fold bc. run_ret.
  change (Pd.iloc ?s 0) with (Pd.iloc s (Z.of_nat 0)).
  rewrite (iloc_index (map bar_c results) 0 d) by lia. run_ret.
  simpl Pd.column. fold bc. run_ret.
  rewrite (iloc_index bc 0 d) by lia. run_ret.
  simpl Pd.column. fold bc. run_ret.
  rewrite (iloc_index bc 0 d) by lia. run_ret.
  change (Pd.iloc bc (-1)) with (Pd.iloc bc (- Z.of_nat 1)).
  rewrite (iloc_from_end bc 1 d) by lia. run_ret.
  rewrite calculate_percentage_return_numpy. run_ret.
  reflexivity.
Qed.

(** The benchmark's dates are converted before the primary frame is
    touched (source line 109). *)
Lemma comparison_out_of_bounds (df : DataFrame) (bench_results : list bar)
    (ret_total : number) (benchmark_raw_data : option aggs_payload) :
  bench_results <> [] ->
  usable_results benchmark_raw_data = Some bench_results ->
  datetime_in_bounds (map bar_t bench_results) = false ->
  comparison df ret_total benchmark_raw_data = raise OutOfBoundsDatetime.
Proof.
  intros Hbne Hus Hin. unfold comparison. rewrite Hus.
  rewrite (DataFrame_of_nonempty bench_results Hbne).
  unfold Pd.getitem, Pd.to_datetime_ms. simpl Pd.column. run_ret.
  rewrite Hin. reflexivity.
Qed.

End Comparison.

(** C2, as the code has it.  For every primary series with at least five
    bars the week return is [calculate_percentage_return] applied to the
    fifth-from-last close ([iloc[-5]]) and the last close; with fewer
    than five bars it is the total return.  (The metrics are computed
    once pandas has converted the timestamps; when it cannot, the
    transformation has raised.) *)
Theorem week_return_base_is_fifth_from_last {pandas : Pandas}
    (results : list bar) (d : float) :
  results <> [] ->
  let close := map bar_c results in
  let n := length close in
  exists latest ret_total ret_week,
    bind (transform results) metrics
    = (if datetime_in_bounds (map bar_t results)
       then ret (latest, ret_total, ret_week)
       else raise OutOfBoundsDatetime)
    /\ latest = NpFloat64 (nth (n - 1) close d)
    /\ calculate_percentage_return (NpFloat64 (nth 0 close d)) latest
       = Ret ret_total
    /\ ((5 <= n)%nat ->
        calculate_percentage_return (NpFloat64 (nth (n - 5) close d)) latest
        = Ret ret_week)
    /\ ((n < 5)%nat -> ret_week = ret_total).
Proof.
  intros Hne close n.
  rewrite (transform_metrics_run results metrics Hne).
  rewrite (metrics_primary_frame results d Hne).
  fold close. fold n.
  do 3 eexists. split; [reflexivity|]. split; [reflexivity|].
  split; [reflexivity|]. unfold week_base. fold n. split; intros Hn.
  - destruct (Nat.leb_spec 5 n); [reflexivity|lia].
  - destruct (Nat.leb_spec 5 n); [lia|reflexivity].
Qed.

Lemma week_return_base_is_fifth_from_last_witness :
  exists latest ret_total ret_week,
    bind (transform (pandas := ns_timestamps)
            (flat_bars [1; 2; 3; 4; 5; 6]%float)) metrics
    = ret (latest, ret_total, ret_week)
    /\ latest = NpFloat64 6%float
    /\ calculate_percentage_return (NpFloat64 1%float) latest = Ret ret_total
    /\ ((5 <= 6)%nat ->
        calculate_percentage_return (NpFloat64 2%float) latest = Ret ret_week)
    /\ ((6 < 5)%nat -> ret_week = ret_total).
Proof.
  refine (week_return_base_is_fifth_from_last (pandas := ns_timestamps)
            (flat_bars [1; 2; 3; 4; 5; 6]%float) 0%float _).
  discriminate.
Defined.

(** C2, as stated, fails: on the six closes 100, 110, 120, 130, 140, 150
    the sixth-from-last close is 100, and the week return the code
    computes differs from [percentage_return(100, 150)]. *)
Lemma week_return_base_is_not_sixth_from_last :
  let closes := [100; 110; 120; 130; 140; 150]%float in
  exists latest ret_total ret_week from_sixth,
    bind (transform (pandas := ns_timestamps) (flat_bars closes)) metrics
    = ret (latest, ret_total, ret_week)
    /\ nth_error closes (length closes - 6) = Some 100%float
    /\ calculate_percentage_return (NpFloat64 100%float) latest
       = Ret from_sixth
    /\ PrimFloat.eqb (Num.value ret_week) (Num.value from_sixth) = false.
Proof.
  intros closes.
  eexists _, _, _, _. split; [vm_compute; reflexivity|].
  split; [reflexivity|]. split; [vm_compute; reflexivity|].
  vm_compute. reflexivity.
Qed.

(** C5. For every primary series with fewer than five bars the week
    return is the total return, the percentage return from the first to
    the last close: the metrics block gives the last close and twice that
    return.  (With no bar at all, or with timestamps pandas cannot hold,
    the transformation has raised and nothing is computed.)  For the
    three closes 10, 12, 15 both returns are 50.0. *)
Theorem week_return_short_history {pandas : Pandas} :
  (forall (results : list bar) (d : float),
      (length results < 5)%nat ->
      let close := map bar_c results in
      let latest := nth (length close - 1) close d in
      let ret_total := NpFloat64 (pct (nth 0 close d) latest) in
      bind (transform results) metrics
      = match results with
        | [] => raise (KeyError "Timestamp")
        | _ :: _ =>
            if datetime_in_bounds (map bar_t results)
            then ret (NpFloat64 latest, ret_total, ret_total)
            else raise OutOfBoundsDatetime
        end
      /\ calculate_percentage_return (NpFloat64 (nth 0 close d))
           (NpFloat64 latest)
         = Ret ret_total)
  /\ bind (transform (flat_bars [10; 12; 15]%float)) metrics
     = (if datetime_in_bounds [0; 0; 0]%float
        then ret (NpFloat64 15%float, NpFloat64 50%float, NpFloat64 50%float)
        else raise OutOfBoundsDatetime).
Proof.
  split.
  - intros results d Hlt close latest ret_total.
    split; [|reflexivity].
    destruct results as [|r rs]; [now rewrite transform_empty|].
    set (results := r :: rs) in *.
    assert (Hne : results <> []) by discriminate.
    rewrite (transform_metrics_run results metrics Hne).
    rewrite (metrics_primary_frame results d Hne).
    unfold week_base.
    destruct (Nat.leb_spec 5 (length (map bar_c results))) as [H5|H5];
      [rewrite length_map in H5; lia|reflexivity].
  - rewrite (transform_metrics_run _ metrics) by discriminate.
    change (map bar_t (flat_bars [10; 12; 15]%float)) with [0; 0; 0]%float.
    destruct (datetime_in_bounds _); [vm_compute|]; reflexivity.
Qed.

Lemma week_return_short_history_witness :
  bind (transform (pandas := ns_timestamps) (flat_bars [10; 12; 15]%float))
    metrics
  = ret (NpFloat64 15%float, NpFloat64 50%float, NpFloat64 50%float).
Proof.
  refine (proj1 (proj1 (week_return_short_history (pandas := ns_timestamps))
                   (flat_bars [10; 12; 15]%float) 0%float _)).
  simpl. lia.
Defined.

Section ZeroBase.

Lemma eqb_zero_spec (p : float) :
  PrimFloat.eqb p 0 = true -> exists s, Prim2SF p = S754_zero s.
Proof.
  rewrite FloatAxioms.eqb_spec. change (Prim2SF 0) with (S754_zero false).
  destruct (Prim2SF p) as [s|s| |s m e]; intros H.
  - now exists s.
  - destruct s; discriminate H.
  - discriminate H.
  - destruct s; discriminate H.
Qed.

(** Over a zero base the formula gives an infinity or nan, never a
    finite number. *)
Lemma pct_zero_base (p c : float) :
  PrimFloat.eqb p 0 = true -> PrimFloat.is_finite (pct p c) = false.
Proof.
  intros Hp. destruct (eqb_zero_spec p Hp) as [s Hs].
  unfold PrimFloat.is_finite, PrimFloat.is_nan, PrimFloat.is_infinity, pct.
  rewrite !FloatAxioms.eqb_spec, FloatAxioms.abs_spec.
  rewrite !FloatAxioms.mul_spec, !FloatAxioms.div_spec, !FloatAxioms.sub_spec.
  rewrite Hs.
  change (Prim2SF 100) with (S754_finite false 7036874417766400 (-46)).
  change (Prim2SF infinity) with (S754_infinity false).
  destruct (Prim2SF c) as [sc|sc| |sc mc ec]; destruct s; try destruct sc;
    reflexivity.
Qed.

End ZeroBase.

(** C9, as the code has it.  The helper divides by [past_val] without a
    guard, and what a zero [past_val] does depends on the class of the
    operands: two built-in floats raise [ZeroDivisionError]; as soon as
    one operand is a numpy scalar the division follows IEEE-754 and the
    helper returns an infinity or nan.  None of the three call sites
    checks the base close: the total return, the week return and the
    benchmark return are the helper applied to whatever the base close
    is, zero included, and their operands are numpy scalars. *)
Theorem zero_base_division_is_unguarded {pandas : Pandas} :
  (forall past current : number,
      calculate_percentage_return past current
      = match past, current with
        | PyFloat p, PyFloat c =>
            if PrimFloat.eqb p 0 then Raise ZeroDivisionError
            else Ret (PyFloat (pct p c))
        | _, _ => Ret (NpFloat64 (pct (Num.value past) (Num.value current)))
        end)
  /\ (forall p c : float,
        PrimFloat.eqb p 0 = true -> PrimFloat.is_finite (pct p c) = false)
  /\ (forall (results : list bar) (d : float),
         results <> [] ->
         let close := map bar_c results in
         let latest := NpFloat64 (nth (length close - 1) close d) in
         exists ret_total ret_week,
           metrics (primary_frame results) = ret (latest, ret_total, ret_week)
           /\ calculate_percentage_return (NpFloat64 (nth 0 close d)) latest
              = Ret ret_total
           /\ calculate_percentage_return
                (NpFloat64 (week_base close d)) latest
              = Ret ret_week)
  /\ (forall (results bench_results : list bar) (ret_total : number)
             (raw : option aggs_payload) (d : float),
         results <> [] -> bench_results <> [] ->
         usable_results raw = Some bench_results ->
         datetime_in_bounds (map bar_t bench_results) = true ->
         let bc := map bar_c bench_results in
         exists g bench_total_ret,
           comparison (primary_frame results) ret_total raw = ret g
           /\ outperform_val g = Some (outperformance ret_total bench_total_ret)
           /\ calculate_percentage_return (NpFloat64 (nth 0 bc d))
                (NpFloat64 (nth (length bc - 1) bc d))
              = Ret bench_total_ret)
  /\ bind (transform (flat_bars [0; 5]%float)) metrics
     = (if datetime_in_bounds [0; 0]%float
        then ret (NpFloat64 5%float, NpFloat64 infinity, NpFloat64 infinity)
        else raise OutOfBoundsDatetime).
Proof.
  split; [|split; [|split; [|split]]].
  - intros [p|p] [c|c]; unfold calculate_percentage_return; simpl;
      try reflexivity.
    destruct (PrimFloat.eqb p 0); reflexivity.
  - exact pct_zero_base.
  - intros results d Hne close latest.
    rewrite (metrics_primary_frame results d Hne).
    do 2 eexists. repeat split; reflexivity.
  - intros results bench_results ret_total raw d Hne Hbne Hus Hin bc.
    rewrite (comparison_with_benchmark results bench_results ret_total raw d
               Hne Hbne Hus Hin).
    do 2 eexists. repeat split; reflexivity.
  - rewrite (transform_metrics_run _ metrics) by discriminate.
    change (map bar_t (flat_bars [0; 5]%float)) with [0; 0]%float.
    destruct (datetime_in_bounds _); [vm_compute|]; reflexivity.
Qed.

Lemma zero_base_division_is_unguarded_witness :
  PrimFloat.is_finite (pct 0 5) = false.
Proof.
  apply (proj1 (proj2 (zero_base_division_is_unguarded
                         (pandas := ns_timestamps))) 0%float 5%float).
  reflexivity.
Defined.

(** C9, as stated, fails at every call site: there a zero base close is a
    numpy scalar, the helper returns plus infinity instead of raising,
    and the run that meets it goes on to the end. *)
Lemma zero_base_returns_at_the_call_sites :
  let w := mkWorld "k"
             (fun _ => Responded 200
                         (Some (mkAggs (Some (flat_bars [0; 5]%float)))))
             (fun _ => Responded 404 None) (fun _ => Responded 404 None) in
  let i := mkInputs ChooseFromList "AAPL" "" "None" in
  calculate_percentage_return (NpFloat64 0) (NpFloat64 5)
  = Ret (NpFloat64 infinity)
  /\ bind (transform (pandas := ns_timestamps) (flat_bars [0; 5]%float))
       metrics
     = ret (NpFloat64 5%float, NpFloat64 infinity, NpFloat64 infinity)
  /\ result (main (pandas := ns_timestamps) w i)
     = Ret (mkGlobals (primary_frame (flat_bars [0; 5]%float))
              empty_frame None).
Proof. vm_compute. repeat split. Qed.

(** C1, evaluated.  A primary payload whose "results" list is empty does
    not take the error path: the run enters the rendering branch, draws
    the title, the logo and the header, and then raises [KeyError] on the
    missing "Timestamp" column; the error message is never shown.  A
    failed primary fetch, by contrast, shows the error message and draws
    nothing else. *)
Theorem empty_results_enter_rendering_branch {pandas : Pandas} :
  let i := mkInputs ChooseFromList "AAPL" "" "None" in
  let empty_payload :=
    mkWorld "k" (fun _ => Responded 200 (Some (mkAggs (Some []))))
      (fun _ => Responded 404 None) (fun _ => Responded 200 None) in
  let failed_fetch :=
    mkWorld "k" (fun _ => Failed (RequestException Timeout))
      (fun _ => Responded 404 None) (fun _ => Responded 200 None) in
  result (main empty_payload i) = Raise (KeyError "Timestamp")
  /\ List.filter (fun ev => negb (is_http ev)) (trace (main empty_payload i))
     = [Title dashboard_title; Columns 2; Image (img_url "AAPL") 70;
        Header "AAPL"]
  /\ List.filter (fun ev => negb (is_http ev)) (trace (main failed_fetch i))
     = [Error fetch_failed_message]
  /\ result (main failed_fetch i)
     = Ret (mkGlobals empty_frame empty_frame None).
Proof. vm_compute. repeat split. Qed.

Section RenderingBlocks.

Variables (w : world) (i : inputs) (symbol : string).

(** The logo column, run: the probe, and what is drawn by what the probe
    meets.  Only the status code of a response is read. *)
Lemma logo_column_run :
  let probe := HttpHead (img_url symbol) 2 in
  let drawn (code : Z) :=
    if code =? 200 then Image (img_url symbol) 70 else Markdown "## 🏢" in
  logo_column w symbol
  = match head_logo w (img_url symbol) with
    | Responded code _ | Garbled code _ => ([probe; drawn code], Ret tt)
    | Failed e =>
        if is_RequestException e then ([probe; Markdown "## 🏢"], Ret tt)
        else ([probe], Raise e)
    end.
Proof.
  unfold logo_column, try_except_RequestException, send.
  destruct (head_logo w (img_url symbol)) as [code [[]|]|e|code e]; simpl;
    try (destruct (code =? 200); reflexivity).
  destruct (is_RequestException e); reflexivity.
Qed.

Lemma logo_column_cases :
  (exists ev, logo_column w symbol = ([HttpHead (img_url symbol) 2; ev], Ret tt)
              /\ is_primary_rendering ev = false)
  \/ (exists e, logo_column w symbol
                = ([HttpHead (img_url symbol) 2], Raise e)).
Proof.
  rewrite logo_column_run. cbv zeta.
  destruct (head_logo w (img_url symbol)) as [code body|e|code e].
  - left. destruct (code =? 200); eexists; split; reflexivity.
  - destruct (is_RequestException e).
    + left. eexists; split; reflexivity.
    + right. eexists; reflexivity.
  - left. destruct (code =? 200); eexists; split; reflexivity.
Qed.

Lemma metric_tiles_primary (latest ret_week ret_total : number)
    (o : option number) :
  result (metric_tiles i latest ret_week ret_total o) = Ret tt
  /\ List.filter is_primary_rendering
       (trace (metric_tiles i latest ret_week ret_total o))
     = [Metric "Current Price" latest None;
        Metric "Week Change" ret_week (Some ret_week);
        Metric "Total Change" ret_total (Some ret_total)].
Proof. destruct o; split; reflexivity. Qed.

Lemma comparison_tab_primary (g : globals) :
  (outperform_val g = None
   \/ (exists results bench_results d,
          main_df g = compared_frame results d
          /\ bench_df g = benchmark_frame bench_results d)) ->
  result (comparison_tab i symbol g) = Ret tt
  /\ List.filter is_primary_rendering (trace (comparison_tab i symbol g)) = [].
Proof.
  unfold comparison_tab. intros [Hnone|(results & bres & d & Hm & Hb)].
  - rewrite Hnone. split; reflexivity.
  - rewrite Hm, Hb. destruct (outperform_val g); split; reflexivity.
Qed.

Lemma research_links_primary :
  result (research_links symbol) = Ret tt
  /\ List.filter is_primary_rendering (trace (research_links symbol)) = [].
Proof. split; reflexivity. Qed.

End RenderingBlocks.

(** One statement of the script: when [m] returns [a], the run goes on
    with [k a]; the goal keeps the outcome and the primary rendering. *)
Ltac step a :=
  match goal with
  | |- result (bind ?m ?k) = _ /\ _ =>
      let H := fresh "Hstep" in
      assert (H : result m = Ret a);
      [ | destruct (view_bind is_primary_rendering m k a H) as [-> ->];
        clear H; cbv beta ]
  end.

Section RenderingRun.

Context {pandas : Pandas}.
Variables (w : world) (i : inputs) (symbol : string).
Variables (results : list bar) (details : option details_payload).
Variable d : float.

Lemma render_returns (bench : option aggs_payload) (g0 : globals)
    (ev : event) :
  logo_column w symbol = ([HttpHead (img_url symbol) 2; ev], Ret tt) ->
  is_primary_rendering ev = false ->
  results <> [] ->
  datetime_in_bounds (map bar_t results) = true ->
  (let close := map bar_c results in
   let latest := nth (length close - 1) close d in
   comparison (primary_frame results) (NpFloat64 (pct (nth 0 close d) latest))
     bench = ret g0) ->
  ((main_df g0 = primary_frame results /\ outperform_val g0 = None)
   \/ (exists bench_results,
          main_df g0 = compared_frame results d
          /\ bench_df g0 = benchmark_frame bench_results d)) ->
  result (render w i symbol results details bench) = Ret g0
  /\ List.filter is_primary_rendering
       (trace (render w i symbol results details bench))
     = primary_rendering results d.
Proof.
  intros Hlogo Hev Hne Hin Hcmp Hshape. unfold render.
  step tt; [reflexivity|].
  step tt; [reflexivity|].
  step tt; [rewrite Hlogo; reflexivity|].
  step tt; [reflexivity|].
  step (primary_frame results); [now rewrite transform_nonempty|].
  rewrite (metrics_primary_frame results d Hne).
  rewrite bind_ret_l. cbv beta iota zeta in Hcmp |- *.
  step g0; [now rewrite Hcmp|].
  step tt; [apply metric_tiles_primary|].
  step tt; [reflexivity|].
  step tt.
  { destruct Hshape as [[-> _]|(bres & -> & _)]; reflexivity. }
  step tt.
  { apply comparison_tab_primary.
    destruct Hshape as [[_ ->]|(bres & Hm & Hb)]; [now left|].
    right. now exists results, bres, d. }
  step tt; [apply research_links_primary|].
  step tt; [reflexivity|].
  split; [reflexivity|].
  rewrite Hlogo, (transform_nonempty results Hne Hin), Hcmp.
  rewrite (proj2 (metric_tiles_primary i _ _ _ _)).
  rewrite (proj2 (research_links_primary symbol)).
  rewrite (proj2 (comparison_tab_primary i symbol g0
                    ltac:(destruct Hshape as [[_ ->]|(bres & Hm & Hb)];
                          [now left|right; now exists results, bres, d]))).
  assert (Hcandle : candlestick_tab (main_df g0)
                    = emit (Candlestick (map bar_t results) (map bar_o results)
                              (map bar_h results) (map bar_l results)
                              (map bar_c results))).
  { destruct Hshape as [[-> _]|(bres & -> & _)]; reflexivity. }
  rewrite Hcandle. cbn [trace fst List.filter]. rewrite Hev. reflexivity.
Qed.

Lemma render_raises_with_logo (bench : option aggs_payload) (e : exn) :
  result (logo_column w symbol) = Raise e ->
  result (render w i symbol results details bench) = Raise e.
Proof.
  intros Hlogo. unfold render.
  rewrite (result_bind_ret (emit _) _ tt eq_refl).
  rewrite (result_bind_ret (emit _) _ tt eq_refl).
  now apply result_bind_raise.
Qed.

Lemma render_raises_after_header (e : exn) (k : M globals) :
  result (logo_column w symbol) = Ret tt ->
  result k = Raise e ->
  result (emit (Title dashboard_title) >>>
          emit (Columns 2) >>>
          logo_column w symbol >>>
          emit (Header (company_name_of details symbol)) >>> k)
  = Raise e.
Proof.
  intros Hlogo Hk.
  rewrite (result_bind_ret (emit _) _ tt eq_refl).
  rewrite (result_bind_ret (emit _) _ tt eq_refl).
  rewrite (result_bind_ret _ _ tt Hlogo).
  now rewrite (result_bind_ret (emit _) _ tt eq_refl).
Qed.

Lemma comparison_empty_benchmark (df : DataFrame) (ret_total : number)
    (bench : option aggs_payload) :
  usable_results bench = Some [] ->
  comparison df ret_total bench = raise (KeyError "t").
Proof. intros H. unfold comparison. rewrite H. reflexivity. Qed.

(** The rendering branch ends where the transformation raises. *)
Lemma render_raises_in_transform (bench : option aggs_payload) (e : exn) :
  result (logo_column w symbol) = Ret tt ->
  transform results = raise e ->
  result (render w i symbol results details bench) = Raise e.
Proof.
  intros Hlogo Ht. unfold render.
  apply render_raises_after_header; [exact Hlogo|].
  now rewrite Ht.
Qed.

(** And where the comparison raises, once the metrics are there. *)
Lemma render_raises_in_comparison (bench : option aggs_payload) (e : exn) :
  result (logo_column w symbol) = Ret tt ->
  results <> [] ->
  datetime_in_bounds (map bar_t results) = true ->
  (forall ret_total, comparison (primary_frame results) ret_total bench
                     = raise e) ->
  result (render w i symbol results details bench) = Raise e.
Proof.
  intros Hlogo Hne Hin Hcmp. unfold render.
  apply render_raises_after_header; [exact Hlogo|].
  rewrite (transform_nonempty results Hne Hin), bind_ret_l.
  rewrite (metrics_primary_frame results d Hne), bind_ret_l.
  cbv beta iota zeta. apply result_bind_raise. now rewrite Hcmp.
Qed.

End RenderingRun.

(** C10. The primary frame of a completed run has a "Normalized" column
    exactly when the benchmark payload is present with a "results" entry.
    When it is absent (no benchmark selected, a failed fetch, or a
    payload without "results") the rendering branch still completes
    wherever the transformation does (it raises only on timestamps that
    pandas cannot hold), neither frame has normalized values and no
    outperformance is computed.  In every completed run the three primary
    metric tiles and the candlestick chart are the same events, a
    function of the primary series alone, whatever the benchmark. *)
Theorem normalized_only_with_benchmark {pandas : Pandas}
    (w : world) (i : inputs) (symbol : string) (results : list bar)
    (details : option details_payload) (d : float) :
  (forall (bench : option aggs_payload) (g : globals),
      result (render w i symbol results details bench) = Ret g ->
      (is_Some (Pd.column (columns (main_df g)) "Normalized")
       <-> is_Some (usable_results bench))
      /\ List.filter is_primary_rendering
           (trace (render w i symbol results details bench))
         = primary_rendering results d)
  /\ (forall bench : option aggs_payload,
        usable_results bench = None ->
        results <> [] ->
        result (logo_column w symbol) = Ret tt ->
        (if datetime_in_bounds (map bar_t results)
         then result (render w i symbol results details bench)
              = Ret (mkGlobals (primary_frame results) empty_frame None)
              /\ List.filter is_primary_rendering
                   (trace (render w i symbol results details bench))
                 = primary_rendering results d
         else result (render w i symbol results details bench)
              = Raise OutOfBoundsDatetime)
        /\ Pd.column (columns (primary_frame results)) "Normalized" = None
        /\ Pd.column (columns empty_frame) "Normalized" = None)
  /\ BENCHMARK_MAP !! "None" = None
  /\ usable_results None = None.
Proof.
  split; [|split; [|split; reflexivity]].
  - intros bench g Hrun.
    destruct (logo_column_cases w symbol) as [(ev & Hlogo & Hev)|(e & Hlogo)].
    2:{ rewrite (render_raises_with_logo w i symbol results details bench e)
          in Hrun by now rewrite Hlogo.
        discriminate. }
    assert (Hl : result (logo_column w symbol) = Ret tt) by now rewrite Hlogo.
    assert (Hne : results <> []).
    { intros ->.
      rewrite (render_raises_in_transform w i symbol [] details bench
                 (KeyError "Timestamp") Hl transform_empty) in Hrun.
      discriminate. }
    destruct (datetime_in_bounds (map bar_t results)) eqn:Hin.
    2:{ rewrite (render_raises_in_transform w i symbol results details bench
                   OutOfBoundsDatetime Hl
                   (transform_out_of_bounds results Hne Hin)) in Hrun.
        discriminate. }
    destruct (usable_results bench) as [[|b bs]|] eqn:Hus.
    + rewrite (render_raises_in_comparison w i symbol results details d bench
                 (KeyError "t") Hl Hne Hin) in Hrun; [discriminate|].
      intros rt. now apply comparison_empty_benchmark.
    + destruct (datetime_in_bounds (map bar_t (b :: bs))) eqn:Hbin.
      2:{ rewrite (render_raises_in_comparison w i symbol results details d
                     bench OutOfBoundsDatetime Hl Hne Hin) in Hrun;
            [discriminate|].
          intros rt. now apply (comparison_out_of_bounds _ (b :: bs)). }
      destruct (render_returns w i symbol results details d bench _ ev
                  Hlogo Hev Hne Hin
                  (comparison_with_benchmark results (b :: bs) _ bench d Hne
                     ltac:(discriminate) Hus Hbin))
        as [Hres Hview].
      { right. now exists (b :: bs). }
      rewrite Hres in Hrun. injection Hrun as <-.
      split; [|exact Hview].
      split; intros _; eexists; reflexivity.
    + destruct (render_returns w i symbol results details d bench _ ev
                  Hlogo Hev Hne Hin
                  (comparison_without_benchmark _ _ bench Hus))
        as [Hres Hview].
      { left. split; reflexivity. }
      rewrite Hres in Hrun. injection Hrun as <-.
      split; [|exact Hview].
      split; intros [x Hx]; discriminate Hx.
  - intros bench Hus Hne Hlogo.
    split; [|split; reflexivity].
    destruct (datetime_in_bounds (map bar_t results)) eqn:Hin.
    + destruct (logo_column_cases w symbol) as [(ev & Hl & Hev)|(e & Hl)];
        [|rewrite Hl in Hlogo; discriminate].
      destruct (render_returns w i symbol results details d bench _ ev
                  Hl Hev Hne Hin (comparison_without_benchmark _ _ bench Hus))
        as [Hres Hview].
      { left. split; reflexivity. }
      split; assumption.
    + apply render_raises_in_transform; [exact Hlogo|].
      now apply transform_out_of_bounds.
Qed.

Lemma normalized_only_with_benchmark_witness :
  let w := mkWorld "k" (fun _ => Responded 200 None)
             (fun _ => Responded 200 None) (fun _ => Responded 200 None) in
  let i := mkInputs ChooseFromList "AAPL" "" "None" in
  List.filter is_primary_rendering
    (trace (render (pandas := ns_timestamps) w i "AAPL"
              (flat_bars [10; 12; 15]%float) None None))
  = primary_rendering (flat_bars [10; 12; 15]%float) 0%float.
Proof.
  intros w i.
  refine (proj2 (proj1
            (proj1 (proj2
               (normalized_only_with_benchmark (pandas := ns_timestamps)
                  w i "AAPL" (flat_bars [10; 12; 15]%float) None 0%float))
               None _ _ _))).
  - reflexivity.
  - discriminate.
  - reflexivity.
Defined.

(* ===================================================================== *)
(** ** Binary64 arithmetic: subtraction                                  *)
(* ===================================================================== *)

Section Subtraction.

Lemma SFopp_binary_round_aux (s : bool) (m e : Z) (l : location) :
  SFopp (binary_round_aux prec emax s m e l)
  = binary_round_aux prec emax (negb s) m e l.
Proof.
  unfold binary_round_aux.
  destruct (shr_fexp prec emax m e l) as [mrs' e'].
  destruct (shr_fexp prec emax _ e' loc_Exact) as [mrs'' e''].
  destruct (shr_m mrs'') as [|p|p]; [reflexivity| |reflexivity].
  destruct (e'' <=? emax - prec); reflexivity.
Qed.

Lemma SFopp_binary_normalize (m e : Z) :
  m <> 0 ->
  SFopp (binary_normalize prec emax (- m) e false)
  = binary_normalize prec emax m e false.
Proof.
  destruct m as [|p|p]; [congruence| |]; intros _; simpl;
    unfold binary_round; destruct (shl_align _ _ _) as [mz ez];
    apply SFopp_binary_round_aux.
Qed.

Lemma SFeqb_refl (x : spec_float) : x = S754_nan \/ SFeqb x x = true.
Proof.
  destruct x as [s|s| |s m e]; [right|right|left|right]; try reflexivity.
  - destruct s; reflexivity.
  - unfold SFeqb; simpl. rewrite Z.compare_refl.
    fold (Pos.compare m m). rewrite Pos.compare_refl. destruct s; reflexivity.
Qed.

Lemma SFeqb_finite_refl (s : bool) (m : positive) (e : Z) :
  SFeqb (S754_finite s m e) (S754_finite s m e) = true.
Proof.
  destruct (SFeqb_refl (S754_finite s m e)) as [H|H]; [discriminate|exact H].
Qed.

Lemma SFsub_antisym (x y : spec_float) :
  (SF64sub x y = S754_nan /\ SF64sub y x = S754_nan)
  \/ SFeqb (SF64sub x y) (SFopp (SF64sub y x)) = true.
Proof.
  unfold SF64sub.
  destruct x as [sx|sx| |sx mx ex], y as [sy|sy| |sy my ey];
    try (left; split; reflexivity);
    try (right; destruct sx, sy; reflexivity);
    try (destruct sx, sy; (left; split; reflexivity) || (right; reflexivity)).
  - right. simpl. apply SFeqb_finite_refl.
  - right. simpl. rewrite Bool.negb_involutive. apply SFeqb_finite_refl.
  - unfold SFsub. rewrite (Z.min_comm ey ex).
    set (ez := Z.min ex ey).
    set (a := cond_Zopp sx (Z.pos (fst (shl_align mx ex ez)))).
    set (b := cond_Zopp sy (Z.pos (fst (shl_align my ey ez)))).
    destruct (Z.eq_dec (a - b) 0) as [Hz|Hnz].
    + right. replace (b - a) with 0 by lia. rewrite Hz. reflexivity.
    + replace (b - a) with (- (a - b)) by lia.
      rewrite (SFopp_binary_normalize (a - b) ez Hnz).
      destruct (SFeqb_refl (binary_normalize prec emax (a - b) ez false))
        as [Hnan|Heq]; [|now right].
      left. split; [exact Hnan|].
      rewrite <- (SFopp_binary_normalize (a - b) ez Hnz) in Hnan.
      destruct (binary_normalize prec emax (- (a - b)) ez false);
        try discriminate; reflexivity.
Qed.

Lemma sub_antisym (x y : float) :
  (PrimFloat.is_nan (x - y) = true /\ PrimFloat.is_nan (y - x) = true)%float
  \/ PrimFloat.eqb (x - y) (- (y - x)) = true.
Proof.
  unfold PrimFloat.is_nan.
  rewrite !FloatAxioms.eqb_spec, FloatAxioms.opp_spec, !FloatAxioms.sub_spec.
  destruct (SFsub_antisym (Prim2SF x) (Prim2SF y)) as [[H1 H2]|H].
  - left. rewrite H1, H2. split; reflexivity.
  - now right.
Qed.

End Subtraction.

(** C7, as the code has it.  The outperformance the comparison block
    stores is the binary64 difference of the total return the metrics
    block computed on the transformed primary series and the total return
    of the benchmark.  That difference is antisymmetric as far as IEEE-754
    allows: for any two total returns [a] and [b], [outperformance a b]
    and [- outperformance b a] compare equal (under [==], for which
    [0.0] and [-0.0] are equal) unless the difference is not a number
    (both returns the same infinity, or one of them nan), where both
    sides are nan. *)
Theorem outperformance_antisymmetric {pandas : Pandas} :
  (forall (results bench_results : list bar) (raw : option aggs_payload)
          (d : float),
      results <> [] -> bench_results <> [] ->
      usable_results raw = Some bench_results ->
      datetime_in_bounds (map bar_t bench_results) = true ->
      let bc := map bar_c bench_results in
      exists latest ret_week g,
        transform results
        = (if datetime_in_bounds (map bar_t results)
           then ret (primary_frame results)
           else raise OutOfBoundsDatetime)
        /\ metrics (primary_frame results)
           = ret (latest, total_return results d, ret_week)
        /\ comparison (primary_frame results) (total_return results d) raw
           = ret g
        /\ outperform_val g
           = Some (outperformance (total_return results d)
                     (total_return bench_results d))
        /\ calculate_percentage_return (NpFloat64 (nth 0 bc d))
             (NpFloat64 (nth (length bc - 1) bc d))
           = Ret (total_return bench_results d))
  /\ (forall a b : number,
        Num.value (outperformance a b)
        = PrimFloat.sub (Num.value a) (Num.value b))
  /\ (forall a b : number,
        let x := Num.value (outperformance a b) in
        let y := Num.value (outperformance b a) in
        (PrimFloat.is_nan x = true /\ PrimFloat.is_nan y = true)
        \/ PrimFloat.eqb x (PrimFloat.opp y) = true).
Proof.
  split; [|split].
  - intros results bench_results raw d Hne Hbne Hus Hin bc.
    rewrite (metrics_primary_frame results d Hne).
    rewrite (comparison_with_benchmark results bench_results _ raw d
               Hne Hbne Hus Hin).
    do 3 eexists. split; [now apply transform_run|].
    repeat split; reflexivity.
  - intros a b. apply value_sub.
  - intros a b x y. unfold x, y, outperformance. rewrite !value_sub.
    apply sub_antisym.
Qed.

Lemma outperformance_antisymmetric_witness :
  let bars := flat_bars [150; 152; 149; 155; 160]%float in
  let bench := flat_bars [400; 402; 398; 405; 410]%float in
  exists g,
    comparison (pandas := ns_timestamps) (primary_frame bars)
      (total_return bars 0) (Some (mkAggs (Some bench)))
    = ret g
    /\ outperform_val g
       = Some (outperformance (total_return bars 0) (total_return bench 0)).
Proof.
  intros bars bench.
  destruct (proj1 (outperformance_antisymmetric (pandas := ns_timestamps))
              bars bench (Some (mkAggs (Some bench))) 0%float)
    as (latest & ret_week & g & _ & _ & Hcmp & Hout & _);
    [discriminate|discriminate|reflexivity|reflexivity|].
  exists g. split; assumption.
Defined.

(** C7, as stated, fails: two series that both start at a zero close have
    a total return of plus infinity each; their outperformance is nan,
    which is not equal to its own negation. *)
Lemma outperformance_of_two_infinite_returns :
  let bars := flat_bars [0; 5]%float in
  let a := total_return bars 0 in
  exists g,
    comparison (pandas := ns_timestamps) (primary_frame bars) a
      (Some (mkAggs (Some bars)))
    = ret g
    /\ outperform_val g = Some (outperformance a a)
    /\ Num.value a = infinity
    /\ PrimFloat.is_nan (Num.value (outperformance a a)) = true
    /\ PrimFloat.eqb (Num.value (outperformance a a))
         (PrimFloat.opp (Num.value (outperformance a a)))
       = false.
Proof.
  intros bars a. eexists. split; [vm_compute; reflexivity|].
  vm_compute. repeat split.
Qed.

(* ===================================================================== *)
(** ** Binary64 arithmetic: rounding keeps the order                     *)
(* ===================================================================== *)

Section Digits.

Lemma digits2_pos_bounds (p : positive) :
  2 ^ (Z.pos (digits2_pos p) - 1) <= Z.pos p < 2 ^ Z.pos (digits2_pos p).
Proof.
  induction p as [p IH|p IH|]; simpl digits2_pos.
  - rewrite Pos2Z.inj_succ.
    replace (Z.succ (Z.pos (digits2_pos p)) - 1)
      with (Z.succ (Z.pos (digits2_pos p) - 1)) by lia.
    rewrite !Z.pow_succ_r by lia. lia.
  - rewrite Pos2Z.inj_succ.
    replace (Z.succ (Z.pos (digits2_pos p)) - 1)
      with (Z.succ (Z.pos (digits2_pos p) - 1)) by lia.
    rewrite !Z.pow_succ_r by lia. lia.
  - simpl. lia.
Qed.

Lemma Zdigits2_nonneg (m : Z) : 0 <= Zdigits2 m.
Proof. destruct m; simpl; lia. Qed.

Lemma Zdigits2_upper (m : Z) : 0 <= m -> m < 2 ^ Zdigits2 m.
Proof.
  destruct m as [|p|p]; intros Hm; simpl; [lia| |lia].
  apply digits2_pos_bounds.
Qed.

Lemma Zdigits2_lower (m : Z) : 0 < m -> 2 ^ (Zdigits2 m - 1) <= m.
Proof.
  destruct m as [|p|p]; intros Hm; simpl; [lia| |lia].
  apply digits2_pos_bounds.
Qed.

(** The digit count is the only [d] with [2 ^ (d - 1) <= m < 2 ^ d]. *)
Lemma Zdigits2_unique (m d : Z) :
  0 < m -> 2 ^ (d - 1) <= m < 2 ^ d -> Zdigits2 m = d.
Proof.
  intros Hm [Hlo Hhi].
  pose proof (Zdigits2_upper m ltac:(lia)) as Hu.
  pose proof (Zdigits2_lower m Hm) as Hl.
  pose proof (Zdigits2_nonneg m) as Hn.
  assert (0 < d).
  { destruct (Z.le_gt_cases d 0) as [Hd|Hd]; [|lia].
    assert (2 ^ d <= 2 ^ 0) by (apply Z.pow_le_mono_r; lia).
    simpl in *. lia. }
  destruct (Z.lt_trichotomy (Zdigits2 m) d) as [Hlt|[Heq|Hgt]]; [|exact Heq|].
  - assert (2 ^ Zdigits2 m <= 2 ^ (d - 1)) by (apply Z.pow_le_mono_r; lia).
    lia.
  - assert (2 ^ d <= 2 ^ (Zdigits2 m - 1)) by (apply Z.pow_le_mono_r; lia).
    lia.
Qed.

Lemma Zdigits2_le_pow (m k : Z) : 0 <= k -> 0 <= m < 2 ^ k -> Zdigits2 m <= k.
Proof.
  intros Hk [Hm Hlt].
  destruct (Z.eq_dec m 0) as [->|Hnz]; [simpl; lia|].
  pose proof (Zdigits2_lower m ltac:(lia)) as Hl.
  destruct (Z.le_gt_cases (Zdigits2 m) k) as [?|Hgt]; [lia|].
  assert (2 ^ k <= 2 ^ (Zdigits2 m - 1)) by (apply Z.pow_le_mono_r; lia).
  lia.
Qed.

Lemma Zdigits2_ge_pow (m k : Z) : 0 <= k -> 2 ^ k <= m -> k + 1 <= Zdigits2 m.
Proof.
  intros Hk Hle.
  assert (0 < 2 ^ k) by (apply Z.pow_pos_nonneg; lia).
  pose proof (Zdigits2_upper m ltac:(lia)) as Hu.
  pose proof (Zdigits2_nonneg m).
  destruct (Z.le_gt_cases (k + 1) (Zdigits2 m)) as [?|Hgt]; [lia|].
  assert (2 ^ Zdigits2 m <= 2 ^ k) by (apply Z.pow_le_mono_r; lia).
  lia.
Qed.

End Digits.

Section Shifting.

Lemma fexp_eq (e : Z) : fexp prec emax e = Z.max (e - 53) (-1074).
Proof. reflexivity. Qed.

Lemma iter_pos_nat {A : Type} (f : A -> A) (p : positive) (x : A) :
  SpecFloat.iter_pos f p x = Nat.iter (Pos.to_nat p) f x.
Proof.
  revert x. induction p as [p IH|p IH|]; intros x; simpl SpecFloat.iter_pos.
  - rewrite !IH, Pos2Nat.inj_xI.
    replace (S (2 * Pos.to_nat p))%nat
      with (Pos.to_nat p + S (Pos.to_nat p))%nat by lia.
    rewrite Nat.iter_add, Nat.iter_succ_r. reflexivity.
  - rewrite !IH, Pos2Nat.inj_xO.
    replace (2 * Pos.to_nat p)%nat with (Pos.to_nat p + Pos.to_nat p)%nat
      by lia.
    rewrite Nat.iter_add. reflexivity.
  - reflexivity.
Qed.

(** One shift to the right keeps track of where the quantity lies. *)
Lemma shr_1_inbetween (mrs : shr_record) (N W : Z) :
  0 <= shr_m mrs -> 0 < W ->
  inbetween_record mrs N W ->
  inbetween_record (shr_1 mrs) N (2 * W)
  /\ 0 <= shr_m (shr_1 mrs)
  /\ 2 * shr_m (shr_1 mrs) <= shr_m mrs < 2 * (shr_m (shr_1 mrs) + 1).
Proof.
  destruct mrs as [m r s]. unfold inbetween_record. simpl shr_m.
  simpl shr_r. simpl shr_s. intros Hm HW Hin.
  destruct m as [|[p|p|]|p]; try lia;
    destruct r, s; simpl in *; nia.
Qed.

Lemma shr_iter_inbetween (k : nat) (mrs : shr_record) (N W : Z) :
  0 <= shr_m mrs -> 0 < W ->
  inbetween_record mrs N W ->
  let mrs' := Nat.iter k shr_1 mrs in
  inbetween_record mrs' N (2 ^ Z.of_nat k * W)
  /\ 0 <= shr_m mrs'
  /\ 2 ^ Z.of_nat k * shr_m mrs' <= shr_m mrs
     < 2 ^ Z.of_nat k * (shr_m mrs' + 1).
Proof.
  intros Hm HW Hin. induction k as [|k IH].
  - cbv zeta. change (2 ^ Z.of_nat 0) with 1. rewrite !Z.mul_1_l.
    simpl Nat.iter. repeat split; try assumption; lia.
  - cbv zeta in IH |- *. destruct IH as (Hin' & Hm' & Hlo & Hhi).
    rewrite Nat2Z.inj_succ, Z.pow_succ_r by lia.
    simpl Nat.iter.
    assert (HW' : 0 < 2 ^ Z.of_nat k * W).
    { apply Z.mul_pos_pos; [apply Z.pow_pos_nonneg; lia|lia]. }
    destruct (shr_1_inbetween _ N _ Hm' HW' Hin') as (Hin'' & Hm'' & Hb).
    assert (Hp : 0 < 2 ^ Z.of_nat k) by (apply Z.pow_pos_nonneg; lia).
    repeat split.
    + replace (2 * 2 ^ Z.of_nat k * W) with (2 * (2 ^ Z.of_nat k * W)) by lia.
      exact Hin''.
    + exact Hm''.
    + destruct Hb as [Hb _].
      apply (Z.mul_le_mono_nonneg_l _ _ (2 ^ Z.of_nat k)) in Hb; lia.
    + destruct Hb as [_ Hb].
      assert (shr_m (Nat.iter k shr_1 mrs) + 1
              <= 2 * (shr_m (shr_1 (Nat.iter k shr_1 mrs)) + 1)) as Hc by lia.
      apply (Z.mul_le_mono_nonneg_l _ _ (2 ^ Z.of_nat k)) in Hc; lia.
Qed.

End Shifting.

Section Rounding.

Lemma pow2_pos (k : Z) : 0 <= k -> 0 < 2 ^ k.
Proof. intros. apply Z.pow_pos_nonneg; lia. Qed.

Lemma pow2_le (a b : Z) : a <= b -> 2 ^ a <= 2 ^ b.
Proof. intros. apply Z.pow_le_mono_r; lia. Qed.

Lemma pow2_split (a b : Z) : 0 <= a <= b -> 2 ^ b = 2 ^ (b - a) * 2 ^ a.
Proof.
  intros H. rewrite <- Z.pow_add_r by lia. f_equal. lia.
Qed.

Lemma shr_fexp_spec (m e : Z) (l : location) (N W : Z) :
  0 <= m -> 0 < W ->
  inbetween_loc m l N W ->
  e <= fexp prec emax (Zdigits2 m + e) ->
  let e' := fexp prec emax (Zdigits2 m + e) in
  exists mrs',
    shr_fexp prec emax m e l = (mrs', e')
    /\ inbetween_record mrs' N (2 ^ (e' - e) * W)
    /\ 0 <= shr_m mrs'
    /\ 2 ^ (e' - e) * shr_m mrs' <= m < 2 ^ (e' - e) * (shr_m mrs' + 1).
Proof.
  intros Hm HW Hin Hade e'. unfold shr_fexp. fold e'.
  assert (Hrec : shr_m (shr_record_of_loc m l) = m)
    by (destruct l as [|[]]; reflexivity).
  destruct (e' - e) as [|p|p] eqn:Hn; [| |lia].
  - exists (shr_record_of_loc m l). unfold shr.
    replace e' with e by lia. change (2 ^ 0) with 1. rewrite !Z.mul_1_l.
    rewrite Hrec. repeat split; try assumption; lia.
  - exists (Nat.iter (Pos.to_nat p) shr_1 (shr_record_of_loc m l)).
    unfold shr. rewrite iter_pos_nat.
    replace (e + Z.pos p) with e' by lia.
    pose proof (shr_iter_inbetween (Pos.to_nat p) (shr_record_of_loc m l)
                  N W ltac:(rewrite Hrec; exact Hm) HW Hin) as H.
    cbv zeta in H. rewrite positive_nat_Z, Hrec in H.
    destruct H as (H1 & H2 & H3). repeat split; try assumption; lia.
Qed.

Lemma rounded_bounds (mrs : shr_record) :
  shr_m mrs <= rounded mrs <= shr_m mrs + 1.
Proof.
  destruct mrs as [m [] []]; unfold rounded; simpl; try lia.
  destruct (Z.even m); lia.
Qed.

Lemma inbetween_bounds (m : Z) (r s : bool) (N W : Z) :
  0 < W -> inbetween m r s N W -> m * W <= N < (m + 1) * W.
Proof. destruct r, s; simpl; nia. Qed.

Lemma inbetween_mantissa_le (m1 m2 : Z) (r1 s1 r2 s2 : bool) (N1 N2 W : Z) :
  0 < W -> inbetween m1 r1 s1 N1 W -> inbetween m2 r2 s2 N2 W ->
  N1 <= N2 -> m1 <= m2.
Proof.
  intros HW H1 H2 HN.
  apply (inbetween_bounds _ _ _ _ _ HW) in H1, H2.
  destruct (Z.le_gt_cases m1 m2) as [?|Hgt]; [assumption|].
  assert ((m2 + 1) * W <= m1 * W) by (apply Z.mul_le_mono_nonneg_r; lia).
  lia.
Qed.

(** Rounding to nearest does not reverse the order. *)
Lemma rounded_mono (a b : shr_record) (N1 N2 W : Z) :
  0 < W -> inbetween_record a N1 W -> inbetween_record b N2 W ->
  N1 <= N2 -> rounded a <= rounded b.
Proof.
  intros HW Ha Hb HN.
  pose proof (inbetween_mantissa_le _ _ _ _ _ _ _ _ _ HW Ha Hb HN) as Hle.
  pose proof (rounded_bounds a) as Ba. pose proof (rounded_bounds b) as Bb.
  destruct (Z.eq_dec (shr_m a) (shr_m b)) as [Heq|Hne]; [|lia].
  destruct a as [m r1 s1], b as [m' r2 s2]. simpl in Heq. subst m'.
  unfold inbetween_record, rounded in *. simpl in *.
  destruct r1, s1, r2, s2; simpl in *; destruct (Z.even m); lia.
Qed.

End Rounding.

Section Stages.

Lemma Zdigits2_mono (a b : Z) : 0 <= a <= b -> Zdigits2 a <= Zdigits2 b.
Proof.
  intros [Ha Hab]. destruct (Z.eq_dec a 0) as [->|Hnz].
  - apply Zdigits2_nonneg.
  - pose proof (Zdigits2_lower a ltac:(lia)).
    pose proof (Zdigits2_nonneg a).
    assert (0 < Zdigits2 a).
    { destruct a; simpl in *; lia. }
    pose proof (Zdigits2_ge_pow b (Zdigits2 a - 1) ltac:(lia) ltac:(lia)).
    lia.
Qed.

Lemma stored_bounds (m e : Z) :
  stored m e ->
  0 <= m < 2 ^ 53 /\ -1074 <= e /\ (-1074 < e -> 2 ^ 52 <= m).
Proof.
  intros [[-> ->]|[Hm He]].
  - repeat split; lia.
  - rewrite fexp_eq in He.
    pose proof (Zdigits2_upper m ltac:(lia)) as Hu.
    pose proof (Zdigits2_lower m Hm) as Hl.
    assert (Zdigits2 m <= 53) by lia.
    pose proof (pow2_le (Zdigits2 m) 53 ltac:(lia)).
    repeat split; try lia.
    intros Hn. assert (Zdigits2 m = 53) as Hd by lia.
    rewrite Hd in Hl. exact Hl.
Qed.

(** The first shift of [binary_round_aux]. *)
Lemma first_shift (m e : Z) (l : location) (N U E : Z) :
  0 <= m -> 0 < U -> E <= e ->
  inbetween_loc m l N (U * 2 ^ (e - E)) ->
  e <= fexp prec emax (Zdigits2 m + e) ->
  exists mrs' e',
    shr_fexp prec emax m e l = (mrs', e')
    /\ E <= e'
    /\ inbetween_record mrs' N (U * 2 ^ (e' - E))
    /\ stored (shr_m mrs') e'.
Proof.
  intros Hm HU HE Hin Hade.
  assert (HW : 0 < U * 2 ^ (e - E)).
  { apply Z.mul_pos_pos; [lia|apply pow2_pos; lia]. }
  destruct (shr_fexp_spec m e l N _ Hm HW Hin Hade)
    as (mrs' & Heq & Hin' & Hm' & Hlo & Hhi).
  set (e' := fexp prec emax (Zdigits2 m + e)) in *.
  exists mrs', e'. split; [exact Heq|]. split; [lia|]. split.
  - replace (U * 2 ^ (e' - E)) with (2 ^ (e' - e) * (U * 2 ^ (e - E)));
      [exact Hin'|].
    rewrite (pow2_split (e - E) (e' - E)) by lia.
    replace (e' - E - (e - E)) with (e' - e) by lia. lia.
  - assert (Hp : 0 < 2 ^ (e' - e)) by (apply pow2_pos; lia).
    pose proof (Zdigits2_upper m Hm) as Hu.
    pose proof (Zdigits2_nonneg m) as Hdn.
    unfold e' in *. rewrite fexp_eq in *.
    destruct (Z.eq_dec (shr_m mrs') 0) as [Hz|Hnz].
    + left. split; [exact Hz|]. rewrite Hz in Hhi.
      set (d := Zdigits2 m) in *.
      destruct (Z.eq_dec m 0) as [Hm0|Hm0].
      * subst m. unfold d in *. simpl in *. lia.
      * pose proof (Zdigits2_lower m ltac:(lia)) as Hl. fold d in Hl.
        assert (d - 1 < Z.max (d + e - 53) (-1074) - e).
        { destruct (Z.lt_ge_cases (d - 1) (Z.max (d + e - 53) (-1074) - e))
            as [?|Hge]; [assumption|].
          pose proof (pow2_le _ _ Hge). lia. }
        lia.
    + right. split; [lia|].
      set (n := Z.max (Zdigits2 m + e - 53) (-1074) - e) in *.
      assert (Hmpos : 0 < m) by nia.
      pose proof (Zdigits2_lower m Hmpos) as Hl.
      assert (Hn : n < Zdigits2 m).
      { destruct (Z.lt_ge_cases n (Zdigits2 m)) as [?|Hge]; [assumption|].
        pose proof (pow2_le _ _ Hge). nia. }
      assert (Hd : Zdigits2 (shr_m mrs') = Zdigits2 m - n).
      { apply Zdigits2_unique; [lia|].
        rewrite (pow2_split n (Zdigits2 m)) in Hu by lia.
        rewrite (pow2_split n (Zdigits2 m - 1)) in Hl by lia.
        replace (Zdigits2 m - 1 - n) with (Zdigits2 m - n - 1) in Hl by lia.
        assert (0 < 2 ^ (Zdigits2 m - n - 1)) by (apply pow2_pos; lia).
        assert (0 < 2 ^ (Zdigits2 m - n)) by (apply pow2_pos; lia).
        split; nia. }
      rewrite fexp_eq, Hd. unfold n. lia.
Qed.

End Stages.

Section Monotone.

(** Rounded mantissas, each at its own exponent, stay in order. *)
Lemma rounded_order (a b : shr_record) (ea eb N1 N2 U E : Z) :
  0 < U -> E <= ea -> E <= eb ->
  inbetween_record a N1 (U * 2 ^ (ea - E)) ->
  inbetween_record b N2 (U * 2 ^ (eb - E)) ->
  stored (shr_m a) ea -> stored (shr_m b) eb ->
  N1 <= N2 ->
  rounded a * 2 ^ (ea - E) <= rounded b * 2 ^ (eb - E).
Proof.
  intros HU HEa HEb Ha Hb Sa Sb HN.
  pose proof (rounded_bounds a) as Ra. pose proof (rounded_bounds b) as Rb.
  apply stored_bounds in Sa, Sb.
  destruct Sa as (Ba & Hea & Na). destruct Sb as (Bb & Heb & Nb).
  assert (Pa : 0 < 2 ^ (ea - E)) by (apply pow2_pos; lia).
  assert (Pb : 0 < 2 ^ (eb - E)) by (apply pow2_pos; lia).
  assert (Wa : 0 < U * 2 ^ (ea - E)) by (apply Z.mul_pos_pos; lia).
  assert (Wb : 0 < U * 2 ^ (eb - E)) by (apply Z.mul_pos_pos; lia).
  change (2 ^ 53) with (2 * 2 ^ 52) in *.
  destruct (Z.lt_trichotomy ea eb) as [Hlt|[Heq|Hgt]].
  - (* the left exponent is smaller: the right mantissa is normal *)
    specialize (Nb ltac:(lia)).
    rewrite (pow2_split (ea - E) (eb - E)) by lia.
    assert (2 * 1 <= 2 ^ (eb - E - (ea - E))).
    { change (2 * 1) with (2 ^ 1). apply pow2_le. lia. }
    assert (rounded a * 2 ^ (ea - E) <= 2 * 2 ^ 52 * 2 ^ (ea - E))
      by (apply Z.mul_le_mono_nonneg_r; lia).
    assert (2 ^ 52 * (2 * 1) * 2 ^ (ea - E)
            <= rounded b * 2 ^ (eb - E - (ea - E)) * 2 ^ (ea - E)).
    { apply Z.mul_le_mono_nonneg_r; [lia|].
      apply Z.mul_le_mono_nonneg; lia. }
    lia.
  - subst eb. apply Z.mul_le_mono_nonneg_r; [lia|].
    exact (rounded_mono a b N1 N2 _ Wa Ha Hb HN).
  - (* the left exponent is larger: impossible, [N2] would be below [N1] *)
    exfalso. specialize (Na ltac:(lia)).
    apply (inbetween_bounds _ _ _ _ _ Wa) in Ha.
    apply (inbetween_bounds _ _ _ _ _ Wb) in Hb.
    rewrite (pow2_split (eb - E) (ea - E)) in Ha by lia.
    assert (2 * 1 <= 2 ^ (ea - E - (eb - E))).
    { change (2 * 1) with (2 ^ 1). apply pow2_le. lia. }
    assert (Hub : (shr_m b + 1) * (U * 2 ^ (eb - E))
                  <= 2 * 2 ^ 52 * (U * 2 ^ (eb - E)))
      by (apply Z.mul_le_mono_nonneg_r; lia).
    assert (Hla : 2 ^ 52 * (2 * 1) * (U * 2 ^ (eb - E))
                  <= shr_m a * 2 ^ (ea - E - (eb - E)) * (U * 2 ^ (eb - E))).
    { apply Z.mul_le_mono_nonneg_r; [lia|].
      apply Z.mul_le_mono_nonneg; lia. }
    lia.
Qed.

Lemma shr_1_exact_even (k : Z) :
  0 <= k ->
  shr_1 (Build_shr_record (2 * k) false false) = Build_shr_record k false false.
Proof. destruct k; intros; try lia; reflexivity. Qed.

(** The second shift of [binary_round_aux]: at most one place, and exact. *)
Lemma second_shift (m' r e' : Z) :
  stored m' e' -> m' <= r <= m' + 1 ->
  exists mrs'' e'',
    shr_fexp prec emax r e' loc_Exact = (mrs'', e'')
    /\ e' <= e''
    /\ shr_m mrs'' * 2 ^ (e'' - e') = r
    /\ stored (shr_m mrs'') e''.
Proof.
  intros Hst Hr.
  pose proof (stored_bounds _ _ Hst) as (Bm & He & _).
  assert (Hdr : Zdigits2 r <= Zdigits2 m' + 1).
  { apply Zdigits2_le_pow; [pose proof (Zdigits2_nonneg m'); lia|].
    pose proof (Zdigits2_upper m' ltac:(lia)).
    rewrite Z.pow_add_r by (pose proof (Zdigits2_nonneg m'); lia).
    change (2 ^ 1) with 2. lia. }
  pose proof (Zdigits2_mono m' r ltac:(lia)) as Hdm.
  unfold shr_fexp. rewrite fexp_eq.
  destruct Hst as [[-> ->]|[Hpos Hfe]].
  - (* nothing stored yet: [r] is 0 or 1, at the least exponent *)
    simpl Zdigits2 in *.
    assert (Hn : Z.max (Zdigits2 r + -1074 - 53) (-1074) - -1074 = 0) by lia.
    rewrite Hn. simpl shr.
    exists (Build_shr_record r false false), (-1074).
    split; [reflexivity|]. split; [lia|]. simpl shr_m.
    split; [change (2 ^ (-1074 - -1074)) with 1; lia|].
    destruct (Z.eq_dec r 0) as [->|Hr0]; [left; split; reflexivity|].
    right. split; [lia|]. rewrite fexp_eq. assert (r = 1) as -> by lia.
    reflexivity.
  - rewrite fexp_eq in Hfe.
    destruct (Z.eq_dec (Z.max (Zdigits2 r + e' - 53) (-1074) - e') 0)
      as [Hn|Hn].
    + rewrite Hn. simpl shr.
      exists (Build_shr_record r false false), e'.
      split; [reflexivity|]. split; [lia|]. simpl shr_m.
      split; [replace (e' - e') with 0 by lia; change (2 ^ 0) with 1; lia|].
      right. split; [lia|]. rewrite fexp_eq. lia.
    + assert (Hn1 : Z.max (Zdigits2 r + e' - 53) (-1074) - e' = 1) by lia.
      rewrite Hn1.
      assert (Hd : Zdigits2 r = Zdigits2 m' + 1) by lia.
      pose proof (Zdigits2_lower r ltac:(lia)) as Hl. rewrite Hd in Hl.
      replace (Zdigits2 m' + 1 - 1) with (Zdigits2 m') in Hl by lia.
      pose proof (Zdigits2_upper m' ltac:(lia)) as Hu.
      assert (Hrv : r = 2 ^ Zdigits2 m') by lia.
      assert (Hdpos : 0 < Zdigits2 m') by (destruct m'; simpl; lia).
      assert (Hr2 : r = 2 * 2 ^ (Zdigits2 m' - 1)).
      { rewrite Hrv. rewrite <- Z.pow_succ_r by lia. f_equal. lia. }
      exists (Build_shr_record (2 ^ (Zdigits2 m' - 1)) false false), (e' + 1).
      split.
      { unfold shr, shr_record_of_loc.
        change (SpecFloat.iter_pos shr_1 1 ?x) with (shr_1 x).
        rewrite Hr2 at 1.
        rewrite shr_1_exact_even by (apply Z.pow_nonneg; lia).
        reflexivity. }
      split; [lia|]. simpl shr_m.
      replace (e' + 1 - e') with 1 by lia. change (2 ^ 1) with 2.
      split; [lia|].
      right. split; [apply pow2_pos; lia|].
      assert (Zdigits2 (2 ^ (Zdigits2 m' - 1)) = Zdigits2 m') as ->.
      { apply Zdigits2_unique; [apply pow2_pos; lia|].
        split; [lia|]. apply Z.pow_lt_mono_r; lia. }
      rewrite fexp_eq. lia.
Qed.

End Monotone.

Section Assembly.

Lemma binary_round_aux_assemble (s : bool) (m e : Z) (l : location) :
  binary_round_aux prec emax s m e l
  = let '(mrs', e') := shr_fexp prec emax m e l in
    let '(mrs'', e'') := shr_fexp prec emax (rounded mrs') e' loc_Exact in
    assemble s (shr_m mrs'') e''.
Proof. reflexivity. Qed.

(** Positive stored values compare as the floats they assemble to. *)
Lemma assemble_le (m1 e1 m2 e2 E : Z) :
  stored m1 e1 -> stored m2 e2 -> E <= e1 -> E <= e2 ->
  m1 * 2 ^ (e1 - E) <= m2 * 2 ^ (e2 - E) ->
  SFleb (assemble false m1 e1) (assemble false m2 e2) = true.
Proof.
  intros S1 S2 HE1 HE2 Hv.
  apply stored_bounds in S1, S2.
  destruct S1 as (B1 & He1 & N1). destruct S2 as (B2 & He2 & N2).
  assert (P1 : 0 < 2 ^ (e1 - E)) by (apply pow2_pos; lia).
  assert (P2 : 0 < 2 ^ (e2 - E)) by (apply pow2_pos; lia).
  change (2 ^ 53) with (2 * 2 ^ 52) in *.
  destruct m1 as [|p1|p1]; [| |lia]; destruct m2 as [|p2|p2]; try lia; simpl.
  - reflexivity.
  - destruct (e2 <=? emax - prec); reflexivity.
  - assert (Hle : e1 <= e2).
    { destruct (Z.le_gt_cases e1 e2) as [?|Hgt]; [assumption|exfalso].
      specialize (N1 ltac:(lia)).
      rewrite (pow2_split (e2 - E) (e1 - E)) in Hv by lia.
      assert (2 * 1 <= 2 ^ (e1 - E - (e2 - E))).
      { change (2 * 1) with (2 ^ 1). apply pow2_le. lia. }
      assert (2 ^ 52 * (2 * 1) * 2 ^ (e2 - E)
              <= Z.pos p1 * 2 ^ (e1 - E - (e2 - E)) * 2 ^ (e2 - E)).
      { apply Z.mul_le_mono_nonneg_r; [lia|].
        apply Z.mul_le_mono_nonneg; lia. }
      assert (Z.pos p2 * 2 ^ (e2 - E) < 2 * 2 ^ 52 * 2 ^ (e2 - E))
        by (apply Z.mul_lt_mono_pos_r; lia).
      lia. }
    destruct (Z.leb_spec e1 (emax - prec)) as [H1|H1];
      destruct (Z.leb_spec e2 (emax - prec)) as [H2|H2]; try reflexivity;
      [|lia].
    unfold SFleb, SFcompare.
    destruct (Z.compare_spec e1 e2) as [Heq|Hlt|Hgt]; [|reflexivity|lia].
    subst e2. fold (Pos.compare p1 p2).
    assert (Z.pos p1 <= Z.pos p2).
    { apply (Z.mul_le_mono_pos_r _ _ (2 ^ (e1 - E))); assumption. }
    destruct (Pos.compare_spec p1 p2); try reflexivity. lia.
Qed.

(** And conversely: floats in order hold values in order. *)
Lemma finite_le_value (m1 : positive) (e1 : Z) (m2 : positive) (e2 E : Z) :
  stored (Z.pos m1) e1 -> stored (Z.pos m2) e2 -> E <= e1 -> E <= e2 ->
  SFleb (S754_finite false m1 e1) (S754_finite false m2 e2) = true ->
  Z.pos m1 * 2 ^ (e1 - E) <= Z.pos m2 * 2 ^ (e2 - E).
Proof.
  intros S1 S2 HE1 HE2 Hle.
  apply stored_bounds in S1, S2.
  destruct S1 as (B1 & He1 & N1). destruct S2 as (B2 & He2 & N2).
  assert (P1 : 0 < 2 ^ (e1 - E)) by (apply pow2_pos; lia).
  assert (P2 : 0 < 2 ^ (e2 - E)) by (apply pow2_pos; lia).
  change (2 ^ 53) with (2 * 2 ^ 52) in *.
  unfold SFleb, SFcompare in Hle.
  destruct (Z.compare_spec e1 e2) as [Heq|Hlt|Hgt]; [| |discriminate].
  - subst e2. fold (Pos.compare m1 m2) in Hle.
    apply Z.mul_le_mono_nonneg_r; [lia|].
    destruct (Pos.compare_spec m1 m2); try discriminate; lia.
  - specialize (N2 ltac:(lia)).
    rewrite (pow2_split (e1 - E) (e2 - E)) by lia.
    assert (2 * 1 <= 2 ^ (e2 - E - (e1 - E))).
    { change (2 * 1) with (2 ^ 1). apply pow2_le. lia. }
    assert (2 ^ 52 * (2 * 1) * 2 ^ (e1 - E)
            <= Z.pos m2 * 2 ^ (e2 - E - (e1 - E)) * 2 ^ (e1 - E)).
    { apply Z.mul_le_mono_nonneg_r; [lia|].
      apply Z.mul_le_mono_nonneg; lia. }
    assert (Z.pos m1 * 2 ^ (e1 - E) <= 2 * 2 ^ 52 * 2 ^ (e1 - E))
      by (apply Z.mul_le_mono_nonneg_r; lia).
    lia.
Qed.

(** What [binary_round_aux] returns on a located quantity. *)
Lemma binary_round_aux_shape (s : bool) (m e : Z) (l : location)
    (N U E : Z) :
  0 <= m -> 0 < U -> E <= e ->
  inbetween_loc m l N (U * 2 ^ (e - E)) ->
  e <= fexp prec emax (Zdigits2 m + e) ->
  exists mrs' e' m'' e'',
    binary_round_aux prec emax s m e l = assemble s m'' e''
    /\ stored m'' e'' /\ E <= e' /\ e' <= e''
    /\ inbetween_record mrs' N (U * 2 ^ (e' - E))
    /\ stored (shr_m mrs') e'
    /\ m'' * 2 ^ (e'' - e') = rounded mrs'.
Proof.
  intros Hm HU HE Hin Hade.
  destruct (first_shift m e l N U E Hm HU HE Hin Hade)
    as (mrs' & e' & Heq1 & HE' & Hin' & Hst').
  destruct (second_shift (shr_m mrs') (rounded mrs') e' Hst'
              (rounded_bounds mrs'))
    as (mrs'' & e'' & Heq2 & Hee & Hval & Hst'').
  exists mrs', e', (shr_m mrs''), e''.
  rewrite binary_round_aux_assemble, Heq1, Heq2.
  repeat split; assumption.
Qed.

(** Rounding two located quantities keeps their order. *)
Lemma binary_round_aux_mono (m1 e1 : Z) (l1 : location) (m2 e2 : Z)
    (l2 : location) (N1 N2 U E : Z) :
  0 < U ->
  0 <= m1 -> E <= e1 -> inbetween_loc m1 l1 N1 (U * 2 ^ (e1 - E)) ->
  e1 <= fexp prec emax (Zdigits2 m1 + e1) ->
  0 <= m2 -> E <= e2 -> inbetween_loc m2 l2 N2 (U * 2 ^ (e2 - E)) ->
  e2 <= fexp prec emax (Zdigits2 m2 + e2) ->
  N1 <= N2 ->
  SFleb (binary_round_aux prec emax false m1 e1 l1)
        (binary_round_aux prec emax false m2 e2 l2) = true.
Proof.
  intros HU Hm1 HE1 Hin1 Ha1 Hm2 HE2 Hin2 Ha2 HN.
  destruct (binary_round_aux_shape false m1 e1 l1 N1 U E Hm1 HU HE1 Hin1 Ha1)
    as (a & ea & ma & ea' & -> & Sa & HEa & Hea & Hina & Sta & Hva).
  destruct (binary_round_aux_shape false m2 e2 l2 N2 U E Hm2 HU HE2 Hin2 Ha2)
    as (b & eb & mb & eb' & -> & Sb & HEb & Heb & Hinb & Stb & Hvb).
  apply (assemble_le ma ea' mb eb' E Sa Sb); [lia|lia|].
  pose proof (rounded_order a b ea eb N1 N2 U E HU HEa HEb Hina Hinb Sta Stb HN)
    as Hord.
  rewrite <- Hva, <- Hvb in Hord.
  rewrite (pow2_split (ea - E) (ea' - E)) by lia.
  rewrite (pow2_split (eb - E) (eb' - E)) by lia.
  replace (ea' - E - (ea - E)) with (ea' - ea) by lia.
  replace (eb' - E - (eb - E)) with (eb' - eb) by lia.
  lia.
Qed.

End Assembly.

Section Division.

Lemma new_location_inbetween (q r c : Z) :
  0 < c -> 0 <= r < c ->
  inbetween_loc q (new_location c r) (c * q + r) c.
Proof.
  intros Hc Hr. unfold new_location, inbetween_loc, inbetween_record.
  destruct (Z.even c) eqn:Hev.
  - unfold new_location_even.
    destruct (Z.eqb_spec r 0) as [->|Hnz]; simpl; [lia|].
    destruct (Z.compare_spec (2 * r) c); simpl; lia.
  - unfold new_location_odd.
    destruct (Z.eqb_spec r 0) as [->|Hnz]; simpl; [lia|].
    assert (Hodd : Z.odd c = true) by (rewrite <- Z.negb_even, Hev; reflexivity).
    apply Z.odd_spec in Hodd. destruct Hodd as [k Hk].
    destruct (Z.compare_spec (2 * r + 1) c); simpl; lia.
Qed.

Lemma inbetween_loc_scale (m : Z) (l : location) (N W k : Z) :
  0 < k -> inbetween_loc m l N W -> inbetween_loc m l (N * k) (W * k).
Proof.
  unfold inbetween_loc, inbetween_record. intros Hk.
  destruct l as [|[]]; simpl.
  - intros ->. lia.
  - intros H. apply (f_equal (fun x => x * k)) in H. lia.
  - intros [H1 H2]. split.
    + apply (Z.mul_lt_mono_pos_r k) in H1; lia.
    + apply (Z.mul_lt_mono_pos_r k) in H2; lia.
  - intros [H1 H2]. split.
    + apply (Z.mul_lt_mono_pos_r k) in H1; lia.
    + apply (Z.mul_lt_mono_pos_r k) in H2; lia.
Qed.

(** The quotient [SFdiv] hands to the rounding, and where the exact
    quotient lies next to it. *)
Lemma div_core_spec (mx : positive) (ex : Z) (mc : positive) (ec : Z) :
  exists q e' l,
    SFdiv_core_binary prec emax (Z.pos mx) ex (Z.pos mc) ec = (q, e', l)
    /\ 0 <= q /\ e' <= ex - ec
    /\ inbetween_loc q l (Z.pos mx * 2 ^ (ex - ec - e')) (Z.pos mc)
    /\ e' <= fexp prec emax (Zdigits2 q + e').
Proof.
  unfold SFdiv_core_binary.
  set (d1 := Zdigits2 (Z.pos mx)). set (d2 := Zdigits2 (Z.pos mc)).
  set (e' := Z.min (fexp prec emax (d1 + ex - (d2 + ec))) (ex - ec)).
  set (s := ex - ec - e').
  assert (Hs : 0 <= s) by (unfold s, e'; lia).
  set (m' := match s with
             | 0 => Z.pos mx
             | Z.pos _ => Z.shiftl (Z.pos mx) s
             | Z.neg _ => 0
             end).
  assert (Hm' : m' = Z.pos mx * 2 ^ s).
  { unfold m'. destruct s as [|p|p] eqn:Hsp; [simpl; lia| |lia].
    apply Z.shiftl_mul_pow2. lia. }
  pose proof (Z_div_mod m' (Z.pos mc) ltac:(lia)) as Hdiv.
  destruct (Z.div_eucl m' (Z.pos mc)) as [q r]. destruct Hdiv as [Hq Hr].
  assert (Hp : 0 < 2 ^ s) by (apply pow2_pos; lia).
  assert (Hq0 : 0 <= q) by nia.
  exists q, e', (new_location (Z.pos mc) r).
  split; [reflexivity|]. split; [exact Hq0|]. split; [unfold e'; lia|].
  split.
  - fold s. rewrite <- Hm', Hq. apply new_location_inbetween; lia.
  - rewrite fexp_eq.
    destruct (Z.le_gt_cases e' (-1074)) as [?|Hn]; [lia|].
    assert (Ht : e' <= d1 + ex - (d2 + ec) - 53).
    { unfold e' in *. rewrite fexp_eq in *. lia. }
    pose proof (Zdigits2_lower (Z.pos mx) ltac:(lia)) as Hl1. fold d1 in Hl1.
    pose proof (Zdigits2_upper (Z.pos mc) ltac:(lia)) as Hu2. fold d2 in Hu2.
    assert (Hd1 : 0 < d1) by (unfold d1; simpl; lia).
    assert (Hd2 : 0 < d2) by (unfold d2; simpl; lia).
    assert (Hk : 52 + d2 <= d1 - 1 + s) by (unfold s; lia).
    assert (Hbig : 2 ^ 52 * 2 ^ d2 <= m').
    { rewrite Hm'. rewrite <- Z.pow_add_r by lia.
      apply Z.le_trans with (2 ^ (d1 - 1 + s)); [apply pow2_le; lia|].
      rewrite Z.pow_add_r by lia.
      apply Z.mul_le_mono_nonneg_r; lia. }
    assert (Hq52 : 2 ^ 52 <= q).
    { destruct (Z.le_gt_cases (2 ^ 52) q) as [?|Hlt]; [assumption|exfalso].
      assert (q + 1 <= 2 ^ 52) by lia.
      assert ((q + 1) * Z.pos mc <= 2 ^ 52 * Z.pos mc)
        by (apply Z.mul_le_mono_nonneg_r; lia).
      assert (2 ^ 52 * Z.pos mc < 2 ^ 52 * 2 ^ d2)
        by (apply Z.mul_lt_mono_pos_l; lia).
      lia. }
    pose proof (Zdigits2_ge_pow q 52 ltac:(lia) Hq52). lia.
Qed.

End Division.

Section Signs.

Lemma valid_stored (s : bool) (m : positive) (e : Z) :
  valid_binary (S754_finite s m e) = true -> stored (Z.pos m) e.
Proof.
  simpl. unfold bounded, canonical_mantissa. intros H.
  apply andb_prop in H. destruct H as [H _].
  apply Z.eqb_eq in H. right. split; [lia|exact H].
Qed.

Lemma SFleb_finite_opp (m1 : positive) (e1 : Z) (m2 : positive) (e2 : Z) :
  SFleb (S754_finite true m1 e1) (S754_finite true m2 e2)
  = SFleb (S754_finite false m2 e2) (S754_finite false m1 e1).
Proof.
  unfold SFleb, SFcompare.
  rewrite (Z.compare_antisym e1 e2).
  change (Pos.compare_cont Eq m1 m2) with (Pos.compare m1 m2).
  change (Pos.compare_cont Eq m2 m1) with (Pos.compare m2 m1).
  rewrite (Pos.compare_antisym m1 m2).
  destruct (e1 ?= e2); simpl; try reflexivity.
Qed.

Lemma SFleb_opp_assemble (m1 e1 m2 e2 : Z) :
  0 <= m1 -> 0 <= m2 ->
  SFleb (SFopp (assemble false m1 e1)) (SFopp (assemble false m2 e2))
  = SFleb (assemble false m2 e2) (assemble false m1 e1).
Proof.
  intros H1 H2.
  destruct m1 as [|p1|p1]; [| |lia]; destruct m2 as [|p2|p2]; try lia; simpl;
    repeat match goal with
           | |- context [?a <=? ?b] => destruct (a <=? b)
           end; try reflexivity.
  apply SFleb_finite_opp.
Qed.

Lemma SFleb_neg_nonneg (m1 e1 m2 e2 : Z) :
  0 <= m1 -> 0 <= m2 ->
  SFleb (SFopp (assemble false m1 e1)) (assemble false m2 e2) = true.
Proof.
  intros H1 H2.
  destruct m1 as [|p1|p1]; [| |lia]; destruct m2 as [|p2|p2]; try lia; simpl;
    repeat match goal with
           | |- context [?a <=? ?b] => destruct (a <=? b)
           end; reflexivity.
Qed.

Lemma SFleb_zero_nonneg (s : bool) (m e : Z) :
  0 <= m -> SFleb (S754_zero s) (assemble false m e) = true.
Proof.
  intros H. destruct m as [|p|p]; [| |lia]; simpl;
    try destruct (e <=? emax - prec); reflexivity.
Qed.

Lemma SFleb_neg_zero (s : bool) (m e : Z) :
  0 <= m -> SFleb (SFopp (assemble false m e)) (S754_zero s) = true.
Proof.
  intros H. destruct m as [|p|p]; [| |lia]; simpl;
    try destruct (e <=? emax - prec); reflexivity.
Qed.

Lemma SFleb_nonneg_inf (m e : Z) :
  0 <= m -> SFleb (assemble false m e) (S754_infinity false) = true.
Proof.
  intros H. destruct m as [|p|p]; [| |lia]; simpl;
    try destruct (e <=? emax - prec); reflexivity.
Qed.

Lemma SFleb_inf_neg (m e : Z) :
  0 <= m -> SFleb (S754_infinity true) (SFopp (assemble false m e)) = true.
Proof.
  intros H. destruct m as [|p|p]; [| |lia]; simpl;
    try destruct (e <=? emax - prec); reflexivity.
Qed.

Variable f : spec_float -> spec_float.
Variable g : positive -> Z -> spec_float.
Hypothesis f_zero : forall s, f (S754_zero s) = S754_zero s.
Hypothesis f_inf : forall s, f (S754_infinity s) = S754_infinity s.
Hypothesis f_pos : forall m e, f (S754_finite false m e) = g m e.
Hypothesis f_neg : forall m e, f (S754_finite true m e) = SFopp (g m e).
Hypothesis g_shape :
  forall m e, stored (Z.pos m) e ->
    exists m' e', 0 <= m' /\ g m e = assemble false m' e'.
Hypothesis g_mono :
  forall m1 e1 m2 e2,
    stored (Z.pos m1) e1 -> stored (Z.pos m2) e2 ->
    SFleb (S754_finite false m1 e1) (S754_finite false m2 e2) = true ->
    SFleb (g m1 e1) (g m2 e2) = true.

(** A map that is monotone on the positive floats and commutes with the
    sign is monotone on all of them. *)
Lemma sign_symmetric_mono (x y : spec_float) :
  valid_binary x = true -> valid_binary y = true ->
  SFleb x y = true -> SFleb (f x) (f y) = true.
Proof.
  intros Vx Vy Hle.
  destruct x as [sx|sx| |sx mx ex], y as [sy|sy| |sy my ey];
    try discriminate Hle;
    try (destruct sx; discriminate Hle);
    try (destruct sy; discriminate Hle);
    try (destruct sx, sy; discriminate Hle).
  all: rewrite ?f_zero, ?f_inf.
  all: try (apply valid_stored in Vx).
  all: try (apply valid_stored in Vy).
  - reflexivity.
  - destruct sy; [discriminate Hle|]. reflexivity.
  - destruct sy; [discriminate Hle|].
    rewrite f_pos. destruct (g_shape my ey Vy) as (m' & e' & Hm' & ->).
    now apply SFleb_zero_nonneg.
  - destruct sx; [|discriminate Hle]. reflexivity.
  - destruct sx, sy; try discriminate Hle; reflexivity.
  - destruct sx.
    + destruct sy; [rewrite f_neg|rewrite f_pos];
        destruct (g_shape my ey Vy) as (m' & e' & Hm' & ->).
      * now apply SFleb_inf_neg.
      * destruct m' as [|p|p]; [| |lia]; simpl;
          try destruct (e' <=? emax - prec); reflexivity.
    + destruct sy; discriminate Hle.
  - destruct sx; [|discriminate Hle].
    rewrite f_neg. destruct (g_shape mx ex Vx) as (m' & e' & Hm' & ->).
    now apply SFleb_neg_zero.
  - destruct sy; [destruct sx; discriminate Hle|].
    destruct sx; [rewrite f_neg|rewrite f_pos];
      destruct (g_shape mx ex Vx) as (m' & e' & Hm' & ->).
    + destruct m' as [|p|p]; [| |lia]; simpl;
        try destruct (e' <=? emax - prec); reflexivity.
    + now apply SFleb_nonneg_inf.
  - destruct sx, sy.
    + rewrite !f_neg.
      destruct (g_shape mx ex Vx) as (m1 & e1 & Hm1 & Hg1).
      destruct (g_shape my ey Vy) as (m2 & e2 & Hm2 & Hg2).
      rewrite Hg1, Hg2, SFleb_opp_assemble by assumption.
      rewrite <- Hg1, <- Hg2. apply g_mono; try assumption.
      now rewrite <- SFleb_finite_opp.
    + rewrite f_neg, f_pos.
      destruct (g_shape mx ex Vx) as (m1 & e1 & Hm1 & ->).
      destruct (g_shape my ey Vy) as (m2 & e2 & Hm2 & ->).
      now apply SFleb_neg_nonneg.
    + discriminate Hle.
    + rewrite !f_pos. now apply g_mono.
Qed.

End Signs.

Section Operations.

Variables (mc : positive) (ec : Z).

(** Division by the positive finite float [mc * 2 ^ ec]. *)
Lemma SFdiv_positive_shape (m : positive) (e : Z) :
  stored (Z.pos m) e ->
  exists m' e',
    0 <= m'
    /\ SF64div (S754_finite false m e) (S754_finite false mc ec)
       = assemble false m' e'.
Proof.
  intros _. unfold SF64div, SFdiv.
  destruct (div_core_spec m e mc ec)
    as (q & e' & l & -> & Hq & He' & Hin & Hade).
  assert (Hin' : inbetween_loc q l (Z.pos m * 2 ^ (e - ec - e'))
                   (Z.pos mc * 2 ^ (e' - e'))).
  { replace (e' - e') with 0 by lia. change (2 ^ 0) with 1.
    rewrite Z.mul_1_r. exact Hin. }
  destruct (binary_round_aux_shape false q e' l _ (Z.pos mc) e' Hq
              ltac:(lia) ltac:(lia) Hin' Hade)
    as (mrs & e1 & m'' & e'' & Heq & Hst & _).
  exists m'', e''. split; [apply (stored_bounds _ _ Hst)|exact Heq].
Qed.

Lemma SFdiv_positive_mono (m1 : positive) (e1 : Z) (m2 : positive) (e2 : Z) :
  stored (Z.pos m1) e1 -> stored (Z.pos m2) e2 ->
  SFleb (S754_finite false m1 e1) (S754_finite false m2 e2) = true ->
  SFleb (SF64div (S754_finite false m1 e1) (S754_finite false mc ec))
        (SF64div (S754_finite false m2 e2) (S754_finite false mc ec)) = true.
Proof.
  intros S1 S2 Hle. unfold SF64div, SFdiv.
  destruct (div_core_spec m1 e1 mc ec)
    as (q1 & e1' & l1 & -> & Hq1 & He1 & Hin1 & Ha1).
  destruct (div_core_spec m2 e2 mc ec)
    as (q2 & e2' & l2 & -> & Hq2 & He2 & Hin2 & Ha2).
  set (E := Z.min e1' e2').
  apply (inbetween_loc_scale _ _ _ _ (2 ^ (e1' - E))) in Hin1;
    [|apply pow2_pos; unfold E; lia].
  apply (inbetween_loc_scale _ _ _ _ (2 ^ (e2' - E))) in Hin2;
    [|apply pow2_pos; unfold E; lia].
  rewrite <- Z.mul_assoc, <- Z.pow_add_r in Hin1 by (unfold E; lia).
  rewrite <- Z.mul_assoc, <- Z.pow_add_r in Hin2 by (unfold E; lia).
  replace (e1 - ec - e1' + (e1' - E)) with (e1 - (E + ec)) in Hin1 by lia.
  replace (e2 - ec - e2' + (e2' - E)) with (e2 - (E + ec)) in Hin2 by lia.
  apply (binary_round_aux_mono q1 e1' l1 q2 e2' l2
           (Z.pos m1 * 2 ^ (e1 - (E + ec))) (Z.pos m2 * 2 ^ (e2 - (E + ec)))
           (Z.pos mc) E);
    try assumption; try (unfold E; lia).
  apply finite_le_value; try assumption; unfold E; lia.
Qed.

(** Multiplication by the positive normal float [mc * 2 ^ ec]. *)
Hypothesis mc_normal : 2 ^ 52 <= Z.pos mc.

Lemma mul_adequate (m : positive) (e : Z) :
  e + ec <= fexp prec emax (Zdigits2 (Z.pos (m * mc)) + (e + ec)).
Proof.
  rewrite fexp_eq.
  assert (2 ^ 52 <= Z.pos (m * mc)) by (rewrite Pos2Z.inj_mul; nia).
  pose proof (Zdigits2_ge_pow (Z.pos (m * mc)) 52 ltac:(lia) ltac:(lia)).
  lia.
Qed.

Lemma mul_located (m : positive) (e E : Z) :
  E <= e + ec ->
  inbetween_loc (Z.pos (m * mc)) loc_Exact
    (Z.pos m * Z.pos mc * 2 ^ (e + ec - E)) (1 * 2 ^ (e + ec - E)).
Proof.
  intros _. unfold inbetween_loc, inbetween_record. simpl.
  rewrite Pos2Z.inj_mul. lia.
Qed.

Lemma SFmul_positive_shape (m : positive) (e : Z) :
  stored (Z.pos m) e ->
  exists m' e',
    0 <= m'
    /\ SF64mul (S754_finite false m e) (S754_finite false mc ec)
       = assemble false m' e'.
Proof.
  intros _. unfold SF64mul, SFmul. simpl xorb.
  destruct (binary_round_aux_shape false (Z.pos (m * mc)) (e + ec) loc_Exact
              _ 1 (e + ec) ltac:(lia) ltac:(lia) ltac:(lia)
              (mul_located m e (e + ec) ltac:(lia)) (mul_adequate m e))
    as (mrs & e1 & m'' & e'' & Heq & Hst & _).
  exists m'', e''. split; [apply (stored_bounds _ _ Hst)|exact Heq].
Qed.

Lemma SFmul_positive_mono (m1 : positive) (e1 : Z) (m2 : positive) (e2 : Z) :
  stored (Z.pos m1) e1 -> stored (Z.pos m2) e2 ->
  SFleb (S754_finite false m1 e1) (S754_finite false m2 e2) = true ->
  SFleb (SF64mul (S754_finite false m1 e1) (S754_finite false mc ec))
        (SF64mul (S754_finite false m2 e2) (S754_finite false mc ec)) = true.
Proof.
  intros S1 S2 Hle. unfold SF64mul, SFmul. simpl xorb.
  set (E := Z.min e1 e2 + ec).
  apply (binary_round_aux_mono
           (Z.pos (m1 * mc)) (e1 + ec) loc_Exact
           (Z.pos (m2 * mc)) (e2 + ec) loc_Exact
           (Z.pos m1 * Z.pos mc * 2 ^ (e1 + ec - E))
           (Z.pos m2 * Z.pos mc * 2 ^ (e2 + ec - E)) 1 E);
    try lia; try (unfold E; lia);
    try (apply mul_located; unfold E; lia); try apply mul_adequate.
  pose proof (finite_le_value m1 e1 m2 e2 (Z.min e1 e2) S1 S2
                ltac:(lia) ltac:(lia) Hle) as Hv.
  replace (e1 + ec - E) with (e1 - Z.min e1 e2) by (unfold E; lia).
  replace (e2 + ec - E) with (e2 - Z.min e1 e2) by (unfold E; lia).
  nia.
Qed.

End Operations.

Section Binary64.

Lemma SFdiv_mono (x y : spec_float) (mc : positive) (ec : Z) :
  valid_binary x = true -> valid_binary y = true ->
  SFleb x y = true ->
  SFleb (SF64div x (S754_finite false mc ec))
        (SF64div y (S754_finite false mc ec)) = true.
Proof.
  apply (sign_symmetric_mono
           (fun x => SF64div x (S754_finite false mc ec))
           (fun m e => SF64div (S754_finite false m e)
                         (S754_finite false mc ec))).
  - intros []; reflexivity.
  - intros []; reflexivity.
  - reflexivity.
  - intros m e. unfold SF64div, SFdiv.
    destruct (SFdiv_core_binary _ _ _ _ _ _) as [[mz ez] lz].
    simpl xorb. now rewrite SFopp_binary_round_aux.
  - apply SFdiv_positive_shape.
  - apply SFdiv_positive_mono.
Qed.

Lemma SFmul_mono (x y : spec_float) (mc : positive) (ec : Z) :
  2 ^ 52 <= Z.pos mc ->
  valid_binary x = true -> valid_binary y = true ->
  SFleb x y = true ->
  SFleb (SF64mul x (S754_finite false mc ec))
        (SF64mul y (S754_finite false mc ec)) = true.
Proof.
  intros Hn.
  apply (sign_symmetric_mono
           (fun x => SF64mul x (S754_finite false mc ec))
           (fun m e => SF64mul (S754_finite false m e)
                         (S754_finite false mc ec))).
  - intros []; reflexivity.
  - intros []; reflexivity.
  - reflexivity.
  - intros m e. unfold SF64mul, SFmul.
    simpl xorb. now rewrite SFopp_binary_round_aux.
  - now apply SFmul_positive_shape.
  - now apply SFmul_positive_mono.
Qed.

(** A positive finite float, seen through its specification. *)
Lemma positive_finite_spec (c : float) :
  PrimFloat.ltb 0 c = true -> PrimFloat.ltb c infinity = true ->
  exists m e, Prim2SF c = S754_finite false m e.
Proof.
  rewrite !FloatAxioms.ltb_spec.
  change (Prim2SF 0) with (S754_zero false).
  change (Prim2SF infinity) with (S754_infinity false).
  destruct (Prim2SF c) as [s|s| |s m e]; try discriminate.
  - destruct s; discriminate.
  - destruct s; [discriminate|]. intros _ _. now exists m, e.
Qed.

Lemma div_mono (a b c : float) :
  PrimFloat.ltb 0 c = true -> PrimFloat.ltb c infinity = true ->
  PrimFloat.leb a b = true ->
  PrimFloat.leb (a / c) (b / c) = true.
Proof.
  intros Hpos Hfin. destruct (positive_finite_spec c Hpos Hfin) as (m & e & Hc).
  rewrite !FloatAxioms.leb_spec, !FloatAxioms.div_spec, Hc.
  apply SFdiv_mono; apply Prim2SF_valid.
Qed.

Lemma mul_100_mono (a b : float) :
  PrimFloat.leb a b = true ->
  PrimFloat.leb (a * 100) (b * 100) = true.
Proof.
  rewrite !FloatAxioms.leb_spec, !FloatAxioms.mul_spec.
  change (Prim2SF 100) with (S754_finite false 7036874417766400 (-46)).
  apply SFmul_mono; try apply Prim2SF_valid. lia.
Qed.

Lemma div_self (x : float) :
  PrimFloat.ltb 0 x = true -> PrimFloat.ltb x infinity = true ->
  (x / x)%float = 1%float.
Proof.
  intros Hpos Hfin. destruct (positive_finite_spec x Hpos Hfin) as (m & e & Hx).
  apply Prim2SF_inj. rewrite FloatAxioms.div_spec, Hx.
  unfold SF64div, SFdiv, SFdiv_core_binary.
  replace (Zdigits2 (Z.pos m) + e - (Zdigits2 (Z.pos m) + e)) with 0 by lia.
  replace (e - e) with 0 by lia.
  change (Z.min (fexp prec emax 0) 0) with (-53).
  change (0 - -53) with 53.
  rewrite Z.shiftl_mul_pow2 by lia.
  pose proof (Z_div_mod (Z.pos m * 2 ^ 53) (Z.pos m) ltac:(lia)) as Hdiv.
  destruct (Z.div_eucl (Z.pos m * 2 ^ 53) (Z.pos m)) as [q r].
  destruct Hdiv as [Hq Hr].
  set (k := 2 ^ 53 - q) in *.
  assert (Hk : r = Z.pos m * k) by (unfold k; lia).
  assert (Hk0 : k = 0) by nia.
  assert (q = 2 ^ 53 /\ r = 0) as [-> ->] by (unfold k in *; lia).
  clear k Hk Hk0.
  assert (new_location (Z.pos m) 0 = loc_Exact) as ->.
  { unfold new_location. destruct (Z.even (Z.pos m)); reflexivity. }
  reflexivity.
Qed.

End Binary64.

(** C6, as the code has it.  For every non-empty series whose first close
    is a positive finite number, the normalized series starts at exactly
    100.0 and never reverses the order of the closes: a close that is
    less than or equal to another has a normalized value less than or
    equal to the other's.  The order is kept weakly, not strictly: each
    normalized value is rounded twice, and two different closes may share
    one normalized value. *)
Theorem normalization_base_and_order (first : float) (rest : Series)
    (Hpos : PrimFloat.ltb 0 first = true)
    (Hfin : PrimFloat.ltb first infinity = true) :
  let close := first :: rest in
  let normalized := Pd.div_mul100 close (NpFloat64 first) in
  nth_error normalized 0 = Some 100%float
  /\ length normalized = length close
  /\ (forall i j a b,
        nth_error close i = Some a -> nth_error close j = Some b ->
        PrimFloat.leb a b = true ->
        exists na nb,
          nth_error normalized i = Some na
          /\ nth_error normalized j = Some nb
          /\ PrimFloat.leb na nb = true)
  /\ (forall (results : list bar) (d : float),
        map bar_c results = close ->
        Pd.column (columns (compared_frame results d)) "Normalized"
        = Some normalized).
Proof.
  intros close normalized. unfold normalized, Pd.div_mul100.
  simpl Num.value. split; [|split; [|split]].
  - simpl. rewrite (div_self first Hpos Hfin). reflexivity.
  - apply length_map.
  - intros i j a b Hi Hj Hle.
    exists (normalized_value first a), (normalized_value first b).
    split; [|split].
    + rewrite nth_error_map, Hi. reflexivity.
    + rewrite nth_error_map, Hj. reflexivity.
    + apply mul_100_mono, div_mono; assumption.
  - intros results d Hc. unfold compared_frame. rewrite Hc.
    reflexivity.
Qed.

Lemma normalization_base_and_order_witness :
  let close := [150; 152; 149; 155; 160]%float in
  nth_error (Pd.div_mul100 close (NpFloat64 150%float)) 0 = Some 100%float.
Proof.
  intros close.
  refine (proj1 (normalization_base_and_order 150%float
                   [152; 149; 155; 160]%float _ _)); reflexivity.
Defined.

(** C6, as stated, fails: with a first close of 150, the closes 152 and
    152.00000000000003 (the next binary64 number) are in strict order and
    their normalized values are one and the same number.  (And a first
    close of plus infinity, which is positive, is normalized to nan, not
    to 100.0: the base has to be finite.) *)
Lemma normalization_is_not_strictly_monotone :
  let close := [150; 152; 0x1.3000000000001p+7]%float in
  let normalized := Pd.div_mul100 close (NpFloat64 150%float) in
  PrimFloat.ltb 0 150 = true
  /\ PrimFloat.ltb (nth 1 close 0%float) (nth 2 close 0%float) = true
  /\ PrimFloat.ltb (nth 1 normalized 0%float) (nth 2 normalized 0%float)
     = false
  /\ PrimFloat.eqb (nth 1 normalized 0%float) (nth 2 normalized 0%float)
     = true
  /\ PrimFloat.ltb 0 infinity = true
  /\ PrimFloat.is_nan
       (nth 0 (Pd.div_mul100 [infinity] (NpFloat64 infinity)) 0%float)
     = true.
Proof. vm_compute. repeat split. Qed.

(* ===================================================================== *)
(** ** Further properties: the two network helpers                       *)
(* ===================================================================== *)

Section Fetching.

Context {A : Type}.
Variables (requests_get : string -> http_outcome A) (url : string).

(** X1. Whatever the transport does, [fetch_api_data] sends exactly one
    request, a GET of the given URL with a ten-second timeout: it never
    retries and it draws nothing. *)
Theorem fetch_api_data_sends_one_request :
  trace (fetch_api_data requests_get url) = [HttpGet url 10].
Proof. now rewrite fetch_api_data_run. Qed.

(** X2. [fetch_api_data] hands data to its caller only from a response
    with status 200 whose body decodes: it returns [Some parsed] exactly
    when the transport responded 200 with the body [parsed]. *)
Theorem fetch_api_data_data_iff (parsed : A) :
  result (fetch_api_data requests_get url) = Ret (Some parsed)
  <-> requests_get url = Responded 200 (Some parsed).
Proof.
  rewrite fetch_api_data_run. unfold result. cbn [snd].
  destruct (requests_get url) as [status body|e|status e].
  - destruct (Z.eqb_spec status 200) as [->|Hs].
    + split; intros [= ->]; reflexivity.
    + split; [discriminate|]. intros [= -> _]. contradiction.
  - destruct (is_RequestException e); split; discriminate.
  - destruct (status =? 200); [destruct (is_RequestException e)|];
      split; discriminate.
Qed.

(** X3. The exceptions that leave [fetch_api_data] are those that
    [requests.get] raised, or that [res.json()] raised on a response with
    status 200, and that are not [RequestException]s: they pass through
    unchanged, nothing else is ever raised, and the helper never stops
    the run. *)
Theorem fetch_api_data_raise_iff (e : exn) :
  (result (fetch_api_data requests_get url) = Raise e
   <-> (requests_get url = Failed e \/ requests_get url = Garbled 200 e)
       /\ is_RequestException e = false)
  /\ result (fetch_api_data requests_get url) <> Stop.
Proof.
  rewrite fetch_api_data_run. unfold result. cbn [snd].
  destruct (requests_get url) as [status body|e'|status e'].
  - split; [|discriminate].
    split; [discriminate|]. intros [[H|H] _]; discriminate H.
  - destruct (is_RequestException e') eqn:He.
    + split; [|discriminate]. split; [discriminate|].
      intros [[[= ->]|H] Hf]; [congruence|discriminate H].
    + split; [|discriminate]. split.
      * intros [= ->]. split; [now left|exact He].
      * intros [[[= ->]|H] _]; [reflexivity|discriminate H].
  - destruct (Z.eqb_spec status 200) as [->|Hs].
    + destruct (is_RequestException e') eqn:He.
      * split; [|discriminate]. split; [discriminate|].
        intros [[H|[= ->]] Hf]; [discriminate H|congruence].
      * split; [|discriminate]. split.
        -- intros [= ->]. split; [now right|exact He].
        -- intros [[H|[= ->]] _]; [discriminate H|reflexivity].
    + split; [|discriminate]. split; [discriminate|].
      intros [[H|[= -> _]] _]; [discriminate H|contradiction].
Qed.

End Fetching.

Lemma fetch_api_data_data_iff_witness :
  result (fetch_api_data
            (fun _ : string => Responded 200 (Some (mkAggs None)))
            "https://api.polygon.io/v2/aggs/ticker/AAPL")
  = Ret (Some (mkAggs None)).
Proof.
  apply (proj2 (fetch_api_data_data_iff
                  (fun _ : string => Responded 200 (Some (mkAggs None)))
                  "https://api.polygon.io/v2/aggs/ticker/AAPL"
                  (mkAggs None))).
  reflexivity.
Defined.

Lemma fetch_api_data_raise_iff_witness :
  result (fetch_api_data
            (fun _ : string => @Garbled aggs_payload 200 RecursionError)
            "https://api.polygon.io/v2/aggs/ticker/AAPL")
  = Raise RecursionError.
Proof.
  apply (proj2 (proj1 (fetch_api_data_raise_iff
                         (fun _ : string =>
                            @Garbled aggs_payload 200 RecursionError)
                         "https://api.polygon.io/v2/aggs/ticker/AAPL"
                         RecursionError))).
  split; [now right|reflexivity].
Defined.

(** X4. The logo column sends exactly one HEAD probe with a two-second
    timeout and then draws exactly one thing: the image when the probe
    answers 200, the placeholder on any other status and on any
    [RequestException]; an exception of another class leaves the column
    with nothing drawn.  Of a response only the status code is read,
    whatever its body. *)
Theorem logo_column_behaviour (w : world) (symbol : string) :
  let probe := HttpHead (img_url symbol) 2 in
  let placeholder := Markdown "## 🏢" in
  (forall body,
      head_logo w (img_url symbol) = Responded 200 body ->
      logo_column w symbol = ([probe; Image (img_url symbol) 70], Ret tt))
  /\ (forall status body,
         head_logo w (img_url symbol) = Responded status body ->
         status <> 200 ->
         logo_column w symbol = ([probe; placeholder], Ret tt))
  /\ (forall e,
         head_logo w (img_url symbol) = Failed e ->
         is_RequestException e = true ->
         logo_column w symbol = ([probe; placeholder], Ret tt))
  /\ (forall e,
         head_logo w (img_url symbol) = Failed e ->
         is_RequestException e = false ->
         logo_column w symbol = ([probe], Raise e))
  /\ (forall status e,
         head_logo w (img_url symbol) = Garbled status e ->
         logo_column w symbol
         = ([probe;
             if status =? 200 then Image (img_url symbol) 70
             else placeholder], Ret tt)).
Proof.
  intros probe placeholder. rewrite logo_column_run. cbv zeta.
  repeat split.
  - intros body ->. reflexivity.
  - intros status body -> Hs.
    destruct (Z.eqb_spec status 200); [contradiction|reflexivity].
  - intros e -> He. rewrite He. reflexivity.
  - intros e -> He. rewrite He. reflexivity.
  - intros status e ->. reflexivity.
Qed.

Lemma logo_column_behaviour_witness :
  let w := mkWorld "k" (fun _ => Responded 200 None)
             (fun _ => Responded 200 None)
             (fun _ => Failed (RequestException Timeout)) in
  logo_column w "AAPL"
  = ([HttpHead (img_url "AAPL") 2; Markdown "## 🏢"], Ret tt).
Proof.
  intros w.
  refine (proj1 (proj2 (proj2 (logo_column_behaviour w "AAPL")))
            (RequestException Timeout) _ _); reflexivity.
Defined.

(* ===================================================================== *)
(** ** Further properties: the symbol and the primary frame              *)
(* ===================================================================== *)

Section Symbol.

Context {pandas : Pandas}.

Lemma upper_ascii_idempotent (c : ascii) :
  Str.upper_ascii (Str.upper_ascii c) = Str.upper_ascii c.
Proof.
  destruct c as [[] [] [] [] [] [] [] []]; reflexivity.
Qed.

Lemma upper_idempotent (s : string) : Str.upper (Str.upper s) = Str.upper s.
Proof.
  induction s as [|c s IH]; simpl; [reflexivity|].
  now rewrite upper_ascii_idempotent, IH.
Qed.

Lemma render_label (w : world) (i i' : inputs) (symbol : string)
    (results : list bar) (details : option details_payload)
    (bench : option aggs_payload) :
  benchmark_label i' = benchmark_label i ->
  render w i' symbol results details bench
  = render w i symbol results details bench.
Proof.
  intros H. unfold render, metric_tiles, comparison_tab. rewrite H.
  reflexivity.
Qed.

Lemma bind_ext {A B : Type} (m : M A) (k k' : A -> M B) :
  (forall a, k a = k' a) -> bind m k = bind m k'.
Proof.
  intros H. destruct m as [t [a|e|]]; simpl; [rewrite H|..]; reflexivity.
Qed.

(** The run depends on the widgets only through the symbol and the
    benchmark label. *)
Lemma main_inputs (w : world) (i i' : inputs) :
  symbol_of i' = symbol_of i -> benchmark_label i' = benchmark_label i ->
  main w i' = main w i.
Proof.
  intros Hs Hb. unfold main. rewrite Hs, Hb.
  apply bind_ext. intros _. apply bind_ext. intros [[stock details] bench].
  destruct (usable_results stock); [|reflexivity].
  now apply render_label.
Qed.

(** X5. A typed symbol is read without regard to the case of its ASCII
    letters: typing a symbol or its upper-case form gives the same run,
    event for event; and the typed symbol is empty exactly when nothing
    was typed. *)
Theorem typed_symbol_case_insensitive (w : world) (i : inputs)
    (text : string) :
  main w (typed i (Str.upper text)) = main w (typed i text)
  /\ (symbol_of (typed i text) = "" <-> text = "").
Proof.
  split.
  - apply main_inputs; [|reflexivity]. simpl. apply upper_idempotent.
  - simpl. split; intros H.
    + destruct text; [reflexivity|discriminate H].
    + subst text. reflexivity.
Qed.

End Symbol.

Lemma typed_symbol_case_insensitive_witness :
  symbol_of (typed (mkInputs ChooseFromList "AAPL" "" "None") "") = "".
Proof.
  apply (proj2 (proj2
           (typed_symbol_case_insensitive (pandas := ns_timestamps)
              (mkWorld "k" (fun _ => Responded 200 None)
                 (fun _ => Responded 200 None) (fun _ => Responded 200 None))
              (mkInputs ChooseFromList "AAPL" "" "None") ""))).
  reflexivity.
Defined.

Section PrimaryFrame.

Context {pandas : Pandas}.

(** X6. The frame transformation keeps the provider's rows, one per bar
    and in the provider's order, under the long column names, with the
    dates beside the timestamps and the short field codes gone.  It
    raises [KeyError('Timestamp')] on an empty result list and
    [OutOfBoundsDatetime] on timestamps that pandas cannot hold, and
    returns the frame in every other case. *)
Theorem transform_keeps_rows (results : list bar) :
  (results = [] -> transform results = raise (KeyError "Timestamp"))
  /\ (results <> [] ->
      datetime_in_bounds (map bar_t results) = false ->
      transform results = raise OutOfBoundsDatetime)
  /\ (results <> [] ->
      datetime_in_bounds (map bar_t results) = true ->
      exists df,
        transform results = ret df
        /\ nrows df = length results
        /\ Pd.column (columns df) "Open" = Some (map bar_o results)
        /\ Pd.column (columns df) "High" = Some (map bar_h results)
        /\ Pd.column (columns df) "Low" = Some (map bar_l results)
        /\ Pd.column (columns df) "Close" = Some (map bar_c results)
        /\ Pd.column (columns df) "Volume" = Some (map bar_v results)
        /\ Pd.column (columns df) "Timestamp" = Some (map bar_t results)
        /\ Pd.column (columns df) "Date" = Some (map bar_t results)
        /\ (forall code, In code ["o"; "h"; "l"; "c"; "v"; "t"] ->
                         Pd.column (columns df) code = None)
        /\ Forall (fun col => length (snd col) = nrows df) (columns df)).
Proof.
  split; [|split].
  - intros ->. apply transform_empty.
  - apply transform_out_of_bounds.
  - intros Hne Hin. exists (primary_frame results).
    split; [now apply transform_nonempty|].
    repeat split; try reflexivity.
    + intros code Hcode. simpl in Hcode.
      repeat (destruct Hcode as [<-|Hcode]; [reflexivity|]). contradiction.
    + simpl. repeat constructor; simpl; apply length_map.
Qed.

(** X7. With exactly five bars the week return starts from the first
    close ([iloc[-5]] is [iloc[0]]): the metrics block gives the fifth
    close as the latest price and, twice, the percentage return from the
    first close to the fifth. *)
Theorem week_return_five_bars (results : list bar) (d : float) :
  length results = 5%nat ->
  let close := map bar_c results in
  let ret_total := NpFloat64 (pct (nth 0 close d) (nth 4 close d)) in
  bind (transform results) metrics
  = (if datetime_in_bounds (map bar_t results)
     then ret (NpFloat64 (nth 4 close d), ret_total, ret_total)
     else raise OutOfBoundsDatetime)
  /\ calculate_percentage_return (NpFloat64 (nth 0 close d))
       (NpFloat64 (nth 4 close d))
     = Ret ret_total.
Proof.
  intros Hlen close ret_total. split; [|reflexivity].
  assert (Hne : results <> []) by (destruct results; [discriminate|congruence]).
  rewrite (transform_metrics_run results metrics Hne).
  rewrite (metrics_primary_frame results d Hne).
  unfold week_base. rewrite length_map, Hlen. reflexivity.
Qed.

End PrimaryFrame.

Lemma transform_keeps_rows_witness :
  transform (pandas := ns_timestamps)
    [mkBar 1 2 0.5 1.5 1000 1e16; mkBar 1.5 3 1 2 1200 1711929600000]%float
  = raise OutOfBoundsDatetime.
Proof.
  apply (proj1 (proj2 (transform_keeps_rows (pandas := ns_timestamps) _)));
    [discriminate|reflexivity].
Defined.

Lemma week_return_five_bars_witness :
  bind (transform (pandas := ns_timestamps)
          (flat_bars [150; 152; 149; 155; 160]%float)) metrics
  = ret (NpFloat64 160, NpFloat64 (pct 150 160), NpFloat64 (pct 150 160)).
Proof.
  refine (proj1 (week_return_five_bars (pandas := ns_timestamps)
                   (flat_bars [150; 152; 149; 155; 160]%float) 0%float _)).
  reflexivity.
Defined.

(* ===================================================================== *)
(** ** Further properties: the run as a whole                            *)
(* ===================================================================== *)

Section Blocks.

Lemma trace_bind {A B : Type} (m : M A) (k : A -> M B) :
  trace (bind m k)
  = (trace m ++ match result m with Ret a => trace (k a) | _ => [] end)%list.
Proof.
  destruct m as [t [a|e|]]; simpl; [destruct (k a); reflexivity|..];
    now rewrite app_nil_r.
Qed.

Lemma result_bind {A B : Type} (m : M A) (k : A -> M B) :
  result (bind m k)
  = match result m with
    | Ret a => result (k a)
    | Raise e => Raise e
    | Stop => Stop
    end.
Proof. destruct m as [t [a|e|]]; simpl; [destruct (k a)|..]; reflexivity. Qed.

Lemma tame_bind {A B : Type} (m : M A) (k : A -> M B) :
  tame m -> (forall a, tame (k a)) -> tame (bind m k).
Proof.
  unfold tame, silent, goes_on. intros [Hs Hg] Hk.
  rewrite trace_bind, result_bind, List.filter_app, Hs.
  destruct (result m) as [a|e|]; [apply Hk| |contradiction].
  split; [reflexivity|discriminate].
Qed.

Lemma tame_ret {A : Type} (a : A) : tame (ret a).
Proof. split; [reflexivity|discriminate]. Qed.

Lemma tame_raise {A : Type} (e : exn) : tame (@raise A e).
Proof. split; [reflexivity|discriminate]. Qed.

Lemma tame_emit (ev : event) : is_http ev = false -> tame (emit ev).
Proof.
  intros H. split; [|discriminate]. unfold silent. simpl. now rewrite H.
Qed.

Lemma tame_percentage (p c : number) :
  tame (lift (calculate_percentage_return p c)).
Proof.
  split; [reflexivity|]. unfold goes_on, calculate_percentage_return. simpl.
  destruct p as [x|x], c as [y|y]; simpl;
    try destruct (PrimFloat.eqb x 0); discriminate.
Qed.

Lemma tame_getitem (df : DataFrame) (key : string) : tame (Pd.getitem df key).
Proof.
  unfold Pd.getitem. destruct (Pd.column _ _); [apply tame_ret|apply tame_raise].
Qed.

Lemma tame_iloc (s : Series) (i : Z) : tame (Pd.iloc s i).
Proof.
  unfold Pd.iloc. destruct (_ && _); [|apply tame_raise].
  destruct (nth_error _ _); [apply tame_ret|apply tame_raise].
Qed.

Lemma tame_to_datetime {pandas : Pandas} (s : Series) :
  tame (Pd.to_datetime_ms s).
Proof.
  unfold Pd.to_datetime_ms.
  destruct (datetime_in_bounds s); [apply tame_ret|apply tame_raise].
Qed.

End Blocks.

(** Every block built from the steps above is tame. *)
Ltac tame_blocks :=
  repeat match goal with
         | |- tame (bind _ _) => apply tame_bind; [|intros]
         | |- tame (ret _) => apply tame_ret
         | |- tame (raise _) => apply tame_raise
         | |- tame (emit _) => apply tame_emit; reflexivity
         | |- tame (lift (calculate_percentage_return _ _)) =>
             apply tame_percentage
         | |- tame (Pd.getitem _ _) => apply tame_getitem
         | |- tame (Pd.iloc _ _) => apply tame_iloc
         | |- tame (Pd.to_datetime_ms _) => apply tame_to_datetime
         | |- tame (match ?x with _ => _ end) => destruct x
         end.

Section WholeRun.

Context {pandas : Pandas}.
Variables (w : world) (i : inputs).

Lemma tame_transform (results : list bar) : tame (transform results).
Proof. unfold transform. tame_blocks. Qed.

Lemma tame_metrics (df : DataFrame) : tame (metrics df).
Proof. unfold metrics. tame_blocks. Qed.

Lemma tame_comparison (df : DataFrame) (ret_total : number)
    (bench : option aggs_payload) :
  tame (comparison df ret_total bench).
Proof. unfold comparison. tame_blocks. Qed.

Lemma tame_metric_tiles (a b c : number) (o : option number) :
  tame (metric_tiles i a b c o).
Proof. unfold metric_tiles. tame_blocks. Qed.

Lemma tame_candlestick_tab (df : DataFrame) : tame (candlestick_tab df).
Proof. unfold candlestick_tab. tame_blocks. Qed.

Lemma tame_comparison_tab (symbol : string) (g : globals) :
  tame (comparison_tab i symbol g).
Proof. unfold comparison_tab. tame_blocks. Qed.

Lemma tame_research_links (symbol : string) : tame (research_links symbol).
Proof. unfold research_links. tame_blocks. Qed.

End WholeRun.

Section Requests.

Context {pandas : Pandas}.
Variables (w : world) (i : inputs).

Lemma fetch_api_data_cases {A : Type} (get : string -> http_outcome A)
    (url : string) :
  (exists v, fetch_api_data get url = ([HttpGet url 10], Ret v))
  \/ (exists e, (get url = Failed e \/ get url = Garbled 200 e)
                /\ is_RequestException e = false
                /\ fetch_api_data get url = ([HttpGet url 10], Raise e)).
Proof.
  rewrite fetch_api_data_run.
  destruct (get url) as [status body|e|status e].
  - left. eexists; reflexivity.
  - destruct (is_RequestException e) eqn:He.
    + left. eexists; reflexivity.
    + right. exists e. split; [now left|]. split; [exact He|reflexivity].
  - destruct (Z.eqb_spec status 200) as [->|Hs]; [|left; eexists; reflexivity].
    destruct (is_RequestException e) eqn:He.
    + left. eexists; reflexivity.
    + right. exists e. split; [now right|]. split; [exact He|reflexivity].
Qed.

Lemma fetch_api_data_returns {A : Type} (get : string -> http_outcome A)
    (url : string) :
  (forall e, get url = Failed e \/ get url = Garbled 200 e ->
             is_RequestException e = true) ->
  exists v, fetch_api_data get url = ([HttpGet url 10], Ret v).
Proof.
  intros Hf. destruct (fetch_api_data_cases get url) as [H|(e & He & Hn & _)];
    [exact H|].
  rewrite (Hf e He) in Hn. discriminate.
Qed.

Lemma benchmark_symbols_nonempty (label b : string) :
  BENCHMARK_MAP !! label = Some b -> Str.truthy b = true.
Proof.
  unfold BENCHMARK_MAP. intros H.
  repeat (apply lookup_insert_Some in H;
          destruct H as [[_ <-]|[_ H]]; [reflexivity|]).
  rewrite lookup_empty in H. discriminate.
Qed.

Lemma logo_column_requests (symbol : string) :
  List.filter is_http (trace (logo_column w symbol))
  = [HttpHead (img_url symbol) 2]
  /\ goes_on (logo_column w symbol).
Proof.
  rewrite logo_column_run. cbv zeta. unfold goes_on.
  destruct (head_logo w (img_url symbol)) as [status body|e|status e].
  - destruct (status =? 200); split; (reflexivity || discriminate).
  - destruct (is_RequestException e); split; (reflexivity || discriminate).
  - destruct (status =? 200); split; (reflexivity || discriminate).
Qed.

(** The logo probe is the only request of the rendering branch, however
    the branch ends, and the branch never stops the run. *)
Lemma render_requests (symbol : string) (results : list bar)
    (details : option details_payload) (bench : option aggs_payload) :
  List.filter is_http (trace (render w i symbol results details bench))
  = [HttpHead (img_url symbol) 2]
  /\ goes_on (render w i symbol results details bench).
Proof.
  unfold render.
  match goal with
  | |- context [logo_column w symbol >>> ?k] => set (rest := k)
  end.
  assert (Hk : tame rest).
  { unfold rest. apply tame_bind; [apply tame_emit; reflexivity|intros _].
    apply tame_bind; [apply tame_transform|intros df].
    apply tame_bind; [apply tame_metrics|intros [[latest ret_total] ret_week]].
    apply tame_bind; [apply tame_comparison|intros g].
    apply tame_bind; [apply tame_metric_tiles|intros _].
    apply tame_bind; [apply tame_emit; reflexivity|intros _].
    apply tame_bind; [apply tame_candlestick_tab|intros _].
    apply tame_bind; [apply tame_comparison_tab|intros _].
    apply tame_bind; [apply tame_research_links|intros _].
    apply tame_bind; [apply tame_emit; reflexivity|intros _].
    apply tame_ret. }
  clearbody rest. destruct Hk as [Hs Hg]. unfold goes_on, silent in *.
  destruct (logo_column_requests symbol) as [Hl Hlg]. unfold goes_on in Hlg.
  rewrite !trace_bind, !result_bind, !List.filter_app. simpl result.
  simpl trace. cbv iota. rewrite !List.filter_app, Hl.
  destruct (result (logo_column w symbol)) as [[]| |];
    [rewrite Hs; auto|split; [reflexivity|discriminate]|contradiction].
Qed.

Lemma goes_on_bind {A B : Type} (m : M A) (k : A -> M B) :
  goes_on m -> (forall a, goes_on (k a)) -> goes_on (bind m k).
Proof.
  unfold goes_on. intros Hm Hk. rewrite result_bind.
  destruct (result m); [apply Hk|discriminate|contradiction].
Qed.

Lemma goes_on_fetch {A : Type} (get : string -> http_outcome A)
    (url : string) :
  goes_on (fetch_api_data get url).
Proof.
  unfold goes_on.
  destruct (fetch_api_data_cases get url) as [[v ->]|(e & _ & _ & ->)];
    discriminate.
Qed.

Lemma goes_on_acquire (symbol : string) (benchmark_symbol : option string) :
  goes_on (acquire w symbol benchmark_symbol).
Proof.
  unfold acquire.
  apply goes_on_bind; [apply goes_on_fetch|intros stock].
  apply goes_on_bind; [apply goes_on_fetch|intros details].
  apply goes_on_bind; [|intros bench; discriminate].
  destruct benchmark_symbol as [b|]; [destruct (Str.truthy b)|];
    try apply goes_on_fetch; discriminate.
Qed.

Lemma acquire_returns (symbol : string) (benchmark_symbol : option string) :
  (forall url e, get_aggs w url = Failed e \/ get_aggs w url = Garbled 200 e ->
                 is_RequestException e = true) ->
  (forall url e,
      get_details w url = Failed e \/ get_details w url = Garbled 200 e ->
      is_RequestException e = true) ->
  (forall b, benchmark_symbol = Some b -> Str.truthy b = true) ->
  exists stock details bench,
    fetch_api_data (get_aggs w) (aggs_url w symbol)
    = ([HttpGet (aggs_url w symbol) 10], Ret stock)
    /\ acquire w symbol benchmark_symbol
       = ([HttpGet (aggs_url w symbol) 10; HttpGet (info_url w symbol) 10]
          ++ match benchmark_symbol with
             | Some b => [HttpGet (aggs_url w b) 10]
             | None => []
             end,
          Ret (stock, details, bench))%list.
Proof.
  intros Ha Hd Hb. unfold acquire.
  destruct (fetch_api_data_returns (get_aggs w) (aggs_url w symbol) (Ha _))
    as [stock Hs].
  destruct (fetch_api_data_returns (get_details w) (info_url w symbol) (Hd _))
    as [details Hdt].
  exists stock, details. rewrite Hs, Hdt.
  destruct benchmark_symbol as [b|].
  - rewrite (Hb b eq_refl).
    destruct (fetch_api_data_returns (get_aggs w) (aggs_url w b) (Ha _))
      as [bench Hbn].
    exists bench. rewrite Hbn. split; reflexivity.
  - exists None. split; reflexivity.
Qed.

(** X8. A run with a non-empty symbol in which [requests.get] and
    [res.json()] raise nothing but [RequestException]s sends its requests
    in source order, each fetch once: the GET of the prices, the GET of
    the reference data, the GET of the benchmark prices exactly when the
    benchmark label is one of the map's keys (also when the benchmark is
    the symbol itself and the URL is the one already fetched), and the
    HEAD probe of the logo exactly when the primary payload has a
    "results" entry. *)
Theorem run_request_sequence
    (Hsymbol : Str.truthy (symbol_of i) = true)
    (Haggs : forall url e,
        get_aggs w url = Failed e \/ get_aggs w url = Garbled 200 e ->
        is_RequestException e = true)
    (Hdetails : forall url e,
        get_details w url = Failed e \/ get_details w url = Garbled 200 e ->
        is_RequestException e = true) :
  let symbol := symbol_of i in
  exists stock,
    result (fetch_api_data (get_aggs w) (aggs_url w symbol)) = Ret stock
    /\ List.filter is_http (trace (main w i))
       = ([HttpGet (aggs_url w symbol) 10; HttpGet (info_url w symbol) 10]
          ++ match BENCHMARK_MAP !! benchmark_label i with
             | Some b => [HttpGet (aggs_url w b) 10]
             | None => []
             end
          ++ match usable_results stock with
             | Some _ => [HttpHead (img_url symbol) 2]
             | None => []
             end)%list.
Proof.
  intros symbol.
  destruct (acquire_returns symbol (BENCHMARK_MAP !! benchmark_label i)
              Haggs Hdetails (benchmark_symbols_nonempty _))
    as (stock & details & bench & Hstock & Hacq).
  exists stock. split; [now rewrite Hstock|].
  unfold main. fold symbol. unfold symbol at 1. rewrite Hsymbol. simpl negb.
  cbv iota. rewrite bind_ret_l, trace_bind, Hacq. simpl result. cbv iota.
  cbn [trace fst]. rewrite List.filter_app.
  destruct (BENCHMARK_MAP !! benchmark_label i) as [b|];
    destruct (usable_results stock) as [results|];
    rewrite ?(proj1 (render_requests symbol _ details bench));
    reflexivity.
Qed.


(** X9. [st.stop()] is reached through the empty-symbol guard and in no
    other way: a run stops exactly when the sidebar yields an empty
    symbol. *)
Theorem run_stops_iff_symbol_empty :
  result (main w i) = Stop <-> symbol_of i = "".
Proof.
  unfold main. destruct (symbol_of i) as [|c s] eqn:Hsym.
  - simpl. split; reflexivity.
  - simpl negb. cbv iota. rewrite bind_ret_l. split; [|discriminate].
    intros Hstop. exfalso. revert Hstop.
    apply goes_on_bind; [apply goes_on_acquire|].
    intros [[stock details] bench].
    destruct (usable_results stock); [apply render_requests|discriminate].
Qed.

End Requests.

Lemma run_request_sequence_witness :
  let w := mkWorld "k" (fun _ => Failed (RequestException Timeout))
             (fun _ => Responded 404 None) (fun _ => Responded 200 None) in
  let i := mkInputs ChooseFromList "AAPL" "" "Nasdaq (QQQ)" in
  exists stock,
    result (fetch_api_data (get_aggs w) (aggs_url w "AAPL")) = Ret stock
    /\ List.filter is_http (trace (main (pandas := ns_timestamps) w i))
       = ([HttpGet (aggs_url w "AAPL") 10; HttpGet (info_url w "AAPL") 10]
          ++ match BENCHMARK_MAP !! "Nasdaq (QQQ)" with
             | Some b => [HttpGet (aggs_url w b) 10]
             | None => []
             end
          ++ match usable_results stock with
             | Some _ => [HttpHead (img_url "AAPL") 2]
             | None => []
             end)%list.
Proof.
  intros w0 i0.
  refine (run_request_sequence w0 i0 _ _ _).
  - reflexivity.
  - intros url e [[= <-]|H]; [reflexivity|discriminate H].
  - intros url e [H|H]; discriminate H.
Defined.

Lemma run_stops_iff_symbol_empty_witness :
  result (main (pandas := ns_timestamps)
            (mkWorld "k" (fun _ => Responded 200 None)
               (fun _ => Responded 200 None) (fun _ => Responded 200 None))
            (mkInputs TypeManually "AAPL" "" "None"))
  = Stop.
Proof.
  apply run_stops_iff_symbol_empty. reflexivity.
Defined.

(** One statement of the script, keeping the outcome and the whole trace. *)
Lemma seq_ret {A B : Type} (m : M A) (k : A -> M B) (a : A)
    (t : list event) (r : outcome B) :
  result m = Ret a ->
  result (k a) = r /\ trace (k a) = t ->
  result (bind m k) = r /\ trace (bind m k) = (trace m ++ t)%list.
Proof.
  intros Hm [Hr Ht].
  now rewrite (result_bind_ret m k a Hm), (trace_bind_ret m k a Hm), Hr, Ht.
Qed.

Ltac step_trace a :=
  match goal with
  | |- result (bind ?m ?k) = _ /\ trace (bind ?m ?k) = _ =>
      let H := fresh "Hstep" in
      assert (H : result m = Ret a);
      [ | refine (seq_ret m k a _ _ H _); clear H; cbv beta ]
  end.

Section Page.

Context {pandas : Pandas}.
Variables (w : world) (i : inputs) (symbol : string).
Variables (results : list bar) (details : option details_payload).
Variable d : float.

Lemma logo_column_drawn :
  result (logo_column w symbol) = Ret tt ->
  exists ev,
    logo_column w symbol = ([HttpHead (img_url symbol) 2; ev], Ret tt)
    /\ (ev = Image (img_url symbol) 70 \/ ev = Markdown "## 🏢").
Proof.
  rewrite logo_column_run. cbv zeta.
  destruct (head_logo w (img_url symbol)) as [status body|e|status e].
  - destruct (status =? 200); intros _; eexists; split; eauto.
  - destruct (is_RequestException e); [|discriminate].
    intros _. eexists; split; eauto.
  - destruct (status =? 200); intros _; eexists; split; eauto.
Qed.

(** The trace of a rendering branch in which every block returns. *)
Lemma render_trace (bench : option aggs_payload) (g0 : globals) (ev : event) :
  logo_column w symbol = ([HttpHead (img_url symbol) 2; ev], Ret tt) ->
  results <> [] ->
  datetime_in_bounds (map bar_t results) = true ->
  (let close := map bar_c results in
   let latest := nth (length close - 1) close d in
   comparison (primary_frame results) (NpFloat64 (pct (nth 0 close d) latest))
     bench = ret g0) ->
  ((main_df g0 = primary_frame results /\ outperform_val g0 = None)
   \/ (exists bench_results,
          main_df g0 = compared_frame results d
          /\ bench_df g0 = benchmark_frame bench_results d)) ->
  let close := map bar_c results in
  let latest := nth (length close - 1) close d in
  result (render w i symbol results details bench) = Ret g0
  /\ trace (render w i symbol results details bench)
     = ([Title dashboard_title; Columns 2; HttpHead (img_url symbol) 2; ev;
         Header (company_name_of details symbol)]
        ++ trace (metric_tiles i (NpFloat64 latest)
                    (NpFloat64 (pct (week_base close d) latest))
                    (NpFloat64 (pct (nth 0 close d) latest))
                    (outperform_val g0))
        ++ [Tabs "🕯️ Candlestick Chart" "📈 Growth Comparison";
            Candlestick (map bar_t results) (map bar_o results)
              (map bar_h results) (map bar_l results) close]
        ++ trace (comparison_tab i symbol g0)
        ++ trace (research_links symbol)
        ++ [RawDataTable (main_df g0)])%list.
Proof.
  intros Hlogo Hne Hin Hcmp Hshape close latest. subst close latest.
  cbv zeta in Hcmp.
  assert (Hcandle : candlestick_tab (main_df g0)
                    = emit (Candlestick (map bar_t results) (map bar_o results)
                              (map bar_h results) (map bar_l results)
                              (map bar_c results))).
  { destruct Hshape as [[-> _]|(bres & -> & _)]; reflexivity. }
  unfold render.
  step_trace tt; [reflexivity|].
  step_trace tt; [reflexivity|].
  rewrite Hlogo.
  step_trace tt; [reflexivity|].
  step_trace tt; [reflexivity|].
  rewrite (transform_nonempty results Hne Hin), bind_ret_l.
  rewrite (metrics_primary_frame results d Hne), bind_ret_l.
  cbv beta iota zeta. rewrite Hcmp, bind_ret_l.
  step_trace tt; [apply metric_tiles_primary|].
  step_trace tt; [reflexivity|].
  rewrite Hcandle.
  step_trace tt; [reflexivity|].
  step_trace tt.
  { apply comparison_tab_primary.
    destruct Hshape as [[_ ->]|(bres & Hm & Hb)]; [now left|].
    right. now exists results, bres, d. }
  step_trace tt; [apply research_links_primary|].
  step_trace tt; [reflexivity|].
  split; reflexivity.
Qed.

(** How a rendering branch that completes went. *)
Lemma render_completes (bench : option aggs_payload) (g : globals) :
  result (render w i symbol results details bench) = Ret g ->
  exists ev,
    logo_column w symbol = ([HttpHead (img_url symbol) 2; ev], Ret tt)
    /\ (ev = Image (img_url symbol) 70 \/ ev = Markdown "## 🏢")
    /\ results <> []
    /\ datetime_in_bounds (map bar_t results) = true
    /\ comparison (primary_frame results) (total_return results d) bench
       = ret g
    /\ ((usable_results bench = None
         /\ g = mkGlobals (primary_frame results) empty_frame None)
        \/ (exists bres,
               usable_results bench = Some bres /\ bres <> []
               /\ datetime_in_bounds (map bar_t bres) = true
               /\ g = compared_globals results bres d)).
Proof.
  intros Hrun.
  destruct (result (logo_column w symbol)) as [[]|e|] eqn:Hl.
  2:{ rewrite (render_raises_with_logo w i symbol results details bench e Hl)
        in Hrun. discriminate. }
  2:{ exfalso. now apply (proj2 (logo_column_requests w symbol)). }
  destruct (logo_column_drawn Hl) as (ev & Hlogo & Hev).
  exists ev. split; [exact Hlogo|]. split; [exact Hev|].
  assert (Hne : results <> []).
  { intros Hnil.
    rewrite (render_raises_in_transform w i symbol results details bench
               (KeyError "Timestamp") Hl) in Hrun; [discriminate|].
    rewrite Hnil. apply transform_empty. }
  split; [exact Hne|].
  destruct (datetime_in_bounds (map bar_t results)) eqn:Hin.
  2:{ rewrite (render_raises_in_transform w i symbol results details bench
                 OutOfBoundsDatetime Hl
                 (transform_out_of_bounds results Hne Hin)) in Hrun.
      discriminate. }
  split; [reflexivity|].
  destruct (usable_results bench) as [[|b bs]|] eqn:Hus.
  - exfalso.
    rewrite (render_raises_in_comparison w i symbol results details d bench
               (KeyError "t") Hl Hne Hin) in Hrun; [discriminate|].
    intros rt. now apply comparison_empty_benchmark.
  - destruct (datetime_in_bounds (map bar_t (b :: bs))) eqn:Hbin.
    2:{ rewrite (render_raises_in_comparison w i symbol results details d
                   bench OutOfBoundsDatetime Hl Hne Hin) in Hrun;
          [discriminate|].
        intros rt. now apply (comparison_out_of_bounds _ (b :: bs)). }
    pose proof (comparison_with_benchmark results (b :: bs)
                  (total_return results d) bench d Hne ltac:(discriminate)
                  Hus Hbin) as Hcmp.
    cbv zeta in Hcmp.
    destruct (render_trace bench _ ev Hlogo Hne Hin Hcmp) as [Hres _].
    { right. now exists (b :: bs). }
    rewrite Hres in Hrun. injection Hrun as <-.
    split; [exact Hcmp|]. right. exists (b :: bs).
    split; [reflexivity|]. split; [discriminate|]. split; [exact Hbin|].
    reflexivity.
  - pose proof (comparison_without_benchmark (primary_frame results)
                  (total_return results d) bench Hus) as Hcmp.
    destruct (render_trace bench _ ev Hlogo Hne Hin Hcmp) as [Hres _].
    { left. split; reflexivity. }
    rewrite Hres in Hrun. injection Hrun as <-.
    split; [exact Hcmp|]. left. split; reflexivity.
Qed.

End Page.

Section Outcome.

Context {pandas : Pandas}.
Variables (w : world) (i : inputs).

Lemma main_nonempty_symbol :
  Str.truthy (symbol_of i) = true ->
  main w i
  = (let* fetched :=
       acquire w (symbol_of i) (BENCHMARK_MAP !! benchmark_label i) in
     let '(stock, details, bench) := fetched in
     match usable_results stock with
     | Some results => render w i (symbol_of i) results details bench
     | None =>
         emit (Error fetch_failed_message) >>>
         ret (mkGlobals empty_frame empty_frame None)
     end).
Proof.
  intros H. unfold main. rewrite H. simpl negb. cbv iota.
  now rewrite bind_ret_l.
Qed.

Lemma acquire_widgets (symbol : string) (benchmark_symbol : option string) :
  widgets (acquire w symbol benchmark_symbol) = [].
Proof.
  unfold widgets, acquire.
  assert (Hf : forall (A : Type) (get : string -> http_outcome A) url,
             List.filter (fun ev => negb (is_http ev))
               (trace (fetch_api_data get url)) = []).
  { intros A get url.
    destruct (fetch_api_data_cases get url) as [[v ->]|(e & _ & _ & ->)];
      reflexivity. }
  rewrite !trace_bind, !List.filter_app, !Hf.
  destruct (result (fetch_api_data _ _)); [|reflexivity..].
  rewrite !trace_bind, !List.filter_app, !Hf.
  destruct (result (fetch_api_data _ _)); [|reflexivity..].
  rewrite !trace_bind, !List.filter_app.
  assert (Hb : List.filter (fun ev => negb (is_http ev))
                 (trace (match benchmark_symbol with
                         | Some b =>
                             if Str.truthy b
                             then fetch_api_data (get_aggs w) (aggs_url w b)
                             else ret None
                         | None => ret None
                         end)) = []).
  { destruct benchmark_symbol as [b|]; [destruct (Str.truthy b)|];
      try apply Hf; reflexivity. }
  rewrite Hb. destruct (result _); reflexivity.
Qed.

Lemma logo_column_returns (symbol : string) :
  (forall e, head_logo w (img_url symbol) = Failed e ->
             is_RequestException e = true) ->
  result (logo_column w symbol) = Ret tt.
Proof.
  intros Hf. rewrite logo_column_run. cbv zeta.
  destruct (head_logo w (img_url symbol)) as [status body|e|status e] eqn:Hh.
  - reflexivity.
  - rewrite (Hf e eq_refl). reflexivity.
  - reflexivity.
Qed.

(** X10. When the primary payload is unusable (the fetch returned [None],
    or the decoded object has no "results" entry) the main area of the
    page gets one widget, the generic error, and nothing else: no title,
    no logo probe; the run ends normally with the globals as
    initialised. *)
Theorem unusable_payload_shows_only_error
    (stock : option aggs_payload) (details : option details_payload)
    (bench : option aggs_payload)
    (Hsymbol : Str.truthy (symbol_of i) = true)
    (Hacquire : result (acquire w (symbol_of i)
                          (BENCHMARK_MAP !! benchmark_label i))
                = Ret (stock, details, bench))
    (Hunusable : usable_results stock = None) :
  result (main w i) = Ret (mkGlobals empty_frame empty_frame None)
  /\ widgets (main w i) = [Error fetch_failed_message]
  /\ List.filter is_http (trace (main w i))
     = trace (acquire w (symbol_of i) (BENCHMARK_MAP !! benchmark_label i)).
Proof.
  rewrite (main_nonempty_symbol Hsymbol). unfold widgets.
  rewrite (result_bind_ret _ _ _ Hacquire), (trace_bind_ret _ _ _ Hacquire).
  rewrite Hunusable, !List.filter_app.
  fold (widgets (acquire w (symbol_of i)
                   (BENCHMARK_MAP !! benchmark_label i))).
  rewrite acquire_widgets. split; [reflexivity|]. split; [reflexivity|].
  simpl. rewrite app_nil_r.
  pose proof (acquire_widgets (symbol_of i)
                (BENCHMARK_MAP !! benchmark_label i)) as Hw.
  unfold widgets in Hw. revert Hw.
  generalize (trace (acquire w (symbol_of i)
                       (BENCHMARK_MAP !! benchmark_label i))).
  induction l as [|ev l IH]; [reflexivity|]. simpl.
  destruct (is_http ev); simpl; [|discriminate].
  intros Hl. now rewrite (IH Hl).
Qed.

(** X11. How a run with a non-empty symbol ends, by the two payloads,
    when the three fetches return and the logo probe fails at most the
    way [requests] fails.  An unusable primary payload ends normally; an
    empty "results" list of the primary series raises
    KeyError('Timestamp'); primary timestamps that pandas cannot hold
    raise OutOfBoundsDatetime; then an empty "results" list of the
    benchmark raises KeyError('t') and benchmark timestamps that pandas
    cannot hold raise OutOfBoundsDatetime; in every other case the run
    completes and leaves the primary frame alone (unusable benchmark) or
    both frames with their normalized columns and the outperformance. *)
Theorem run_outcome
    (stock : option aggs_payload) (details : option details_payload)
    (bench : option aggs_payload) (d : float)
    (Hsymbol : Str.truthy (symbol_of i) = true)
    (Hacquire : result (acquire w (symbol_of i)
                          (BENCHMARK_MAP !! benchmark_label i))
                = Ret (stock, details, bench))
    (Hlogo : forall e, head_logo w (img_url (symbol_of i)) = Failed e ->
                       is_RequestException e = true) :
  result (main w i)
  = match usable_results stock with
    | None => Ret (mkGlobals empty_frame empty_frame None)
    | Some [] => Raise (KeyError "Timestamp")
    | Some (r :: rs) =>
        if negb (datetime_in_bounds (map bar_t (r :: rs)))
        then Raise OutOfBoundsDatetime
        else
          match usable_results bench with
          | None => Ret (mkGlobals (primary_frame (r :: rs)) empty_frame None)
          | Some [] => Raise (KeyError "t")
          | Some (b :: bs) =>
              if datetime_in_bounds (map bar_t (b :: bs))
              then Ret (compared_globals (r :: rs) (b :: bs) d)
              else Raise OutOfBoundsDatetime
          end
    end.
Proof.
  rewrite (main_nonempty_symbol Hsymbol).
  rewrite (result_bind_ret _ _ _ Hacquire).
  pose proof (logo_column_returns (symbol_of i) Hlogo) as Hl.
  destruct (logo_column_drawn w (symbol_of i) Hl) as (ev & Hev & _).
  destruct (usable_results stock) as [[|r rs]|] eqn:Hstock; [| |reflexivity].
  - apply render_raises_in_transform; [exact Hl|apply transform_empty].
  - set (results := r :: rs).
    assert (Hne : results <> []) by discriminate.
    destruct (datetime_in_bounds (map bar_t results)) eqn:Hin; simpl negb;
      cbv iota.
    2:{ apply render_raises_in_transform; [exact Hl|].
        now apply transform_out_of_bounds. }
    destruct (usable_results bench) as [[|b bs]|] eqn:Hbench.
    + apply (render_raises_in_comparison w i (symbol_of i) results details d);
        try assumption.
      intros rt. now apply comparison_empty_benchmark.
    + destruct (datetime_in_bounds (map bar_t (b :: bs))) eqn:Hbin.
      * pose proof (comparison_with_benchmark results (b :: bs)
                      (total_return results d) bench d Hne
                      ltac:(discriminate) Hbench Hbin) as Hcmp.
        cbv zeta in Hcmp.
        refine (proj1 (render_trace w i (symbol_of i) results details d bench
                         _ ev Hev Hne Hin Hcmp _)).
        right. now exists (b :: bs).
      * apply (render_raises_in_comparison w i (symbol_of i) results details
                 d); try assumption.
        intros rt. now apply (comparison_out_of_bounds _ (b :: bs)).
    + pose proof (comparison_without_benchmark (primary_frame results)
                    (total_return results d) bench Hbench) as Hcmp.
      refine (proj1 (render_trace w i (symbol_of i) results details d bench
                       _ ev Hev Hne Hin Hcmp _)).
      left. split; reflexivity.
Qed.

(** X16. An exception that escapes one of the fetches ends the run on
    the spot: the run raises that exception, nothing has been drawn in
    the main area of the page, and the request it came from is the last
    one sent.  It is an exception that [requests.get] raised for that
    request, or that [res.json()] raised on its response with status 200,
    and it is no [RequestException]. *)
Theorem fetch_exception_ends_run (e : exn)
    (Hsymbol : Str.truthy (symbol_of i) = true)
    (Hacquire : result (acquire w (symbol_of i)
                          (BENCHMARK_MAP !! benchmark_label i))
                = Raise e) :
  main w i
  = (trace (acquire w (symbol_of i) (BENCHMARK_MAP !! benchmark_label i)),
     Raise e)
  /\ widgets (main w i) = []
  /\ exists url,
       last (trace (main w i)) = Some (HttpGet url 10)
       /\ (get_aggs w url = Failed e \/ get_aggs w url = Garbled 200 e
           \/ get_details w url = Failed e
           \/ get_details w url = Garbled 200 e)
       /\ is_RequestException e = false.
Proof.
  rewrite (main_nonempty_symbol Hsymbol).
  set (symbol := symbol_of i) in *.
  set (bsym := BENCHMARK_MAP !! benchmark_label i) in *.
  assert (Hmain : (let* fetched := acquire w symbol bsym in
                   let '(stock, details, bench) := fetched in
                   match usable_results stock with
                   | Some results => render w i symbol results details bench
                   | None =>
                       emit (Error fetch_failed_message) >>>
                       ret (mkGlobals empty_frame empty_frame None)
                   end)
                  = (trace (acquire w symbol bsym), Raise e)).
  { destruct (acquire w symbol bsym) as [t o]. simpl in Hacquire |- *.
    subst o. reflexivity. }
  rewrite Hmain. split; [reflexivity|]. split.
  { apply acquire_widgets. }
  cbn [trace fst]. revert Hacquire. unfold acquire.
  destruct (fetch_api_data_cases (get_aggs w) (aggs_url w symbol))
    as [[stock ->]|(e1 & Hf1 & Hn1 & ->)].
  2:{ intros [= ->]. exists (aggs_url w symbol).
      split; [reflexivity|]. split; [tauto|exact Hn1]. }
  destruct (fetch_api_data_cases (get_details w) (info_url w symbol))
    as [[details ->]|(e2 & Hf2 & Hn2 & ->)].
  2:{ intros [= ->]. exists (info_url w symbol).
      split; [reflexivity|]. split; [tauto|exact Hn2]. }
  destruct bsym as [b|]; [destruct (Str.truthy b)|]; try discriminate.
  destruct (fetch_api_data_cases (get_aggs w) (aggs_url w b))
    as [[bench ->]|(e3 & Hf3 & Hn3 & ->)]; [discriminate|].
  intros [= ->]. exists (aggs_url w b).
  split; [reflexivity|]. split; [tauto|exact Hn3].
Qed.

End Outcome.

Lemma unusable_payload_shows_only_error_witness :
  let w := mkWorld "k" (fun _ => Responded 429 None)
             (fun _ => Responded 200 None) (fun _ => Responded 200 None) in
  let i := mkInputs ChooseFromList "AAPL" "" "None" in
  widgets (main (pandas := ns_timestamps) w i) = [Error fetch_failed_message].
Proof.
  intros w0 i0.
  refine (proj1 (proj2 (unusable_payload_shows_only_error w0 i0 None None None
                          _ _ _))); reflexivity.
Defined.

Lemma run_outcome_witness :
  let late := mkBar 1 2 0.5 1.5 1000 1e16 in
  let w := mkWorld "k"
             (fun _ => Responded 200 (Some (mkAggs (Some [late]))))
             (fun _ => Responded 200 None) (fun _ => Responded 200 None) in
  let i := mkInputs ChooseFromList "AAPL" "" "None" in
  result (main (pandas := ns_timestamps) w i) = Raise OutOfBoundsDatetime.
Proof.
  intros late w0 i0.
  refine (run_outcome w0 i0 (Some (mkAggs (Some [late]))) None None 0%float
            _ _ _).
  - reflexivity.
  - reflexivity.
  - intros e. discriminate.
Defined.

Lemma fetch_exception_ends_run_witness :
  let w := mkWorld "k" (fun _ => Responded 200 None)
             (fun _ => Garbled 200 RecursionError)
             (fun _ => Responded 200 None) in
  let i := mkInputs ChooseFromList "AAPL" "" "Nasdaq (QQQ)" in
  main (pandas := ns_timestamps) w i
  = ([HttpGet (aggs_url w "AAPL") 10; HttpGet (info_url w "AAPL") 10],
     Raise RecursionError).
Proof.
  intros w0 i0.
  refine (proj1 (fetch_exception_ends_run w0 i0 RecursionError _ _));
    reflexivity.
Defined.

Section PageContents.

Context {pandas : Pandas}.
Variables (w : world) (i : inputs).

Lemma fetch_api_data_trace_http {A : Type} (get : string -> http_outcome A)
    (url : string) :
  Forall (fun ev => is_http ev = true) (trace (fetch_api_data get url)).
Proof.
  destruct (fetch_api_data_cases get url) as [[v ->]|(e & _ & _ & ->)];
    repeat constructor.
Qed.

Lemma acquire_trace_http (symbol : string) (benchmark_symbol : option string) :
  Forall (fun ev => is_http ev = true)
    (trace (acquire w symbol benchmark_symbol)).
Proof.
  unfold acquire. rewrite trace_bind. apply Forall_app_2.
  { apply fetch_api_data_trace_http. }
  destruct (result _); [|constructor..].
  rewrite trace_bind. apply Forall_app_2.
  { apply fetch_api_data_trace_http. }
  destruct (result _); [|constructor..].
  rewrite trace_bind. apply Forall_app_2.
  { destruct benchmark_symbol as [b|]; [destruct (Str.truthy b)|];
      try apply fetch_api_data_trace_http; constructor. }
  destruct (result _); constructor.
Qed.

Lemma filter_http_out (P : event -> bool) (l : list event) :
  (forall ev, is_http ev = true -> P ev = false) ->
  Forall (fun ev => is_http ev = true) l ->
  List.filter P l = [].
Proof.
  intros HP. induction 1 as [|ev l Hev _ IH]; [reflexivity|].
  simpl. now rewrite (HP ev Hev).
Qed.

(** A completed run that entered the rendering branch, taken apart. *)
Lemma completed_run (stock : option aggs_payload)
    (details : option details_payload) (bench : option aggs_payload)
    (results : list bar) (d : float) (g : globals) (P : event -> bool) :
  Str.truthy (symbol_of i) = true ->
  result (acquire w (symbol_of i) (BENCHMARK_MAP !! benchmark_label i))
  = Ret (stock, details, bench) ->
  usable_results stock = Some results ->
  result (main w i) = Ret g ->
  (forall ev, is_http ev = true -> P ev = false) ->
  exists logo,
    (logo = Image (img_url (symbol_of i)) 70 \/ logo = Markdown "## 🏢")
    /\ results <> []
    /\ ((usable_results bench = None
         /\ g = mkGlobals (primary_frame results) empty_frame None)
        \/ (exists bres,
               usable_results bench = Some bres /\ bres <> []
               /\ g = compared_globals results bres d))
    /\ List.filter P (trace (main w i))
       = List.filter P
           ([Title dashboard_title; Columns 2; logo;
             Header (company_name_of details (symbol_of i))]
            ++ trace (metric_tiles i
                        (NpFloat64 (nth (length (map bar_c results) - 1)
                                      (map bar_c results) d))
                        (NpFloat64 (pct (week_base (map bar_c results) d)
                                      (nth (length (map bar_c results) - 1)
                                         (map bar_c results) d)))
                        (total_return results d)
                        (outperform_val g))
            ++ [Tabs "🕯️ Candlestick Chart" "📈 Growth Comparison";
                Candlestick (map bar_t results) (map bar_o results)
                  (map bar_h results) (map bar_l results)
                  (map bar_c results)]
            ++ trace (comparison_tab i (symbol_of i) g)
            ++ trace (research_links (symbol_of i))
            ++ [RawDataTable (main_df g)])%list.
Proof.
  intros Hsymbol Hacquire Husable Hrun HP.
  rewrite (main_nonempty_symbol w i Hsymbol) in Hrun |- *.
  rewrite (result_bind_ret _ _ _ Hacquire) in Hrun.
  rewrite (trace_bind_ret _ _ _ Hacquire).
  rewrite Husable in Hrun |- *.
  destruct (render_completes w i (symbol_of i) results details d bench g Hrun)
    as (logo & Hlogo & Hshown & Hne & Hin & Hcmp & Hshape).
  exists logo. split; [exact Hshown|]. split; [exact Hne|].
  split.
  { destruct Hshape as [H|(bres & Hus & Hbne & _ & Hg)];
      [now left|right; now exists bres]. }
  rewrite List.filter_app.
  rewrite (filter_http_out P _ HP (acquire_trace_http _ _)).
  assert (Hshape' :
            (main_df g = primary_frame results /\ outperform_val g = None)
            \/ (exists bench_results,
                   main_df g = compared_frame results d
                   /\ bench_df g = benchmark_frame bench_results d)).
  { destruct Hshape as [[_ ->]|(bres & _ & _ & _ & ->)];
      [left; split; reflexivity|right; now exists bres]. }
  rewrite (proj2 (render_trace w i (symbol_of i) results details d bench g
                    logo Hlogo Hne Hin Hcmp Hshape')).
  simpl app. simpl List.filter.
  rewrite (HP (HttpHead (img_url (symbol_of i)) 2) eq_refl).
  reflexivity.
Qed.

(** X12. The benchmark-dependent part of a completed page.  With a usable
    benchmark payload the page has the fourth tile with the
    outperformance, the growth chart of the two normalized series and the
    text under it; without one (no benchmark selected, or one selected and
    its fetch swallowed a failure) it has the prompt to select a benchmark
    and neither tile nor chart. *)
Theorem comparison_rendering_cases
    (stock : option aggs_payload) (details : option details_payload)
    (bench : option aggs_payload) (results : list bar) (d : float)
    (g : globals)
    (Hsymbol : Str.truthy (symbol_of i) = true)
    (Hacquire : result (acquire w (symbol_of i)
                          (BENCHMARK_MAP !! benchmark_label i))
                = Ret (stock, details, bench))
    (Husable : usable_results stock = Some results)
    (Hrun : result (main w i) = Ret g) :
  List.filter is_comparison_rendering (trace (main w i))
  = match usable_results bench with
    | Some bench_results =>
        comparison_rendering i (symbol_of i) results bench_results d
    | None => [Info select_benchmark_prompt]
    end.
Proof.
  destruct (completed_run stock details bench results d g
              is_comparison_rendering Hsymbol Hacquire Husable Hrun)
    as (logo & Hlogo & Hne & Hshape & ->).
  { intros [] H; (discriminate H || reflexivity). }
  destruct Hshape as [[-> ->]|(bres & -> & _ & ->)];
    destruct Hlogo as [-> | ->]; try reflexivity;
    unfold comparison_rendering; rewrite !List.filter_app; simpl;
    destruct (benchmark_label i); reflexivity.
Qed.

(** X13. The rest of a completed page, in order: the title, the two
    header columns with the logo or its placeholder and the display name
    (the provider's name when the reference payload has one, the symbol
    otherwise), the metrics heading with four columns when there is an
    outperformance and three otherwise, the two tabs, the three links
    built from the symbol, and the raw data table, which shows the primary
    frame as the comparison left it. *)
Theorem page_frame
    (stock : option aggs_payload) (details : option details_payload)
    (bench : option aggs_payload) (results : list bar) (g : globals)
    (Hsymbol : Str.truthy (symbol_of i) = true)
    (Hacquire : result (acquire w (symbol_of i)
                          (BENCHMARK_MAP !! benchmark_label i))
                = Ret (stock, details, bench))
    (Husable : usable_results stock = Some results)
    (Hrun : result (main w i) = Ret g) :
  let symbol := symbol_of i in
  exists logo,
    (logo = Image (img_url symbol) 70 \/ logo = Markdown "## 🏢")
    /\ List.filter is_page_frame (trace (main w i))
       = [Title dashboard_title; Columns 2; logo;
          Header (company_name_of details symbol);
          Markdown "### 📊 Performance Metrics";
          Columns (match outperform_val g with Some _ => 4 | None => 3 end);
          Tabs "🕯️ Candlestick Chart" "📈 Growth Comparison";
          Markdown "---"; Subheader "📰 Market Insights"; Columns 3;
          LinkButton "Yahoo Finance"
            ("https://finance.yahoo.com/quote/" ++ symbol);
          LinkButton "Seeking Alpha"
            ("https://seekingalpha.com/symbol/" ++ symbol);
          LinkButton "Google News"
            ("https://www.google.com/search?q=" ++ symbol
             ++ "+stock+news&tbm=nws");
          RawDataTable (main_df g)].
Proof.
  intros symbol.
  destruct (completed_run stock details bench results 0%float g
              is_page_frame Hsymbol Hacquire Husable Hrun)
    as (logo & Hlogo & Hne & Hshape & ->).
  { intros [] H; (discriminate H || reflexivity). }
  exists logo. split; [exact Hlogo|].
  destruct Hshape as [[_ ->]|(bres & _ & _ & ->)];
    destruct Hlogo as [-> | ->]; try reflexivity;
    rewrite !List.filter_app; simpl;
    destruct (benchmark_label i); reflexivity.
Qed.

End PageContents.

Lemma comparison_rendering_cases_witness :
  let w := mkWorld "k"
             (fun url =>
                if String.prefix "https://api.polygon.io/v2/aggs/ticker/AAPL/"
                     url
                then Responded 200
                       (Some (mkAggs (Some (flat_bars [150; 160]%float))))
                else Failed (RequestException Timeout))
             (fun _ => Responded 200 None) (fun _ => Responded 404 None) in
  let i := mkInputs ChooseFromList "AAPL" "" "S&P 500 (SPY)" in
  List.filter is_comparison_rendering
    (trace (main (pandas := ns_timestamps) w i))
  = [Info select_benchmark_prompt].
Proof.
  intros w0 i0.
  refine (comparison_rendering_cases w0 i0
            (Some (mkAggs (Some (flat_bars [150; 160]%float)))) None None
            (flat_bars [150; 160]%float) 0%float
            (mkGlobals (primary_frame (flat_bars [150; 160]%float))
               empty_frame None) _ _ _ _); reflexivity.
Defined.

Lemma page_frame_witness :
  let w := mkWorld "k"
             (fun _ => Responded 200
                         (Some (mkAggs (Some (flat_bars [150; 160]%float)))))
             (fun _ => Responded 200
                         (Some (mkDetails
                                  (Some (mkDetailsResults (Some "Apple Inc."))))))
             (fun _ => Responded 200 None) in
  let i := mkInputs ChooseFromList "AAPL" "" "None" in
  exists logo,
    (logo = Image (img_url "AAPL") 70 \/ logo = Markdown "## 🏢")
    /\ List.filter is_page_frame (trace (main (pandas := ns_timestamps) w i))
       = [Title dashboard_title; Columns 2; logo;
          Header "Apple Inc.";
          Markdown "### 📊 Performance Metrics";
          Columns 3;
          Tabs "🕯️ Candlestick Chart" "📈 Growth Comparison";
          Markdown "---"; Subheader "📰 Market Insights"; Columns 3;
          LinkButton "Yahoo Finance" "https://finance.yahoo.com/quote/AAPL";
          LinkButton "Seeking Alpha" "https://seekingalpha.com/symbol/AAPL";
          LinkButton "Google News"
            "https://www.google.com/search?q=AAPL+stock+news&tbm=nws";
          RawDataTable (primary_frame (flat_bars [150; 160]%float))].
Proof.
  intros w0 i0.
  refine (page_frame w0 i0
            (Some (mkAggs (Some (flat_bars [150; 160]%float))))
            (Some (mkDetails (Some (mkDetailsResults (Some "Apple Inc.")))))
            None (flat_bars [150; 160]%float)
            (mkGlobals (primary_frame (flat_bars [150; 160]%float))
               empty_frame None) _ _ _ _); reflexivity.
Defined.

Section Flat.

Context {pandas : Pandas}.

Lemma SFsub_self (x : spec_float) :
  match x with S754_zero _ | S754_finite _ _ _ => True | _ => False end ->
  SF64sub x x = S754_zero false.
Proof.
  destruct x as [s|s| |s m e]; try contradiction; intros _.
  - destruct s; reflexivity.
  - unfold SF64sub, SFsub. rewrite Z.sub_diag. reflexivity.
Qed.

Lemma sub_self (x : float) :
  PrimFloat.is_finite x = true -> (x - x)%float = 0%float.
Proof.
  intros Hfin. apply Prim2SF_inj. rewrite FloatAxioms.sub_spec.
  apply SFsub_self.
  revert Hfin. unfold PrimFloat.is_finite, PrimFloat.is_nan, is_infinity.
  rewrite !FloatAxioms.eqb_spec, FloatAxioms.abs_spec.
  change (Prim2SF infinity) with (S754_infinity false).
  destruct (Prim2SF x) as [s|s| |s m e]; try (intros _; exact I);
    try destruct s; discriminate.
Qed.

Lemma pct_unchanged (p : float) :
  PrimFloat.ltb 0 p = true -> PrimFloat.ltb p infinity = true ->
  pct p p = 0%float.
Proof.
  intros Hpos Hfin. destruct (positive_finite_spec p Hpos Hfin) as (m & e & Hp).
  unfold pct. apply Prim2SF_inj.
  rewrite FloatAxioms.mul_spec, FloatAxioms.div_spec, FloatAxioms.sub_spec, Hp.
  rewrite SFsub_self by exact I. reflexivity.
Qed.

Lemma positive_nonzero (p : float) :
  PrimFloat.ltb 0 p = true -> PrimFloat.eqb p 0 = false.
Proof.
  rewrite FloatAxioms.ltb_spec, FloatAxioms.eqb_spec.
  change (Prim2SF 0) with (S754_zero false).
  destruct (Prim2SF p) as [s|s| |s m e]; try discriminate;
    destruct s; try discriminate; reflexivity.
Qed.

(** X14. A price that did not move gives a return of exactly 0.0,
    whichever class the numbers have; so a history of a single bar (first
    close, latest close and week base are one and the same value) shows a
    total return and a week return of 0.0. *)
Theorem unchanged_price_zero_return (p : float)
    (Hpos : PrimFloat.ltb 0 p = true)
    (Hfin : PrimFloat.ltb p infinity = true) :
  calculate_percentage_return (PyFloat p) (PyFloat p) = Ret (PyFloat 0)
  /\ calculate_percentage_return (NpFloat64 p) (NpFloat64 p)
     = Ret (NpFloat64 0)
  /\ (forall r : bar,
        bar_c r = p ->
        bind (transform [r]) metrics
        = if datetime_in_bounds [bar_t r]
          then ret (NpFloat64 p, NpFloat64 0, NpFloat64 0)
          else raise OutOfBoundsDatetime).
Proof.
  pose proof (pct_unchanged p Hpos Hfin) as Hpct. unfold pct in Hpct.
  split; [|split].
  - unfold calculate_percentage_return. simpl.
    rewrite (positive_nonzero p Hpos). simpl. now rewrite Hpct.
  - unfold calculate_percentage_return. simpl. now rewrite Hpct.
  - intros r Hr.
    rewrite (transform_metrics_run [r] metrics) by discriminate.
    rewrite (metrics_primary_frame [r] 0%float) by discriminate.
    unfold week_base. simpl. rewrite Hr. fold (pct p p).
    now rewrite (pct_unchanged p Hpos Hfin).
Qed.

(** X15. A series compared with itself (the symbol typed is the
    benchmark's own symbol, so the provider answers both requests with the
    same bars): whenever the total return is a finite number the
    outperformance is exactly 0.0, and the two normalized columns are the
    same series.  (The comparison converts the benchmark's timestamps,
    which are the primary frame's: it returns wherever the transformation
    did.) *)
Theorem benchmark_against_itself (results : list bar) (d : float)
    (bench : option aggs_payload)
    (Hne : results <> [])
    (Hbench : usable_results bench = Some results)
    (Hfinite : PrimFloat.is_finite (Num.value (total_return results d))
               = true) :
  exists g,
    comparison (primary_frame results) (total_return results d) bench
    = (if datetime_in_bounds (map bar_t results)
       then ret g else raise OutOfBoundsDatetime)
    /\ outperform_val g = Some (NpFloat64 0)
    /\ Pd.column (columns (main_df g)) "Normalized"
       = Pd.column (columns (bench_df g)) "Normalized"
    /\ Pd.column (columns (main_df g)) "Normalized"
       = Some (Pd.div_mul100 (map bar_c results)
                 (NpFloat64 (nth 0 (map bar_c results) d))).
Proof.
  eexists. split.
  - destruct (datetime_in_bounds (map bar_t results)) eqn:Hin.
    + apply (comparison_with_benchmark results results _ bench d Hne Hne
               Hbench Hin).
    + apply (comparison_out_of_bounds _ results _ bench Hne Hbench Hin).
  - cbv zeta. split; [|split; reflexivity].
    change (Some (outperformance (total_return results d)
                    (total_return results d)) = Some (NpFloat64 0)).
    unfold total_return, outperformance in *. simpl in Hfinite |- *.
    now rewrite (sub_self _ Hfinite).
Qed.

End Flat.

Lemma unchanged_price_zero_return_witness :
  calculate_percentage_return (PyFloat 150) (PyFloat 150) = Ret (PyFloat 0).
Proof.
  refine (proj1 (unchanged_price_zero_return (pandas := ns_timestamps)
                   150%float _ _)); reflexivity.
Defined.

Lemma benchmark_against_itself_witness :
  exists g,
    comparison (pandas := ns_timestamps)
      (primary_frame (flat_bars [400; 410]%float))
      (total_return (flat_bars [400; 410]%float) 0%float)
      (Some (mkAggs (Some (flat_bars [400; 410]%float))))
    = ret g
    /\ outperform_val g = Some (NpFloat64 0)
    /\ Pd.column (columns (main_df g)) "Normalized"
       = Pd.column (columns (bench_df g)) "Normalized"
    /\ Pd.column (columns (main_df g)) "Normalized"
       = Some (Pd.div_mul100 (map bar_c (flat_bars [400; 410]%float))
                 (NpFloat64 (nth 0 (map bar_c (flat_bars [400; 410]%float))
                               0%float))).
Proof.
  refine (benchmark_against_itself (pandas := ns_timestamps)
            (flat_bars [400; 410]%float) 0%float
            (Some (mkAggs (Some (flat_bars [400; 410]%float)))) _ _ _).
  - discriminate.
  - reflexivity.
  - vm_compute. reflexivity.
Defined.

(* ===================================================================== *)
(** ** Binary64 arithmetic: subtraction keeps the order                  *)
(* ===================================================================== *)

Section Aligning.

Lemma iter_xO (d m : positive) :
  Z.pos (Pos.iter xO m d) = Z.pos m * 2 ^ Z.pos d.
Proof.
  induction d as [|d IH] using Pos.peano_ind; [simpl; lia|].
  rewrite Pos.iter_succ, Pos2Z.inj_xO, IH, Pos2Z.inj_succ.
  rewrite Z.pow_succ_r by lia. lia.
Qed.

Lemma shl_align_spec (m : positive) (e e' : Z) :
  exists m1 e1,
    shl_align m e e' = (m1, e1)
    /\ e1 = Z.min e e'
    /\ Z.pos m1 = Z.pos m * 2 ^ (e - e1).
Proof.
  unfold shl_align. destruct (e' - e) as [|d|d] eqn:Hd.
  - exists m, e. split; [reflexivity|]. split; [lia|].
    rewrite Z.sub_diag. simpl. lia.
  - exists m, e. split; [reflexivity|]. split; [lia|].
    rewrite Z.sub_diag. simpl. lia.
  - exists (Pos.iter xO m d), e'. split; [reflexivity|]. split; [lia|].
    rewrite iter_xO. f_equal. f_equal. lia.
Qed.

Lemma Zdigits2_shift (m k : Z) :
  0 < m -> 0 <= k -> Zdigits2 (m * 2 ^ k) = Zdigits2 m + k.
Proof.
  intros Hm Hk.
  pose proof (Zdigits2_lower m Hm) as Hl.
  pose proof (Zdigits2_upper m ltac:(lia)) as Hu.
  pose proof (Zdigits2_nonneg m) as Hn.
  assert (Hd : 0 < Zdigits2 m) by (destruct m; simpl in *; lia).
  assert (Hp : 0 < 2 ^ k) by (apply pow2_pos; lia).
  apply Zdigits2_unique; [nia|].
  replace (Zdigits2 m + k - 1) with (Zdigits2 m - 1 + k) by lia.
  rewrite !Z.pow_add_r by lia. split; nia.
Qed.

(** What [binary_round] hands to the rounding: the same value, with an
    exponent the format can take. *)
Lemma binary_round_located (s : bool) (m : positive) (e : Z) :
  -1074 <= e ->
  exists m1 e1,
    binary_round prec emax s m e
    = binary_round_aux prec emax s (Z.pos m1) e1 loc_Exact
    /\ -1074 <= e1
    /\ Z.pos m1 * 2 ^ (e1 + 1074) = Z.pos m * 2 ^ (e + 1074)
    /\ e1 <= fexp prec emax (Zdigits2 (Z.pos m1) + e1).
Proof.
  intros He. unfold binary_round.
  change (Z.pos (digits2_pos m)) with (Zdigits2 (Z.pos m)).
  destruct (shl_align_spec m e (fexp prec emax (Zdigits2 (Z.pos m) + e)))
    as (m1 & e1 & -> & He1 & Hm1).
  exists m1, e1. split; [reflexivity|].
  pose proof (fexp_eq (Zdigits2 (Z.pos m) + e)) as Hf.
  split; [lia|]. split.
  - rewrite Hm1, <- Z.mul_assoc, <- Z.pow_add_r by lia. f_equal. f_equal. lia.
  - rewrite Hm1, Zdigits2_shift by lia.
    replace (Zdigits2 (Z.pos m) + (e - e1) + e1)
      with (Zdigits2 (Z.pos m) + e) by lia.
    lia.
Qed.

(** A stored value is rounded to itself. *)
Lemma binary_round_stored (s : bool) (m : positive) (e : Z) :
  stored (Z.pos m) e -> e <= emax - prec ->
  binary_round prec emax s m e = S754_finite s m e.
Proof.
  intros [[H _]|[_ Hf]] He; [discriminate H|].
  unfold binary_round.
  change (Z.pos (digits2_pos m)) with (Zdigits2 (Z.pos m)).
  rewrite Hf. unfold shl_align. rewrite Z.sub_diag.
  unfold binary_round_aux, shr_fexp. rewrite Hf, Z.sub_diag. simpl shr.
  cbn [loc_of_shr_record shr_record_of_loc shr_m shr_r shr_s
       round_nearest_even].
  rewrite Hf, Z.sub_diag. simpl.
  apply Z.leb_le in He. now rewrite He.
Qed.

End Aligning.

Section Normalizing.

Lemma binary_round_opp (m : positive) (e : Z) :
  binary_round prec emax true m e = SFopp (binary_round prec emax false m e).
Proof.
  unfold binary_round. destruct (shl_align m e _) as [mz ez].
  now rewrite SFopp_binary_round_aux.
Qed.

Lemma binary_round_shape (m : positive) (e : Z) :
  -1074 <= e ->
  exists m' e',
    0 <= m' /\ binary_round prec emax false m e = assemble false m' e'
    /\ binary_round prec emax true m e = SFopp (assemble false m' e').
Proof.
  intros He.
  destruct (binary_round_located false m e He) as (m1 & e1 & Hf & He1 & Hv & Ha).
  assert (Hin : inbetween_loc (Z.pos m1) loc_Exact
                  (Z.pos m * 2 ^ (e + 1074)) (1 * 2 ^ (e1 - -1074))).
  { unfold inbetween_loc, inbetween_record, inbetween.
    cbn [shr_record_of_loc shr_m shr_r shr_s].
    replace (e1 - -1074) with (e1 + 1074) by lia. rewrite Z.mul_1_l. lia. }
  destruct (binary_round_aux_shape false (Z.pos m1) e1 loc_Exact _ 1 (-1074)
              ltac:(lia) ltac:(lia) He1 Hin Ha)
    as (mrs & e' & m'' & e'' & Heq & Hst & _).
  exists m'', e''. split; [apply (stored_bounds _ _ Hst)|].
  split; [now rewrite Hf|].
  now rewrite binary_round_opp, Hf, Heq.
Qed.

Lemma binary_round_mono (m1 : positive) (e1 : Z) (m2 : positive) (e2 : Z) :
  -1074 <= e1 -> -1074 <= e2 ->
  Z.pos m1 * 2 ^ (e1 + 1074) <= Z.pos m2 * 2 ^ (e2 + 1074) ->
  SFleb (binary_round prec emax false m1 e1)
        (binary_round prec emax false m2 e2) = true.
Proof.
  intros He1 He2 Hle.
  destruct (binary_round_located false m1 e1 He1)
    as (a & ea & -> & Hea & Hva & Haa).
  destruct (binary_round_located false m2 e2 He2)
    as (b & eb & -> & Heb & Hvb & Hab).
  apply (binary_round_aux_mono (Z.pos a) ea loc_Exact (Z.pos b) eb loc_Exact
           (Z.pos m1 * 2 ^ (e1 + 1074)) (Z.pos m2 * 2 ^ (e2 + 1074))
           1 (-1074)); try assumption; try lia.
  - unfold inbetween_loc, inbetween_record, inbetween.
    cbn [shr_record_of_loc shr_m shr_r shr_s].
    replace (ea - -1074) with (ea + 1074) by lia. rewrite Z.mul_1_l. lia.
  - unfold inbetween_loc, inbetween_record, inbetween.
    cbn [shr_record_of_loc shr_m shr_r shr_s].
    replace (eb - -1074) with (eb + 1074) by lia. rewrite Z.mul_1_l. lia.
Qed.

(** Rounding whole numbers of units keeps their order. *)
Lemma binary_normalize_mono (n1 e1 n2 e2 : Z) :
  -1074 <= e1 -> -1074 <= e2 ->
  n1 * 2 ^ (e1 + 1074) <= n2 * 2 ^ (e2 + 1074) ->
  SFleb (binary_normalize prec emax n1 e1 false)
        (binary_normalize prec emax n2 e2 false) = true.
Proof.
  intros He1 He2 Hle.
  assert (P1 : 0 < 2 ^ (e1 + 1074)) by (apply pow2_pos; lia).
  assert (P2 : 0 < 2 ^ (e2 + 1074)) by (apply pow2_pos; lia).
  destruct n1 as [|p1|p1], n2 as [|p2|p2]; simpl binary_normalize;
    try (exfalso; nia).
  - reflexivity.
  - destruct (binary_round_shape p2 e2 He2) as (m & e & Hm & -> & _).
    now apply SFleb_zero_nonneg.
  - now apply binary_round_mono.
  - destruct (binary_round_shape p1 e1 He1) as (m & e & Hm & _ & ->).
    now apply SFleb_neg_zero.
  - destruct (binary_round_shape p1 e1 He1) as (m & e & Hm & _ & ->).
    destruct (binary_round_shape p2 e2 He2) as (m' & e' & Hm' & -> & _).
    now apply SFleb_neg_nonneg.
  - destruct (binary_round_shape p1 e1 He1) as (m & e & Hm & Hf1 & ->).
    destruct (binary_round_shape p2 e2 He2) as (m' & e' & Hm' & Hf2 & ->).
    rewrite SFleb_opp_assemble by assumption.
    rewrite <- Hf1, <- Hf2. apply binary_round_mono; try assumption.
    change (Z.neg p1) with (- Z.pos p1) in Hle.
    change (Z.neg p2) with (- Z.pos p2) in Hle. lia.
Qed.

Lemma binary_normalize_bounds (n e : Z) :
  -1074 <= e ->
  SFleb (S754_infinity true) (binary_normalize prec emax n e false) = true
  /\ SFleb (binary_normalize prec emax n e false) (S754_infinity false) = true.
Proof.
  intros He. destruct n as [|p|p]; simpl binary_normalize.
  - split; reflexivity.
  - destruct (binary_round_shape p e He) as (m & e' & Hm & -> & _).
    split; [|now apply SFleb_nonneg_inf].
    destruct m as [|q|q]; [| |lia]; simpl;
      try destruct (e' <=? emax - prec); reflexivity.
  - destruct (binary_round_shape p e He) as (m & e' & Hm & _ & ->).
    split; [now apply SFleb_inf_neg|].
    destruct m as [|q|q]; [| |lia]; simpl;
      try destruct (e' <=? emax - prec); reflexivity.
Qed.

End Normalizing.

Section SubtractionOrder.

Variables (mp : positive) (ep : Z).
Hypothesis valid_p : valid_binary (S754_finite false mp ep) = true.

Lemma valid_exponent (s : bool) (m : positive) (e : Z) :
  valid_binary (S754_finite s m e) = true -> e <= emax - prec.
Proof.
  simpl. unfold bounded. intros H. apply andb_prop in H.
  destruct H as [_ H]. now apply Z.leb_le in H.
Qed.

(** Floats in order hold whole numbers of units in order. *)
Lemma SFleb_units (x y : spec_float) :
  valid_binary x = true -> valid_binary y = true ->
  match x with S754_zero _ | S754_finite _ _ _ => True | _ => False end ->
  match y with S754_zero _ | S754_finite _ _ _ => True | _ => False end ->
  SFleb x y = true -> units x <= units y.
Proof.
  intros Vx Vy Fx Fy Hle.
  destruct x as [sx|sx| |sx mx ex]; try contradiction;
    destruct y as [sy|sy| |sy my ey]; try contradiction; simpl units.
  - lia.
  - destruct sy; [destruct sx; discriminate Hle|].
    apply valid_stored, stored_bounds in Vy.
    assert (0 < 2 ^ (ey + 1074)) by (apply pow2_pos; lia).
    simpl. lia.
  - destruct sx; [|destruct sy; discriminate Hle].
    apply valid_stored, stored_bounds in Vx.
    assert (0 < 2 ^ (ex + 1074)) by (apply pow2_pos; lia).
    simpl. lia.
  - pose proof (valid_stored _ _ _ Vx) as Sx.
    pose proof (valid_stored _ _ _ Vy) as Sy.
    pose proof (stored_bounds _ _ Sx) as (_ & Bx & _).
    pose proof (stored_bounds _ _ Sy) as (_ & By & _).
    assert (0 < 2 ^ (ex + 1074)) by (apply pow2_pos; lia).
    assert (0 < 2 ^ (ey + 1074)) by (apply pow2_pos; lia).
    destruct sx, sy; simpl cond_Zopp.
    + rewrite SFleb_finite_opp in Hle.
      pose proof (finite_le_value my ey mx ex (-1074) Sy Sx By Bx Hle) as H1.
      replace (ey - -1074) with (ey + 1074) in H1 by lia.
      replace (ex - -1074) with (ex + 1074) in H1 by lia. lia.
    + lia.
    + discriminate Hle.
    + pose proof (finite_le_value mx ex my ey (-1074) Sx Sy Bx By Hle) as H1.
      replace (ey - -1074) with (ey + 1074) in H1 by lia.
      replace (ex - -1074) with (ex + 1074) in H1 by lia. lia.
Qed.

(** [x - p] is the difference of the two whole numbers of units,
    rounded. *)
Lemma SFsub_units (x : spec_float) :
  valid_binary x = true ->
  match x with S754_zero _ | S754_finite _ _ _ => True | _ => False end ->
  exists n e,
    SF64sub x (S754_finite false mp ep) = binary_normalize prec emax n e false
    /\ -1074 <= e
    /\ n * 2 ^ (e + 1074) = units x - Z.pos mp * 2 ^ (ep + 1074).
Proof.
  intros Vx Fx.
  pose proof (valid_stored _ _ _ valid_p) as Sp.
  pose proof (stored_bounds _ _ Sp) as (_ & Bp & _).
  destruct x as [sx|sx| |sx mx ex]; try contradiction.
  - exists (Z.neg mp), ep. split; [|split; [exact Bp|simpl; lia]].
    simpl binary_normalize.
    rewrite (binary_round_stored true mp ep Sp (valid_exponent _ _ _ valid_p)).
    reflexivity.
  - pose proof (valid_stored _ _ _ Vx) as Sx.
    pose proof (stored_bounds _ _ Sx) as (_ & Bx & _).
    unfold SF64sub, SFsub. set (ez := Z.min ex ep).
    destruct (shl_align_spec mx ex ez) as (m1 & e1 & H1 & He1 & Hm1).
    destruct (shl_align_spec mp ep ez) as (m2 & e2 & H2 & He2 & Hm2).
    rewrite H1, H2. cbn [fst].
    eexists _, ez. split; [reflexivity|]. split; [unfold ez; lia|].
    assert (e1 = ez) by (unfold ez in *; lia).
    assert (e2 = ez) by (unfold ez in *; lia). subst e1 e2.
    rewrite Z.mul_sub_distr_r. simpl units.
    assert (Ha : Z.pos m1 * 2 ^ (ez + 1074) = Z.pos mx * 2 ^ (ex + 1074)).
    { rewrite Hm1, <- Z.mul_assoc, <- Z.pow_add_r by (unfold ez; lia).
      f_equal. f_equal. lia. }
    assert (Hb : Z.pos m2 * 2 ^ (ez + 1074) = Z.pos mp * 2 ^ (ep + 1074)).
    { rewrite Hm2, <- Z.mul_assoc, <- Z.pow_add_r by (unfold ez; lia).
      f_equal. f_equal. lia. }
    simpl cond_Zopp at 2. rewrite Hb.
    destruct sx; simpl cond_Zopp; lia.
Qed.

Lemma SFsub_mono (x y : spec_float) :
  valid_binary x = true -> valid_binary y = true ->
  SFleb x y = true ->
  SFleb (SF64sub x (S754_finite false mp ep))
        (SF64sub y (S754_finite false mp ep)) = true.
Proof.
  intros Vx Vy Hle.
  destruct x as [sx|sx| |sx mx ex] eqn:Hx; [| |discriminate Hle|];
    (destruct y as [sy|sy| |sy my ey] eqn:Hy;
     [| |try destruct sx; discriminate Hle|]).
  all: rewrite <- ?Hx, <- ?Hy in *.
  all: try (destruct (SFsub_units x Vx ltac:(subst x; exact I))
              as (n1 & e1 & -> & He1 & Hn1)).
  all: try (destruct (SFsub_units y Vy ltac:(subst y; exact I))
              as (n2 & e2 & -> & He2 & Hn2)).
  all: try (apply binary_normalize_mono; try assumption;
            pose proof (SFleb_units x y Vx Vy ltac:(subst x; exact I)
                          ltac:(subst y; exact I) Hle); lia).
  all: subst x y.
  all: try (destruct sx, sy; try discriminate Hle; reflexivity).
  all: try (destruct sy; [try destruct sx; discriminate Hle|];
            apply binary_normalize_bounds; assumption).
  all: try (destruct sx; [|try destruct sy; discriminate Hle];
            apply binary_normalize_bounds; assumption).
Qed.

End SubtractionOrder.

Section ReturnOrder.

Lemma sub_mono (a b p : float) :
  PrimFloat.ltb 0 p = true -> PrimFloat.ltb p infinity = true ->
  PrimFloat.leb a b = true ->
  PrimFloat.leb (a - p) (b - p) = true.
Proof.
  intros Hpos Hfin. destruct (positive_finite_spec p Hpos Hfin) as (m & e & Hp).
  rewrite !FloatAxioms.leb_spec, !FloatAxioms.sub_spec, Hp.
  apply SFsub_mono; try apply Prim2SF_valid.
  rewrite <- Hp. apply Prim2SF_valid.
Qed.

Lemma pct_mono (p c1 c2 : float) :
  PrimFloat.ltb 0 p = true -> PrimFloat.ltb p infinity = true ->
  PrimFloat.leb c1 c2 = true ->
  PrimFloat.leb (pct p c1) (pct p c2) = true.
Proof.
  intros Hpos Hfin Hle. unfold pct.
  apply mul_100_mono, div_mono; try assumption.
  now apply sub_mono.
Qed.

End ReturnOrder.

(** X17. The return follows the current price: against one positive
    finite past value, a current price that is less than or equal to
    another gives a return that is less than or equal to the other's,
    for built-in floats and numpy scalars alike, the three roundings of
    the formula notwithstanding. *)
Theorem return_monotone_in_price (past current1 current2 : number)
    (Hpos : PrimFloat.ltb 0 (Num.value past) = true)
    (Hfin : PrimFloat.ltb (Num.value past) infinity = true)
    (Hle : PrimFloat.leb (Num.value current1) (Num.value current2) = true) :
  exists r1 r2,
    calculate_percentage_return past current1 = Ret r1
    /\ calculate_percentage_return past current2 = Ret r2
    /\ PrimFloat.leb (Num.value r1) (Num.value r2) = true.
Proof.
  pose proof (positive_nonzero _ Hpos) as Hnz.
  unfold calculate_percentage_return.
  destruct (truediv_nonzero (Num.sub current1 past) past Hnz)
    as (q1 & -> & Hq1).
  destruct (truediv_nonzero (Num.sub current2 past) past Hnz)
    as (q2 & -> & Hq2).
  do 2 eexists. split; [reflexivity|]. split; [reflexivity|].
  rewrite !value_mul, Hq1, Hq2, !value_sub.
  apply (pct_mono (Num.value past) (Num.value current1) (Num.value current2));
    assumption.
Qed.

Lemma return_monotone_in_price_witness :
  exists r1 r2,
    calculate_percentage_return (PyFloat 150) (PyFloat 152) = Ret r1
    /\ calculate_percentage_return (PyFloat 150) (NpFloat64 160) = Ret r2
    /\ PrimFloat.leb (Num.value r1) (Num.value r2) = true.
Proof.
  refine (return_monotone_in_price (PyFloat 150) (PyFloat 152) (NpFloat64 160)
            _ _ _); reflexivity.
Defined.

(* ===================================================================== *)
(** ** Further properties: the API key                                   *)
(* ===================================================================== *)

Section ApiKey.

Context {pandas : Pandas}.
Variables (w w' : world) (i : inputs).

Lemma fetch_api_data_result_ext {A : Type} (get get' : string -> http_outcome A)
    (url url' : string) :
  get url = get' url' ->
  result (fetch_api_data get url) = result (fetch_api_data get' url').
Proof. intros H. now rewrite !fetch_api_data_run, H. Qed.

Hypothesis same_aggs :
  forall ticker, get_aggs w (aggs_url w ticker) = get_aggs w' (aggs_url w' ticker).
Hypothesis same_details :
  forall ticker,
    get_details w (info_url w ticker) = get_details w' (info_url w' ticker).
Hypothesis same_logo : forall url, head_logo w url = head_logo w' url.

Lemma acquire_result_ext (symbol : string) (benchmark_symbol : option string) :
  result (acquire w symbol benchmark_symbol)
  = result (acquire w' symbol benchmark_symbol).
Proof.
  unfold acquire. rewrite !result_bind.
  rewrite (fetch_api_data_result_ext (get_aggs w) (get_aggs w')
             (aggs_url w symbol) (aggs_url w' symbol) (same_aggs symbol)).
  destruct (result (fetch_api_data (get_aggs w') _)) as [stock| |];
    [|reflexivity..].
  rewrite !result_bind.
  rewrite (fetch_api_data_result_ext (get_details w) (get_details w')
             (info_url w symbol) (info_url w' symbol) (same_details symbol)).
  destruct (result (fetch_api_data (get_details w') _)) as [details| |];
    [|reflexivity..].
  rewrite !result_bind.
  destruct benchmark_symbol as [b|]; [destruct (Str.truthy b)|];
    try reflexivity.
  rewrite (fetch_api_data_result_ext (get_aggs w) (get_aggs w')
             (aggs_url w b) (aggs_url w' b) (same_aggs b)).
  reflexivity.
Qed.

Lemma render_world_ext (symbol : string) (results : list bar)
    (details : option details_payload) (bench : option aggs_payload) :
  render w i symbol results details bench
  = render w' i symbol results details bench.
Proof.
  unfold render, logo_column. now rewrite same_logo.
Qed.

(** X18. The API key reaches the page in no way: two runs with different
    keys whose requests are answered alike end alike and draw the same
    widgets, one for one.  The key is used to build the URLs of the GET
    requests and for nothing else. *)
Theorem api_key_is_never_shown :
  result (main w i) = result (main w' i)
  /\ widgets (main w i) = widgets (main w' i).
Proof.
  destruct (Str.truthy (symbol_of i)) eqn:Hsymbol.
  2:{ unfold main, widgets. rewrite Hsymbol. split; reflexivity. }
  rewrite !(main_nonempty_symbol _ i Hsymbol). unfold widgets.
  rewrite !result_bind, !trace_bind, !List.filter_app.
  fold (widgets (acquire w (symbol_of i) (BENCHMARK_MAP !! benchmark_label i))).
  fold (widgets (acquire w' (symbol_of i) (BENCHMARK_MAP !! benchmark_label i))).
  rewrite !acquire_widgets, acquire_result_ext.
  destruct (result (acquire w' _ _)) as [[[stock details] bench]| |];
    [|split; reflexivity..].
  destruct (usable_results stock) as [results|]; [|split; reflexivity].
  now rewrite render_world_ext.
Qed.

End ApiKey.

Lemma api_key_is_never_shown_witness :
  let answer := Responded 200
                  (Some (mkAggs (Some (flat_bars [150; 160]%float)))) in
  let w := mkWorld "key-1" (fun _ => answer) (fun _ => Responded 200 None)
             (fun _ => Responded 404 None) in
  let w' := mkWorld "key-2" (fun _ => answer) (fun _ => Responded 200 None)
              (fun _ => Responded 404 None) in
  let i := mkInputs ChooseFromList "AAPL" "" "None" in
  widgets (main (pandas := ns_timestamps) w i)
  = widgets (main (pandas := ns_timestamps) w' i).
Proof.
  intros answer w0 w1 i0.
  refine (proj2 (api_key_is_never_shown w0 w1 i0 _ _ _)); reflexivity.
Defined.
